(** * OneSectorGE: a shallow embedding of the multilateral-resistance and
    full-GE pipeline of [models/OneSectorGE.py]

    The Python code computes with numpy's float64.  The embedding is
    parametric in the arithmetic: a type [F] with the operations the code
    uses (class [Arith]).  Every theorem names the laws of that arithmetic it
    relies on; the few that are needed ([x * 1 = x], [1 / 1 = 1]) hold for
    IEEE doubles as well as for the reals.  Closed examples are run on the
    instance [RArith] (real numbers plus a not-a-number value).

    Python exceptions are values of [exn]; pure helpers live in the error
    monad [result], methods that mutate [self] in the state monad [M], which
    keeps the mutated object when an exception propagates, as Python does. *)

From Stdlib Require Import String Ascii.
From Stdlib Require Import Reals Lra.
From Stdlib Require Import ZArith Bool Arith Lia.
From Stdlib Require Import Permutation Sorted Orders Mergesort.
From Stdlib Require Import DecimalString.
From Stdlib Require Import List.
Import ListNotations.

Set Implicit Arguments.

(** ** Arithmetic of the floating-point values *)

Class Arith (F : Type) : Type := {
  fromZ : Z -> F;          (* an int literal used as a float: 0, 1, 100 *)
  fadd : F -> F -> F;
  fsub : F -> F -> F;
  fmul : F -> F -> F;
  fdiv : F -> F -> F;
  fpow : F -> F -> F;      (* x ** y *)
  fexp : F -> F;           (* numpy.exp; math.exp where it returns *)
  exp_overflows : F -> bool;
                           (* the arguments on which math.exp raises
                              OverflowError (doubles above about 709.78) *)
  nan : F;                 (* the missing value pandas fills in *)
  isnan : F -> bool;
  feqb : F -> F -> bool    (* == on floats *)
}.

Declare Scope float_scope.
Delimit Scope float_scope with fl.
Notation "x + y" := (fadd x y) : float_scope.
Notation "x - y" := (fsub x y) : float_scope.
Notation "x * y" := (fmul x y) : float_scope.
Notation "x / y" := (fdiv x y) : float_scope.
Notation "0" := (fromZ 0%Z) : float_scope.
Notation "1" := (fromZ 1%Z) : float_scope.
Notation "100" := (fromZ 100%Z) : float_scope.

(** ** Exceptions and the error monad *)

Inductive exn : Type :=
| ValueError (msg : string)
| TypeError (msg : string)
| KeyError (key : string)
| IndexError (msg : string)
| AttributeError (name : string)
| OverflowError (msg : string).

Inductive result (A : Type) : Type :=
| Ok (a : A)
| Raise (e : exn).
Arguments Ok {A} a.
Arguments Raise {A} e.

Definition rbind {A B} (c : result A) (k : A -> result B) : result B :=
  match c with
  | Ok a => k a
  | Raise e => Raise e
  end.

Declare Scope result_scope.
Delimit Scope result_scope with result.
Notation "x <- c ;; k" := (rbind c (fun x => k))
  (at level 61, c at next level, right associativity) : result_scope.

(** [[f(a) for a in l]], stopping at the first exception. *)
Fixpoint mapM {A B} (f : A -> result B) (l : list A) : result (list B) :=
  match l with
  | [] => Ok []
  | a :: l' =>
      match f a with
      | Ok b => match mapM f l' with
                | Ok bs => Ok (b :: bs)
                | Raise e => Raise e
                end
      | Raise e => Raise e
      end
  end.

(** [l[i]] for a non-negative index. *)
Definition getitem {A} (l : list A) (i : nat) : result A :=
  match nth_error l i with
  | Some a => Ok a
  | None => Raise (IndexError "index out of range")
  end.

(** [list.sort()] on country identifiers: Python orders [str] by code point,
    [String.leb] orders by byte; the two agree on UTF-8 text. *)
Module StringOrder <: TotalLeBool.
Definition t : Type := string.
Definition leb : t -> t -> bool := String.leb.
Lemma leb_total : forall a b, leb a b = true \/ leb b a = true.
Proof. exact String.leb_total. Qed.
End StringOrder.

Module StringSort := Sort StringOrder.

Definition sorted (l : list string) : list string := StringSort.sort l.

(** ** Python dicts: insertion-ordered association lists with unique keys *)

Definition dict (V : Type) : Type := list (string * V).

Fixpoint dict_get {V} (d : dict V) (k : string) : option V :=
  match d with
  | [] => None
  | (k', v) :: d' => if String.eqb k k' then Some v else dict_get d' k
  end.

(** [d[k] = v]: an existing key keeps its place, a new one goes last. *)
Fixpoint dict_set {V} (d : dict V) (k : string) (v : V) : dict V :=
  match d with
  | [] => [(k, v)]
  | (k', v') :: d' =>
      if String.eqb k k' then (k', v) :: d' else (k', v') :: dict_set d' k v
  end.

Definition keys {V} (d : dict V) : list string := map fst d.

(** [d[k]], raising [KeyError]. *)
Definition lookup {V} (d : dict V) (k : string) : result V :=
  match dict_get d k with
  | Some v => Ok v
  | None => Raise (KeyError k)
  end.

(** ** Warnings and console output *)

Inductive event : Type :=
| Warn (msg : string)        (* warnings.warn(msg) *)
| Print (msg : string)       (* print(msg) *)
| WriteCsv (path : string).  (* DataFrame.to_csv(path) *)

(** ** The monad of methods: state, log and exceptions

    A method of an object of type [S] maps the object to its outcome, the
    object as the method left it (also when it raised) and the events it
    emitted, oldest first. *)

Definition M (S A : Type) : Type := S -> result A * S * list event.

Definition ret {S A} (a : A) : M S A := fun s => (Ok a, s, []).

Definition bind {S A B} (c : M S A) (k : A -> M S B) : M S B :=
  fun s =>
    match c s with
    | (Ok a, s', log) =>
        match k a s' with
        | (r, s'', log') => (r, s'', log ++ log')
        end
    | (Raise e, s', log) => (Raise e, s', log)
    end.

Definition raise {S A} (e : exn) : M S A := fun s => (Raise e, s, []).
Definition get {S} : M S S := fun s => (Ok s, s, []).
Definition gets {S A} (f : S -> A) : M S A := fun s => (Ok (f s), s, []).
Definition modify {S} (f : S -> S) : M S unit := fun s => (Ok tt, f s, []).
Definition emit {S} (e : event) : M S unit := fun s => (Ok tt, s, [e]).
Definition warn {S} (msg : string) : M S unit := emit (Warn msg).
Definition lift {S A} (r : result A) : M S A := fun s => (r, s, []).
Definition when {S} (b : bool) (c : M S unit) : M S unit :=
  if b then c else ret tt.

Declare Scope method_scope.
Delimit Scope method_scope with M.
Notation "x <- c ;; k" := (bind c (fun x => k))
  (at level 61, c at next level, right associativity) : method_scope.
Notation "c ;; k" := (bind c (fun _ => k))
  (at level 61, right associativity) : method_scope.

(** [for a in l: body(a)] *)
Fixpoint for_each {S A} (l : list A) (body : A -> M S unit) : M S unit :=
  match l with
  | [] => ret tt
  | a :: l' => (body a ;; for_each l' body)%M
  end.

(** [[body(a) for a in l]] *)
Fixpoint for_list {S A B} (l : list A) (body : A -> M S B) : M S (list B) :=
  match l with
  | [] => ret []
  | a :: l' => (b <- body a ;; bs <- for_list l' body ;; ret (b :: bs))%M
  end.

(** A method of a part of the object (a country of the country set), run
    on the whole: [get_part] finds the part, [set_part] puts it back. *)
Definition zoom {S P A} (get_part : S -> result P) (set_part : P -> S -> S)
    (c : M P A) : M S A :=
  fun s =>
    match get_part s with
    | Ok p => match c p with
              | (r, p', log) => (r, set_part p' s, log)
              end
    | Raise e => (Raise e, s, [])
    end.

(** ** Python values that may be [None] *)

Section Model.

Context {F : Type} {AF : Arith F}.

(** An attribute that holds a float, [None], or a string (the country
    identifier, the year, the sentinel ['no estimate']). *)
Inductive pyval : Type :=
| PyNone
| PyFloat (v : F)
| PyStr (s : string).

Definition unsupported_operand : exn :=
  TypeError "unsupported operand type(s)".

(** The float an arithmetic operator finds in its operand; [None] and
    strings make float arithmetic raise [TypeError]. *)
Definition as_float (v : pyval) : result F :=
  match v with
  | PyFloat x => Ok x
  | _ => Raise unsupported_operand
  end.

Definition is_None (v : pyval) : bool :=
  match v with
  | PyNone => true
  | _ => false
  end.

(** ** numpy and builtins used by the residual functions *)

Definition matrix : Type := list (list F).

(** [m[i, :]] *)
Definition matrix_row (m : matrix) (i : nat) : result (list F) :=
  getitem m i.

(** [m[:, j]] *)
Definition matrix_col (m : matrix) (j : nat) : result (list F) :=
  mapM (fun row => getitem row j) m.

Fixpoint zip_with {A B C} (f : A -> B -> C) (a : list A) (b : list B) : list C :=
  match a, b with
  | x :: a', y :: b' => f x y :: zip_with f a' b'
  | _, _ => []
  end.

(** [numpy.multiply] on two one-dimensional arrays: a length-one operand is
    broadcast, other length mismatches raise [ValueError]. *)
Definition multiply (a b : list F) : result (list F) :=
  match a, b with
  | [a0], _ => Ok (map (fun y => a0 * y)%fl b)
  | _, [b0] => Ok (map (fun x => x * b0)%fl a)
  | _, _ =>
      if Nat.eqb (length a) (length b)
      then Ok (zip_with fmul a b)
      else Raise (ValueError "operands could not be broadcast together")
  end.

(** The builtin [sum]: a left fold that starts from the int [0]. *)
Definition py_sum (l : list F) : F := fold_left fadd l 0%fl.

(** [array * scalar], where the scalar may be [None]. *)
Definition scale (l : list F) (r : pyval) : result (list F) :=
  mapM (fun v => c <- as_float r ;; Ok (v * c)%fl)%result l.

(** ** The multilateral-resistance residual function *)

(** The dict [mr_params]. *)
Record MRParams : Type := {
  mr_number_of_countries : nat;
  mr_omr_rescale : pyval;
  mr_imr_rescale : pyval;
  mr_cost_exp_shr : matrix;
  mr_cost_out_shr : matrix
}.

(** One equation of the form [1 - v[k] * sum(multiply(line, w))]. *)
Definition mr_equation (v : list F) (k : nat) (line : result (list F))
    (w : list F) : result F :=
  (vk <- getitem v k ;;
   l <- line ;;
   prod <- multiply l w ;;
   Ok (1 - vk * py_sum prod)%fl)%result.

Definition _multilateral_resistances (x : list F) (mr_params : MRParams)
    : result (list F) :=
  let num_countries := mr_number_of_countries mr_params in
  let cost_exp_shr := mr_cost_exp_shr mr_params in
  let cost_out_shr := mr_cost_out_shr mr_params in
  let imr_rescale := mr_imr_rescale mr_params in
  let omr_rescale := mr_omr_rescale mr_params in
  (x_imr <- scale (firstn (num_countries - 1) x) imr_rescale ;;
   x_omr <- scale (skipn (num_countries - 1) x) omr_rescale ;;
   out <- mapM (fun j => mr_equation x_imr j (matrix_col cost_out_shr j) x_omr)
               (seq 0 (num_countries - 1)) ;;
   let x_imr := x_imr ++ [1%fl] in
   out' <- mapM (fun i => mr_equation x_omr i (matrix_row cost_exp_shr i) x_imr)
                (seq 0 num_countries) ;;
   Ok (out ++ out'))%result.

(** ** The full-GE residual function *)

(** The dict [ge_params]. *)
Record GEParams : Type := {
  ge_number_of_countries : nat;
  ge_omr_rescale : pyval;
  ge_imr_rescale : pyval;
  ge_sigma : F;
  ge_cost_exp_shr : matrix;
  ge_cost_out_shr : matrix;
  ge_output_shr : list pyval;
  ge_factory_gate_param : list pyval
}.

(** [1 - ((out_share[i] * x_omr[i]) / (beta[i] * x_price[i] ** sigma_power))] *)
Definition price_equation (out_share : list pyval) (x_omr : list F)
    (beta : list pyval) (x_price : list F) (sigma_power : F) (i : nat)
    : result F :=
  (s <- getitem out_share i ;;
   o <- getitem x_omr i ;;
   sv <- as_float s ;;
   b <- getitem beta i ;;
   p <- getitem x_price i ;;
   bv <- as_float b ;;
   Ok (1 - (sv * o) / (bv * fpow p sigma_power))%fl)%result.

Definition _full_ge (x : list F) (ge_params : GEParams) : result (list F) :=
  let num_countries := ge_number_of_countries ge_params in
  let sigma_power := (1 - ge_sigma ge_params)%fl in
  let out_share := ge_output_shr ge_params in
  let cost_exp_shr := ge_cost_exp_shr ge_params in
  let cost_out_shr := ge_cost_out_shr ge_params in
  let beta := ge_factory_gate_param ge_params in
  let omr_rescale := ge_omr_rescale ge_params in
  let imr_rescale := ge_imr_rescale ge_params in
  (x_imr <- scale (firstn (num_countries - 1) x) imr_rescale ;;
   x_omr <- scale (firstn num_countries (skipn (num_countries - 1) x))
                  omr_rescale ;;
   let x_price := skipn (2 * num_countries - 1) x in
   out <- mapM (fun j => mr_equation x_imr j (matrix_col cost_out_shr j) x_omr)
               (seq 0 (num_countries - 1)) ;;
   let x_imr := x_imr ++ [1%fl] in
   out' <- mapM (fun i => mr_equation x_omr i (matrix_row cost_exp_shr i) x_imr)
                (seq 0 num_countries) ;;
   out'' <- mapM (price_equation out_share x_omr beta x_price sigma_power)
                 (seq 0 num_countries) ;;
   Ok (out ++ out' ++ out''))%result.

(** ** The root finder, an external capability

    [scipy.optimize.root] returns an [OptimizeResult]; the code reads its
    solution vector, success flag, message and residuals. *)
Record OptimizeResult : Type := {
  opt_x : list F;
  opt_success : bool;
  opt_message : string;
  opt_fun : list F
}.

Definition converged_message : string := "The solution converged.".

(** ** Country and Economy objects

    A Python object is its attribute dict.  Reading an attribute that was
    never assigned raises [AttributeError]. *)
Definition pyobject : Type := dict pyval.
Definition Country : Type := pyobject.
Definition Economy : Type := pyobject.

Definition getattr (o : pyobject) (name : string) : result pyval :=
  match dict_get o name with
  | Some v => Ok v
  | None => Raise (AttributeError name)
  end.

Definition setattr (name : string) (v : pyval) : M pyobject unit :=
  modify (fun o => dict_set o name v).

(** [self.<name>] inside a method of the object. *)
Definition attr (name : string) : M pyobject pyval :=
  fun o => (getattr o name, o, []).

(** [Country.__init__] *)
Definition new_Country (identifier year : string)
    (baseline_output baseline_expenditure : pyval)
    (baseline_importer_fe baseline_exporter_fe : pyval)
    (reference_expenditure : pyval) : Country :=
  [ ("identifier", PyStr identifier);
    ("year", PyStr year);
    ("baseline_output", baseline_output);
    ("baseline_expenditure", baseline_expenditure);
    ("baseline_importer_fe", baseline_importer_fe);
    ("baseline_exporter_fe", baseline_exporter_fe);
    ("_reference_expenditure", reference_expenditure);
    ("baseline_output_share", PyNone);
    ("baseline_expenditure_share", PyNone);
    ("baseline_export_costs", PyNone);
    ("baseline_import_costs", PyNone);
    ("baseline_imr", PyNone);
    ("baseline_omr", PyNone);
    ("factory_gate_price_param", PyNone);
    ("baseline_factory_price", PyFloat 1%fl);
    ("conditional_imr", PyNone);
    ("conditional_omr", PyNone);
    ("experiment_imr", PyNone);
    ("experiment_omr", PyNone);
    ("experiment_factory_price", PyNone);
    ("experiment_output", PyNone);
    ("experiment_expenditure", PyNone);
    ("baseline_terms_of_trade", PyNone);
    ("experiment_terms_of_trade", PyNone);
    ("output_change", PyNone);
    ("expenditure_change", PyNone);
    ("terms_of_trade_change", PyNone);
    ("factory_price_change", PyNone);
    ("baseline_imports", PyNone);
    ("baseline_exports", PyNone);
    ("baseline_foreign_exports", PyNone);
    ("baseline_foreign_imports", PyNone);
    ("experiment_imports", PyNone);
    ("experiment_exports", PyNone);
    ("experiment_foreign_imports", PyNone);
    ("experiment_foreign_exports", PyNone);
    ("foreign_imports_change", PyNone);
    ("foreign_exports_change", PyNone) ]%string.

(** [Economy.__init__] *)
Definition new_Economy (sigma : F) : Economy :=
  [ ("sigma", PyFloat sigma);
    ("experiment_total_output", PyNone);
    ("experiment_total_expenditure", PyNone);
    ("baseline_total_output", PyNone);
    ("baseline_total_expenditure", PyNone);
    ("output_change", PyNone) ]%string.

(** Binary float operators on attribute values. *)
Definition binop (op : F -> F -> F) (a b : pyval) : result pyval :=
  (x <- as_float a ;; y <- as_float b ;; Ok (PyFloat (op x y)))%result.

(** [100 * (new - old) / old] *)
Definition percent_change_of (new old : F) : F :=
  (100 * (new - old) / old)%fl.

(** ** Data frames *)

(** A row of the estimation data: the key columns, the trade flow, and the
    remaining columns in the order of [df_columns]. *)
Record Observation : Type := {
  obs_importer : string;
  obs_exporter : string;
  obs_year : string;
  obs_trade : F;
  obs_values : list F
}.

Record DataFrame : Type := {
  df_columns : list string;
  df_rows : list Observation
}.

(** A row of a trade-cost table. *)
Record CostRow : Type := {
  tc_importer : string;
  tc_exporter : string;
  tc_year : string;
  trade_cost : F
}.

(** A row of [cost_shock]. *)
Record ShockRow : Type := {
  cs_importer : string;
  cs_exporter : string;
  cs_year : string;
  baseline_trade_cost : F;
  experiment_trade_cost : F
}.

(** A row of [bilateral_trade_results]. *)
Record BilateralRow : Type := {
  bt_exporter : string;
  bt_importer : string;
  baseline_modeled_trade : F;
  experiment_trade : F;
  percent_change : F
}.

(** A row of [aggregate_trade_results]. *)
Record AggregateRow : Type := {
  ag_country : string;
  baseline_exports : F;
  experiment_exports : F;
  export_percent_change : F;
  baseline_foreign_exports : F;
  experiment_foreign_exports : F;
  foreign_export_percent_change : F;
  baseline_imports : F;
  experiment_imports : F;
  import_percent_change : F;
  baseline_foreign_imports : F;
  experiment_foreign_imports : F;
  foreign_import_percent_change : F
}.

(** A row of [outputs_expenditures]. *)
Record OutputExpenditureRow : Type := {
  oe_country : string;
  oe_baseline_output : pyval;
  oe_experiment_output : pyval;
  oe_output_percent_change : pyval;
  oe_baseline_expenditure : pyval;
  oe_experiment_expenditure : pyval;
  oe_expenditure_percent_change : pyval
}.

(** ** The model object

    The attributes of [OneSectorGE] that the solver pipeline reads or writes.
    [meta_data] and [_estimation_model] belong to the estimation library and
    only name columns; the columns are record fields here. *)
Record OneSectorGE : Type := {
  _estimation_results : option (dict F);
  _year : string;
  sigma : F;
  _reference_importer : option string;
  _omr_rescale : pyval;
  _imr_rescale : pyval;
  _mr_max_iter : option Z;
  _mr_tolerance : pyval;
  _mr_method : pyval;
  _ge_method : pyval;
  _ge_tolerance : pyval;
  _ge_max_iter : option Z;
  country_set : dict Country;
  _economy : Economy;
  baseline_trade_costs : list CostRow;
  experiment_trade_costs : option (list CostRow);
  cost_shock : option (list ShockRow);
  experiment_data : option DataFrame;
  approach : option string;
  quiet : bool;
  bilateral_trade_results : option (list BilateralRow);
  aggregate_trade_results : option (list AggregateRow);
  solver_diagnostics : dict OptimizeResult;
  factory_gate_prices : option (list (string * F));
  outputs_expenditures : option (list OutputExpenditureRow);
  country_results : option (list (dict pyval));
  country_mr_terms : option (list (dict pyval));
  _baseline_built : bool;
  _experiment_defined : bool;
  cost_variables : list string;
  cost_coeffs : dict F;
  baseline_data : DataFrame
}.

(** Attribute assignment, [self.<name> = v]. *)
Definition set_omr_rescale (v : pyval) (self : OneSectorGE) : OneSectorGE :=
  {| _estimation_results := _estimation_results self; _year := _year self; sigma := sigma self;
     _reference_importer := _reference_importer self; _omr_rescale := v;
     _imr_rescale := _imr_rescale self; _mr_max_iter := _mr_max_iter self;
     _mr_tolerance := _mr_tolerance self; _mr_method := _mr_method self;
     _ge_method := _ge_method self; _ge_tolerance := _ge_tolerance self;
     _ge_max_iter := _ge_max_iter self; country_set := country_set self;
     _economy := _economy self; baseline_trade_costs := baseline_trade_costs self;
     experiment_trade_costs := experiment_trade_costs self; cost_shock := cost_shock self;
     experiment_data := experiment_data self; approach := approach self; quiet := quiet self;
     bilateral_trade_results := bilateral_trade_results self;
     aggregate_trade_results := aggregate_trade_results self;
     solver_diagnostics := solver_diagnostics self;
     factory_gate_prices := factory_gate_prices self;
     outputs_expenditures := outputs_expenditures self; country_results := country_results self;
     country_mr_terms := country_mr_terms self; _baseline_built := _baseline_built self;
     _experiment_defined := _experiment_defined self; cost_variables := cost_variables self;
     cost_coeffs := cost_coeffs self; baseline_data := baseline_data self |}.

Definition set_imr_rescale (v : pyval) (self : OneSectorGE) : OneSectorGE :=
  {| _estimation_results := _estimation_results self; _year := _year self; sigma := sigma self;
     _reference_importer := _reference_importer self; _omr_rescale := _omr_rescale self;
     _imr_rescale := v; _mr_max_iter := _mr_max_iter self; _mr_tolerance := _mr_tolerance self;
     _mr_method := _mr_method self; _ge_method := _ge_method self;
     _ge_tolerance := _ge_tolerance self; _ge_max_iter := _ge_max_iter self;
     country_set := country_set self; _economy := _economy self;
     baseline_trade_costs := baseline_trade_costs self;
     experiment_trade_costs := experiment_trade_costs self; cost_shock := cost_shock self;
     experiment_data := experiment_data self; approach := approach self; quiet := quiet self;
     bilateral_trade_results := bilateral_trade_results self;
     aggregate_trade_results := aggregate_trade_results self;
     solver_diagnostics := solver_diagnostics self;
     factory_gate_prices := factory_gate_prices self;
     outputs_expenditures := outputs_expenditures self; country_results := country_results self;
     country_mr_terms := country_mr_terms self; _baseline_built := _baseline_built self;
     _experiment_defined := _experiment_defined self; cost_variables := cost_variables self;
     cost_coeffs := cost_coeffs self; baseline_data := baseline_data self |}.

Definition set_mr_max_iter (v : option Z) (self : OneSectorGE) : OneSectorGE :=
  {| _estimation_results := _estimation_results self; _year := _year self; sigma := sigma self;
     _reference_importer := _reference_importer self; _omr_rescale := _omr_rescale self;
     _imr_rescale := _imr_rescale self; _mr_max_iter := v; _mr_tolerance := _mr_tolerance self;
     _mr_method := _mr_method self; _ge_method := _ge_method self;
     _ge_tolerance := _ge_tolerance self; _ge_max_iter := _ge_max_iter self;
     country_set := country_set self; _economy := _economy self;
     baseline_trade_costs := baseline_trade_costs self;
     experiment_trade_costs := experiment_trade_costs self; cost_shock := cost_shock self;
     experiment_data := experiment_data self; approach := approach self; quiet := quiet self;
     bilateral_trade_results := bilateral_trade_results self;
     aggregate_trade_results := aggregate_trade_results self;
     solver_diagnostics := solver_diagnostics self;
     factory_gate_prices := factory_gate_prices self;
     outputs_expenditures := outputs_expenditures self; country_results := country_results self;
     country_mr_terms := country_mr_terms self; _baseline_built := _baseline_built self;
     _experiment_defined := _experiment_defined self; cost_variables := cost_variables self;
     cost_coeffs := cost_coeffs self; baseline_data := baseline_data self |}.

Definition set_mr_tolerance (v : pyval) (self : OneSectorGE) : OneSectorGE :=
  {| _estimation_results := _estimation_results self; _year := _year self; sigma := sigma self;
     _reference_importer := _reference_importer self; _omr_rescale := _omr_rescale self;
     _imr_rescale := _imr_rescale self; _mr_max_iter := _mr_max_iter self; _mr_tolerance := v;
     _mr_method := _mr_method self; _ge_method := _ge_method self;
     _ge_tolerance := _ge_tolerance self; _ge_max_iter := _ge_max_iter self;
     country_set := country_set self; _economy := _economy self;
     baseline_trade_costs := baseline_trade_costs self;
     experiment_trade_costs := experiment_trade_costs self; cost_shock := cost_shock self;
     experiment_data := experiment_data self; approach := approach self; quiet := quiet self;
     bilateral_trade_results := bilateral_trade_results self;
     aggregate_trade_results := aggregate_trade_results self;
     solver_diagnostics := solver_diagnostics self;
     factory_gate_prices := factory_gate_prices self;
     outputs_expenditures := outputs_expenditures self; country_results := country_results self;
     country_mr_terms := country_mr_terms self; _baseline_built := _baseline_built self;
     _experiment_defined := _experiment_defined self; cost_variables := cost_variables self;
     cost_coeffs := cost_coeffs self; baseline_data := baseline_data self |}.

Definition set_mr_method (v : pyval) (self : OneSectorGE) : OneSectorGE :=
  {| _estimation_results := _estimation_results self; _year := _year self; sigma := sigma self;
     _reference_importer := _reference_importer self; _omr_rescale := _omr_rescale self;
     _imr_rescale := _imr_rescale self; _mr_max_iter := _mr_max_iter self;
     _mr_tolerance := _mr_tolerance self; _mr_method := v; _ge_method := _ge_method self;
     _ge_tolerance := _ge_tolerance self; _ge_max_iter := _ge_max_iter self;
     country_set := country_set self; _economy := _economy self;
     baseline_trade_costs := baseline_trade_costs self;
     experiment_trade_costs := experiment_trade_costs self; cost_shock := cost_shock self;
     experiment_data := experiment_data self; approach := approach self; quiet := quiet self;
     bilateral_trade_results := bilateral_trade_results self;
     aggregate_trade_results := aggregate_trade_results self;
     solver_diagnostics := solver_diagnostics self;
     factory_gate_prices := factory_gate_prices self;
     outputs_expenditures := outputs_expenditures self; country_results := country_results self;
     country_mr_terms := country_mr_terms self; _baseline_built := _baseline_built self;
     _experiment_defined := _experiment_defined self; cost_variables := cost_variables self;
     cost_coeffs := cost_coeffs self; baseline_data := baseline_data self |}.

Definition set_ge_method (v : pyval) (self : OneSectorGE) : OneSectorGE :=
  {| _estimation_results := _estimation_results self; _year := _year self; sigma := sigma self;
     _reference_importer := _reference_importer self; _omr_rescale := _omr_rescale self;
     _imr_rescale := _imr_rescale self; _mr_max_iter := _mr_max_iter self;
     _mr_tolerance := _mr_tolerance self; _mr_method := _mr_method self; _ge_method := v;
     _ge_tolerance := _ge_tolerance self; _ge_max_iter := _ge_max_iter self;
     country_set := country_set self; _economy := _economy self;
     baseline_trade_costs := baseline_trade_costs self;
     experiment_trade_costs := experiment_trade_costs self; cost_shock := cost_shock self;
     experiment_data := experiment_data self; approach := approach self; quiet := quiet self;
     bilateral_trade_results := bilateral_trade_results self;
     aggregate_trade_results := aggregate_trade_results self;
     solver_diagnostics := solver_diagnostics self;
     factory_gate_prices := factory_gate_prices self;
     outputs_expenditures := outputs_expenditures self; country_results := country_results self;
     country_mr_terms := country_mr_terms self; _baseline_built := _baseline_built self;
     _experiment_defined := _experiment_defined self; cost_variables := cost_variables self;
     cost_coeffs := cost_coeffs self; baseline_data := baseline_data self |}.

Definition set_ge_tolerance (v : pyval) (self : OneSectorGE) : OneSectorGE :=
  {| _estimation_results := _estimation_results self; _year := _year self; sigma := sigma self;
     _reference_importer := _reference_importer self; _omr_rescale := _omr_rescale self;
     _imr_rescale := _imr_rescale self; _mr_max_iter := _mr_max_iter self;
     _mr_tolerance := _mr_tolerance self; _mr_method := _mr_method self;
     _ge_method := _ge_method self; _ge_tolerance := v; _ge_max_iter := _ge_max_iter self;
     country_set := country_set self; _economy := _economy self;
     baseline_trade_costs := baseline_trade_costs self;
     experiment_trade_costs := experiment_trade_costs self; cost_shock := cost_shock self;
     experiment_data := experiment_data self; approach := approach self; quiet := quiet self;
     bilateral_trade_results := bilateral_trade_results self;
     aggregate_trade_results := aggregate_trade_results self;
     solver_diagnostics := solver_diagnostics self;
     factory_gate_prices := factory_gate_prices self;
     outputs_expenditures := outputs_expenditures self; country_results := country_results self;
     country_mr_terms := country_mr_terms self; _baseline_built := _baseline_built self;
     _experiment_defined := _experiment_defined self; cost_variables := cost_variables self;
     cost_coeffs := cost_coeffs self; baseline_data := baseline_data self |}.

Definition set_ge_max_iter (v : option Z) (self : OneSectorGE) : OneSectorGE :=
  {| _estimation_results := _estimation_results self; _year := _year self; sigma := sigma self;
     _reference_importer := _reference_importer self; _omr_rescale := _omr_rescale self;
     _imr_rescale := _imr_rescale self; _mr_max_iter := _mr_max_iter self;
     _mr_tolerance := _mr_tolerance self; _mr_method := _mr_method self;
     _ge_method := _ge_method self; _ge_tolerance := _ge_tolerance self; _ge_max_iter := v;
     country_set := country_set self; _economy := _economy self;
     baseline_trade_costs := baseline_trade_costs self;
     experiment_trade_costs := experiment_trade_costs self; cost_shock := cost_shock self;
     experiment_data := experiment_data self; approach := approach self; quiet := quiet self;
     bilateral_trade_results := bilateral_trade_results self;
     aggregate_trade_results := aggregate_trade_results self;
     solver_diagnostics := solver_diagnostics self;
     factory_gate_prices := factory_gate_prices self;
     outputs_expenditures := outputs_expenditures self; country_results := country_results self;
     country_mr_terms := country_mr_terms self; _baseline_built := _baseline_built self;
     _experiment_defined := _experiment_defined self; cost_variables := cost_variables self;
     cost_coeffs := cost_coeffs self; baseline_data := baseline_data self |}.

Definition set_country_set (v : dict Country) (self : OneSectorGE) : OneSectorGE :=
  {| _estimation_results := _estimation_results self; _year := _year self; sigma := sigma self;
     _reference_importer := _reference_importer self; _omr_rescale := _omr_rescale self;
     _imr_rescale := _imr_rescale self; _mr_max_iter := _mr_max_iter self;
     _mr_tolerance := _mr_tolerance self; _mr_method := _mr_method self;
     _ge_method := _ge_method self; _ge_tolerance := _ge_tolerance self;
     _ge_max_iter := _ge_max_iter self; country_set := v; _economy := _economy self;
     baseline_trade_costs := baseline_trade_costs self;
     experiment_trade_costs := experiment_trade_costs self; cost_shock := cost_shock self;
     experiment_data := experiment_data self; approach := approach self; quiet := quiet self;
     bilateral_trade_results := bilateral_trade_results self;
     aggregate_trade_results := aggregate_trade_results self;
     solver_diagnostics := solver_diagnostics self;
     factory_gate_prices := factory_gate_prices self;
     outputs_expenditures := outputs_expenditures self; country_results := country_results self;
     country_mr_terms := country_mr_terms self; _baseline_built := _baseline_built self;
     _experiment_defined := _experiment_defined self; cost_variables := cost_variables self;
     cost_coeffs := cost_coeffs self; baseline_data := baseline_data self |}.

Definition set_economy (v : Economy) (self : OneSectorGE) : OneSectorGE :=
  {| _estimation_results := _estimation_results self; _year := _year self; sigma := sigma self;
     _reference_importer := _reference_importer self; _omr_rescale := _omr_rescale self;
     _imr_rescale := _imr_rescale self; _mr_max_iter := _mr_max_iter self;
     _mr_tolerance := _mr_tolerance self; _mr_method := _mr_method self;
     _ge_method := _ge_method self; _ge_tolerance := _ge_tolerance self;
     _ge_max_iter := _ge_max_iter self; country_set := country_set self; _economy := v;
     baseline_trade_costs := baseline_trade_costs self;
     experiment_trade_costs := experiment_trade_costs self; cost_shock := cost_shock self;
     experiment_data := experiment_data self; approach := approach self; quiet := quiet self;
     bilateral_trade_results := bilateral_trade_results self;
     aggregate_trade_results := aggregate_trade_results self;
     solver_diagnostics := solver_diagnostics self;
     factory_gate_prices := factory_gate_prices self;
     outputs_expenditures := outputs_expenditures self; country_results := country_results self;
     country_mr_terms := country_mr_terms self; _baseline_built := _baseline_built self;
     _experiment_defined := _experiment_defined self; cost_variables := cost_variables self;
     cost_coeffs := cost_coeffs self; baseline_data := baseline_data self |}.

Definition set_experiment_trade_costs (v : option (list CostRow)) (self : OneSectorGE) : OneSectorGE :=
  {| _estimation_results := _estimation_results self; _year := _year self; sigma := sigma self;
     _reference_importer := _reference_importer self; _omr_rescale := _omr_rescale self;
     _imr_rescale := _imr_rescale self; _mr_max_iter := _mr_max_iter self;
     _mr_tolerance := _mr_tolerance self; _mr_method := _mr_method self;
     _ge_method := _ge_method self; _ge_tolerance := _ge_tolerance self;
     _ge_max_iter := _ge_max_iter self; country_set := country_set self;
     _economy := _economy self; baseline_trade_costs := baseline_trade_costs self;
     experiment_trade_costs := v; cost_shock := cost_shock self;
     experiment_data := experiment_data self; approach := approach self; quiet := quiet self;
     bilateral_trade_results := bilateral_trade_results self;
     aggregate_trade_results := aggregate_trade_results self;
     solver_diagnostics := solver_diagnostics self;
     factory_gate_prices := factory_gate_prices self;
     outputs_expenditures := outputs_expenditures self; country_results := country_results self;
     country_mr_terms := country_mr_terms self; _baseline_built := _baseline_built self;
     _experiment_defined := _experiment_defined self; cost_variables := cost_variables self;
     cost_coeffs := cost_coeffs self; baseline_data := baseline_data self |}.

Definition set_cost_shock (v : option (list ShockRow)) (self : OneSectorGE) : OneSectorGE :=
  {| _estimation_results := _estimation_results self; _year := _year self; sigma := sigma self;
     _reference_importer := _reference_importer self; _omr_rescale := _omr_rescale self;
     _imr_rescale := _imr_rescale self; _mr_max_iter := _mr_max_iter self;
     _mr_tolerance := _mr_tolerance self; _mr_method := _mr_method self;
     _ge_method := _ge_method self; _ge_tolerance := _ge_tolerance self;
     _ge_max_iter := _ge_max_iter self; country_set := country_set self;
     _economy := _economy self; baseline_trade_costs := baseline_trade_costs self;
     experiment_trade_costs := experiment_trade_costs self; cost_shock := v;
     experiment_data := experiment_data self; approach := approach self; quiet := quiet self;
     bilateral_trade_results := bilateral_trade_results self;
     aggregate_trade_results := aggregate_trade_results self;
     solver_diagnostics := solver_diagnostics self;
     factory_gate_prices := factory_gate_prices self;
     outputs_expenditures := outputs_expenditures self; country_results := country_results self;
     country_mr_terms := country_mr_terms self; _baseline_built := _baseline_built self;
     _experiment_defined := _experiment_defined self; cost_variables := cost_variables self;
     cost_coeffs := cost_coeffs self; baseline_data := baseline_data self |}.

Definition set_experiment_data (v : option DataFrame) (self : OneSectorGE) : OneSectorGE :=
  {| _estimation_results := _estimation_results self; _year := _year self; sigma := sigma self;
     _reference_importer := _reference_importer self; _omr_rescale := _omr_rescale self;
     _imr_rescale := _imr_rescale self; _mr_max_iter := _mr_max_iter self;
     _mr_tolerance := _mr_tolerance self; _mr_method := _mr_method self;
     _ge_method := _ge_method self; _ge_tolerance := _ge_tolerance self;
     _ge_max_iter := _ge_max_iter self; country_set := country_set self;
     _economy := _economy self; baseline_trade_costs := baseline_trade_costs self;
     experiment_trade_costs := experiment_trade_costs self; cost_shock := cost_shock self;
     experiment_data := v; approach := approach self; quiet := quiet self;
     bilateral_trade_results := bilateral_trade_results self;
     aggregate_trade_results := aggregate_trade_results self;
     solver_diagnostics := solver_diagnostics self;
     factory_gate_prices := factory_gate_prices self;
     outputs_expenditures := outputs_expenditures self; country_results := country_results self;
     country_mr_terms := country_mr_terms self; _baseline_built := _baseline_built self;
     _experiment_defined := _experiment_defined self; cost_variables := cost_variables self;
     cost_coeffs := cost_coeffs self; baseline_data := baseline_data self |}.

Definition set_bilateral_trade_results (v : option (list BilateralRow)) (self : OneSectorGE) : OneSectorGE :=
  {| _estimation_results := _estimation_results self; _year := _year self; sigma := sigma self;
     _reference_importer := _reference_importer self; _omr_rescale := _omr_rescale self;
     _imr_rescale := _imr_rescale self; _mr_max_iter := _mr_max_iter self;
     _mr_tolerance := _mr_tolerance self; _mr_method := _mr_method self;
     _ge_method := _ge_method self; _ge_tolerance := _ge_tolerance self;
     _ge_max_iter := _ge_max_iter self; country_set := country_set self;
     _economy := _economy self; baseline_trade_costs := baseline_trade_costs self;
     experiment_trade_costs := experiment_trade_costs self; cost_shock := cost_shock self;
     experiment_data := experiment_data self; approach := approach self; quiet := quiet self;
     bilateral_trade_results := v; aggregate_trade_results := aggregate_trade_results self;
     solver_diagnostics := solver_diagnostics self;
     factory_gate_prices := factory_gate_prices self;
     outputs_expenditures := outputs_expenditures self; country_results := country_results self;
     country_mr_terms := country_mr_terms self; _baseline_built := _baseline_built self;
     _experiment_defined := _experiment_defined self; cost_variables := cost_variables self;
     cost_coeffs := cost_coeffs self; baseline_data := baseline_data self |}.

Definition set_aggregate_trade_results (v : option (list AggregateRow)) (self : OneSectorGE) : OneSectorGE :=
  {| _estimation_results := _estimation_results self; _year := _year self; sigma := sigma self;
     _reference_importer := _reference_importer self; _omr_rescale := _omr_rescale self;
     _imr_rescale := _imr_rescale self; _mr_max_iter := _mr_max_iter self;
     _mr_tolerance := _mr_tolerance self; _mr_method := _mr_method self;
     _ge_method := _ge_method self; _ge_tolerance := _ge_tolerance self;
     _ge_max_iter := _ge_max_iter self; country_set := country_set self;
     _economy := _economy self; baseline_trade_costs := baseline_trade_costs self;
     experiment_trade_costs := experiment_trade_costs self; cost_shock := cost_shock self;
     experiment_data := experiment_data self; approach := approach self; quiet := quiet self;
     bilateral_trade_results := bilateral_trade_results self; aggregate_trade_results := v;
     solver_diagnostics := solver_diagnostics self;
     factory_gate_prices := factory_gate_prices self;
     outputs_expenditures := outputs_expenditures self; country_results := country_results self;
     country_mr_terms := country_mr_terms self; _baseline_built := _baseline_built self;
     _experiment_defined := _experiment_defined self; cost_variables := cost_variables self;
     cost_coeffs := cost_coeffs self; baseline_data := baseline_data self |}.

Definition set_solver_diagnostics (v : dict OptimizeResult) (self : OneSectorGE) : OneSectorGE :=
  {| _estimation_results := _estimation_results self; _year := _year self; sigma := sigma self;
     _reference_importer := _reference_importer self; _omr_rescale := _omr_rescale self;
     _imr_rescale := _imr_rescale self; _mr_max_iter := _mr_max_iter self;
     _mr_tolerance := _mr_tolerance self; _mr_method := _mr_method self;
     _ge_method := _ge_method self; _ge_tolerance := _ge_tolerance self;
     _ge_max_iter := _ge_max_iter self; country_set := country_set self;
     _economy := _economy self; baseline_trade_costs := baseline_trade_costs self;
     experiment_trade_costs := experiment_trade_costs self; cost_shock := cost_shock self;
     experiment_data := experiment_data self; approach := approach self; quiet := quiet self;
     bilateral_trade_results := bilateral_trade_results self;
     aggregate_trade_results := aggregate_trade_results self; solver_diagnostics := v;
     factory_gate_prices := factory_gate_prices self;
     outputs_expenditures := outputs_expenditures self; country_results := country_results self;
     country_mr_terms := country_mr_terms self; _baseline_built := _baseline_built self;
     _experiment_defined := _experiment_defined self; cost_variables := cost_variables self;
     cost_coeffs := cost_coeffs self; baseline_data := baseline_data self |}.

Definition set_factory_gate_prices (v : option (list (string * F))) (self : OneSectorGE) : OneSectorGE :=
  {| _estimation_results := _estimation_results self; _year := _year self; sigma := sigma self;
     _reference_importer := _reference_importer self; _omr_rescale := _omr_rescale self;
     _imr_rescale := _imr_rescale self; _mr_max_iter := _mr_max_iter self;
     _mr_tolerance := _mr_tolerance self; _mr_method := _mr_method self;
     _ge_method := _ge_method self; _ge_tolerance := _ge_tolerance self;
     _ge_max_iter := _ge_max_iter self; country_set := country_set self;
     _economy := _economy self; baseline_trade_costs := baseline_trade_costs self;
     experiment_trade_costs := experiment_trade_costs self; cost_shock := cost_shock self;
     experiment_data := experiment_data self; approach := approach self; quiet := quiet self;
     bilateral_trade_results := bilateral_trade_results self;
     aggregate_trade_results := aggregate_trade_results self;
     solver_diagnostics := solver_diagnostics self; factory_gate_prices := v;
     outputs_expenditures := outputs_expenditures self; country_results := country_results self;
     country_mr_terms := country_mr_terms self; _baseline_built := _baseline_built self;
     _experiment_defined := _experiment_defined self; cost_variables := cost_variables self;
     cost_coeffs := cost_coeffs self; baseline_data := baseline_data self |}.

Definition set_outputs_expenditures (v : option (list OutputExpenditureRow)) (self : OneSectorGE) : OneSectorGE :=
  {| _estimation_results := _estimation_results self; _year := _year self; sigma := sigma self;
     _reference_importer := _reference_importer self; _omr_rescale := _omr_rescale self;
     _imr_rescale := _imr_rescale self; _mr_max_iter := _mr_max_iter self;
     _mr_tolerance := _mr_tolerance self; _mr_method := _mr_method self;
     _ge_method := _ge_method self; _ge_tolerance := _ge_tolerance self;
     _ge_max_iter := _ge_max_iter self; country_set := country_set self;
     _economy := _economy self; baseline_trade_costs := baseline_trade_costs self;
     experiment_trade_costs := experiment_trade_costs self; cost_shock := cost_shock self;
     experiment_data := experiment_data self; approach := approach self; quiet := quiet self;
     bilateral_trade_results := bilateral_trade_results self;
     aggregate_trade_results := aggregate_trade_results self;
     solver_diagnostics := solver_diagnostics self;
     factory_gate_prices := factory_gate_prices self; outputs_expenditures := v;
     country_results := country_results self; country_mr_terms := country_mr_terms self;
     _baseline_built := _baseline_built self; _experiment_defined := _experiment_defined self;
     cost_variables := cost_variables self; cost_coeffs := cost_coeffs self;
     baseline_data := baseline_data self |}.

Definition set_country_results (v : option (list (dict pyval))) (self : OneSectorGE) : OneSectorGE :=
  {| _estimation_results := _estimation_results self; _year := _year self; sigma := sigma self;
     _reference_importer := _reference_importer self; _omr_rescale := _omr_rescale self;
     _imr_rescale := _imr_rescale self; _mr_max_iter := _mr_max_iter self;
     _mr_tolerance := _mr_tolerance self; _mr_method := _mr_method self;
     _ge_method := _ge_method self; _ge_tolerance := _ge_tolerance self;
     _ge_max_iter := _ge_max_iter self; country_set := country_set self;
     _economy := _economy self; baseline_trade_costs := baseline_trade_costs self;
     experiment_trade_costs := experiment_trade_costs self; cost_shock := cost_shock self;
     experiment_data := experiment_data self; approach := approach self; quiet := quiet self;
     bilateral_trade_results := bilateral_trade_results self;
     aggregate_trade_results := aggregate_trade_results self;
     solver_diagnostics := solver_diagnostics self;
     factory_gate_prices := factory_gate_prices self;
     outputs_expenditures := outputs_expenditures self; country_results := v;
     country_mr_terms := country_mr_terms self; _baseline_built := _baseline_built self;
     _experiment_defined := _experiment_defined self; cost_variables := cost_variables self;
     cost_coeffs := cost_coeffs self; baseline_data := baseline_data self |}.

Definition set_country_mr_terms (v : option (list (dict pyval))) (self : OneSectorGE) : OneSectorGE :=
  {| _estimation_results := _estimation_results self; _year := _year self; sigma := sigma self;
     _reference_importer := _reference_importer self; _omr_rescale := _omr_rescale self;
     _imr_rescale := _imr_rescale self; _mr_max_iter := _mr_max_iter self;
     _mr_tolerance := _mr_tolerance self; _mr_method := _mr_method self;
     _ge_method := _ge_method self; _ge_tolerance := _ge_tolerance self;
     _ge_max_iter := _ge_max_iter self; country_set := country_set self;
     _economy := _economy self; baseline_trade_costs := baseline_trade_costs self;
     experiment_trade_costs := experiment_trade_costs self; cost_shock := cost_shock self;
     experiment_data := experiment_data self; approach := approach self; quiet := quiet self;
     bilateral_trade_results := bilateral_trade_results self;
     aggregate_trade_results := aggregate_trade_results self;
     solver_diagnostics := solver_diagnostics self;
     factory_gate_prices := factory_gate_prices self;
     outputs_expenditures := outputs_expenditures self; country_results := country_results self;
     country_mr_terms := v; _baseline_built := _baseline_built self;
     _experiment_defined := _experiment_defined self; cost_variables := cost_variables self;
     cost_coeffs := cost_coeffs self; baseline_data := baseline_data self |}.

Definition set_baseline_built (v : bool) (self : OneSectorGE) : OneSectorGE :=
  {| _estimation_results := _estimation_results self; _year := _year self; sigma := sigma self;
     _reference_importer := _reference_importer self; _omr_rescale := _omr_rescale self;
     _imr_rescale := _imr_rescale self; _mr_max_iter := _mr_max_iter self;
     _mr_tolerance := _mr_tolerance self; _mr_method := _mr_method self;
     _ge_method := _ge_method self; _ge_tolerance := _ge_tolerance self;
     _ge_max_iter := _ge_max_iter self; country_set := country_set self;
     _economy := _economy self; baseline_trade_costs := baseline_trade_costs self;
     experiment_trade_costs := experiment_trade_costs self; cost_shock := cost_shock self;
     experiment_data := experiment_data self; approach := approach self; quiet := quiet self;
     bilateral_trade_results := bilateral_trade_results self;
     aggregate_trade_results := aggregate_trade_results self;
     solver_diagnostics := solver_diagnostics self;
     factory_gate_prices := factory_gate_prices self;
     outputs_expenditures := outputs_expenditures self; country_results := country_results self;
     country_mr_terms := country_mr_terms self; _baseline_built := v;
     _experiment_defined := _experiment_defined self; cost_variables := cost_variables self;
     cost_coeffs := cost_coeffs self; baseline_data := baseline_data self |}.

Definition set_experiment_defined (v : bool) (self : OneSectorGE) : OneSectorGE :=
  {| _estimation_results := _estimation_results self; _year := _year self; sigma := sigma self;
     _reference_importer := _reference_importer self; _omr_rescale := _omr_rescale self;
     _imr_rescale := _imr_rescale self; _mr_max_iter := _mr_max_iter self;
     _mr_tolerance := _mr_tolerance self; _mr_method := _mr_method self;
     _ge_method := _ge_method self; _ge_tolerance := _ge_tolerance self;
     _ge_max_iter := _ge_max_iter self; country_set := country_set self;
     _economy := _economy self; baseline_trade_costs := baseline_trade_costs self;
     experiment_trade_costs := experiment_trade_costs self; cost_shock := cost_shock self;
     experiment_data := experiment_data self; approach := approach self; quiet := quiet self;
     bilateral_trade_results := bilateral_trade_results self;
     aggregate_trade_results := aggregate_trade_results self;
     solver_diagnostics := solver_diagnostics self;
     factory_gate_prices := factory_gate_prices self;
     outputs_expenditures := outputs_expenditures self; country_results := country_results self;
     country_mr_terms := country_mr_terms self; _baseline_built := _baseline_built self;
     _experiment_defined := v; cost_variables := cost_variables self;
     cost_coeffs := cost_coeffs self; baseline_data := baseline_data self |}.

Local Open Scope string_scope.
Local Open Scope list_scope.

(** ** Methods of [Country] and [Economy] *)

(** [Economy.initialize_baseline_total_output_expend] *)
Definition initialize_baseline_total_output_expend (country_set : dict Country)
    : M Economy unit :=
  let fix loop (cs : list (string * Country)) (total_output total_expenditure : F)
      : result (F * F) :=
    match cs with
    | [] => Ok (total_output, total_expenditure)
    | (_, c) :: cs' =>
        (o <- getattr c "baseline_output" ;;
         ov <- as_float o ;;
         e <- getattr c "baseline_expenditure" ;;
         ev <- as_float e ;;
         loop cs' (total_output + ov)%fl (total_expenditure + ev)%fl)%result
    end in
  (totals <- lift (loop country_set 0%fl 0%fl) ;;
   setattr "baseline_total_output" (PyFloat (fst totals)) ;;
   setattr "baseline_total_expenditure" (PyFloat (snd totals)))%M.

(** [Country.calculate_baseline_output_expenditure_shares] *)
Definition calculate_baseline_output_expenditure_shares (economy : Economy)
    : M Country unit :=
  (e <- attr "baseline_expenditure" ;;
   te <- lift (getattr economy "baseline_total_expenditure") ;;
   es <- lift (binop fdiv e te) ;;
   setattr "baseline_expenditure_share" es ;;
   o <- attr "baseline_output" ;;
   to <- lift (getattr economy "baseline_total_output") ;;
   os <- lift (binop fdiv o to) ;;
   setattr "baseline_output_share" os)%M.

Definition terms_of_trade_warning : string :=
  "Not all necessary values for terms of trade have been calculated.".

(** [Country.construct_terms_of_trade] *)
Definition construct_terms_of_trade : M Country unit :=
  (v1 <- attr "baseline_factory_price" ;;
   v2 <- attr "baseline_imr" ;;
   v3 <- attr "experiment_factory_price" ;;
   v4 <- attr "experiment_imr" ;;
   for_each [v1; v2; v3; v4]
     (fun value => when (is_None value) (warn terms_of_trade_warning)) ;;
   bp <- attr "baseline_factory_price" ;;
   bi <- attr "baseline_imr" ;;
   bt <- lift (binop fdiv bp bi) ;;
   setattr "baseline_terms_of_trade" bt ;;
   ep <- attr "experiment_factory_price" ;;
   ei <- attr "experiment_imr" ;;
   et <- lift (binop fdiv ep ei) ;;
   setattr "experiment_terms_of_trade" et ;;
   e <- attr "experiment_terms_of_trade" ;;
   b <- attr "baseline_terms_of_trade" ;;
   change <- lift (binop percent_change_of e b) ;;
   setattr "terms_of_trade_change" change)%M.

(** The one-row frames of [get_results] and [get_mr_results]: the column
    names with the attribute each one shows. *)
Definition result_columns : list (string * string) :=
  [ ("country", "identifier");
    ("factory_price_change", "factory_price_change");
    ("output_change", "output_change");
    ("expenditure_change", "expenditure_change");
    ("export_change", "exports_change");
    ("import_change", "imports_change");
    ("foreign_export_change", "foreign_exports_change");
    ("foreign_import_change", "foreign_imports_change");
    ("terms_of_trade_change", "terms_of_trade_change") ].

Definition mr_result_columns : list (string * string) :=
  [ ("country", "identifier");
    ("baseline_imr", "baseline_imr");
    ("conditional_expiriment_imr", "conditional_imr");
    ("experiment_imr", "experiment_imr");
    ("baseline_omr", "baseline_omr");
    ("conditional_expiriment_omr", "conditional_omr");
    ("experiment_omr", "experiment_omr") ].

Definition row_of (columns : list (string * string)) (c : Country)
    : result (dict pyval) :=
  mapM (fun col => v <- getattr c (snd col) ;; Ok (fst col, v))%result columns.

Definition get_results (c : Country) : result (dict pyval) :=
  row_of result_columns c.

Definition get_mr_results (c : Country) : result (dict pyval) :=
  row_of mr_result_columns c.

(** ** Access to the countries of the model *)

(** [self.country_set[key]] *)
Definition country (key : string) : M OneSectorGE Country :=
  fun self => (lookup (country_set self) key, self, []).

(** [self.country_set[key].<name>] *)
Definition country_attr (key name : string) : M OneSectorGE pyval :=
  fun self =>
    ((c <- lookup (country_set self) key ;; getattr c name)%result, self, []).

(** A method of [self.country_set[key]]. *)
Definition in_country {A} (key : string) (c : M Country A) : M OneSectorGE A :=
  zoom (fun self => lookup (country_set self) key)
       (fun c' self => set_country_set (dict_set (country_set self) key c') self)
       c.

(** [self.country_set[key].<name> = v] *)
Definition set_country_attr (key name : string) (v : pyval) : M OneSectorGE unit :=
  in_country key (setattr name v).

(** [self.country_set[key].<name>] as a float operand. *)
Definition country_float (key name : string) : M OneSectorGE F :=
  (v <- country_attr key name ;; lift (as_float v))%M.

(** ** pandas reductions *)

(** [sum] of a pandas column, row or group: missing values are skipped. *)
Definition pd_sum (l : list F) : F :=
  py_sum (filter (fun v => negb (isnan v)) l).

(** ** Trade costs *)

Fixpoint position (name : string) (columns : list string) : option nat :=
  match columns with
  | [] => None
  | c :: cs => if String.eqb name c then Some 0
               else option_map S (position name cs)
  end.

(** The position of a column of a frame, [KeyError] when there is none. *)
Definition column (df : DataFrame) (name : string) : result nat :=
  match position name (df_columns df) with
  | Some p => Ok p
  | None => Raise (KeyError name)
  end.

(** The texts of the warnings, without their leading line break; the two
    share-matrix warnings are cut after their first sentence. *)
(** The line break that opens the texts of the data-quality warnings. *)
Definition line_break : string := String "010"%char EmptyString.

Definition nan_costs_warning : string :=
  (line_break ++ " Calculated trade costs contain missing (nan) values. Check parameter values and trade cost variables in baseline or experiment data.")%string.

Definition not_square_warning : string :=
  (line_break ++ " Calculated trade costs are not square. Some bilateral costs are absent.")%string.

Definition not_subscriptable : exn :=
  TypeError "'NoneType' object is not subscriptable".

(** [_create_trade_costs]: [trade_cost = exp(sum_k coeff_k * variable_k)]
    for each row of [data_set]. *)
Definition _create_trade_costs (data_set : option DataFrame)
    : M OneSectorGE (list CostRow) :=
  (self <- get ;;
   match data_set with
   | None => raise not_subscriptable
   | Some df =>
       positions <- lift (mapM (column df) (cost_variables self)) ;;
       coeffs <- lift (mapM (lookup (cost_coeffs self)) (cost_variables self)) ;;
       let values r := map (fun p => nth p (obs_values r) nan) positions in
       let weighted r := zip_with fmul coeffs (values r) in
       let cost r := fexp (pd_sum (weighted r)) in
       when (existsb (fun r => existsb isnan (values r ++ weighted r ++ [cost r]))
                     (df_rows df))
            (warn nan_costs_warning) ;;
       when (negb (Nat.eqb (length (df_rows df))
                           (length (keys (country_set self)) ^ 2)))
            (warn not_square_warning) ;;
       ret (map (fun r => {| tc_importer := obs_importer r;
                             tc_exporter := obs_exporter r;
                             tc_year := obs_year r;
                             trade_cost := cost r |}) (df_rows df))
   end)%M.

(** ** Share matrices *)

Definition key_eqb (a b : string * string) : bool :=
  String.eqb (fst a) (fst b) && String.eqb (snd a) (snd b).

Fixpoint has_duplicates (l : list (string * string)) : bool :=
  match l with
  | [] => false
  | k :: l' => existsb (key_eqb k) l' || has_duplicates l'
  end.

(** The cells of a long table, each an (exporter, importer) key and a value. *)
Definition cell : Type := (string * string) * F.

(** [DataFrame.pivot(index=exporter, columns=importer, values=...)] followed
    by [.values]: rows are the exporters and columns the importers, each in
    sorted order; a pair with no row is a missing value; a pair with two rows
    raises [ValueError]. *)
Definition pivot (cells : list cell) : result matrix :=
  if has_duplicates (map fst cells)
  then Raise (ValueError "Index contains duplicate entries, cannot reshape")
  else
    let exporters := sorted (nodup string_dec (map (fun c => fst (fst c)) cells)) in
    let importers := sorted (nodup string_dec (map (fun c => snd (fst c)) cells)) in
    Ok (map (fun e =>
          map (fun i =>
            match find (fun c => key_eqb (fst c) (e, i)) cells with
            | Some c => snd c
            | None => nan
            end) importers) exporters).

Definition nan_exp_share_warning : string :=
  (line_break ++ " 'cost_exp_share' values contain missing (nan) values. "
  ++ line_break ++ " 1. Check that expenditure shares exist for all countries in country_set "
  ++ line_break ++ " 2. Check that trade cost data is square and no bilateral pairs are missing.")%string.

Definition nan_out_share_warning : string :=
  (line_break ++ " 'cost_out_share' values contain missing (nan) values. "
  ++ line_break ++ " 1. Check that output shares exist for all countries in country_set "
  ++ line_break ++ " 2. Check that trade cost data is square no bilateral pairs are missing.")%string.

(** The dict [built_params]. *)
Record BuiltParams : Type := {
  built_cost_exp_shr : matrix;
  built_cost_out_shr : matrix
}.

Definition no_attribute_copy : exn := AttributeError "copy".

(** [DataFrame.merge(None, ...)] *)
Definition no_frame_to_merge : exn :=
  TypeError "Can only merge Series or DataFrame objects, a <class 'NoneType'> was passed".

(** [_create_cost_output_expend_params]:
    [cost_output_share = trade_cost * output share of the exporter],
    [cost_expend_share = trade_cost * expenditure share of the importer]. *)
Definition _create_cost_output_expend_params (trade_costs : option (list CostRow))
    : M OneSectorGE BuiltParams :=
  match trade_costs with
  | None => raise no_attribute_copy
  | Some cost_params =>
      (shares <- for_list cost_params (fun row =>
         let importer_key := tc_importer row in
         let exporter_key := tc_exporter row in
         os <- country_float exporter_key "baseline_output_share" ;;
         let cost_output_share := (trade_cost row * os)%fl in
         es <- country_float importer_key "baseline_expenditure_share" ;;
         let cost_expend_share := (trade_cost row * es)%fl in
         ret ((exporter_key, importer_key),
              (cost_output_share, cost_expend_share))) ;;
       cost_exp_shr <- lift (pivot (map (fun c => (fst c, snd (snd c))) shares)) ;;
       cost_out_shr <- lift (pivot (map (fun c => (fst c, fst (snd c))) shares)) ;;
       when (existsb (existsb isnan) cost_exp_shr) (warn nan_exp_share_warning) ;;
       when (existsb (existsb isnan) cost_out_shr) (warn nan_out_share_warning) ;;
       ret {| built_cost_exp_shr := cost_exp_shr;
              built_cost_out_shr := cost_out_shr |})%M
  end.

(** ** Solving for the multilateral resistances *)

(** [scipy.optimize.root(fun, x0, method=, tol=, options={xtol, maxfev})]:
    the residual function, the initial guess, the method tag, the tolerance
    and the iteration cap.  It returns an [OptimizeResult] or raises. *)
Variable root :
  (list F -> result (list F)) -> list F -> pyval -> pyval -> option Z ->
  result OptimizeResult.

(** What [test=True] returns. *)
Record TestDiagnostics : Type := {
  td_initial_values : list F;
  td_mr_params : MRParams;
  td_function_value : option (list F)
}.

(** [pd.DataFrame(data={'imrs': imrs, 'omrs': omrs}, index=country_list)] *)
Definition mrs_frame (country_list : list string) (imrs omrs : list F)
    : result (list (string * (F * F))) :=
  if Nat.eqb (length imrs) (length country_list)
     && Nat.eqb (length omrs) (length country_list)
  then Ok (combine country_list (combine imrs omrs))
  else Raise (ValueError "Length of values does not match length of index").

(** The initial guess of the MR solve, [[1] * (2 * n - 1)]. *)
Definition mr_initial_values (number_of_countries : nat) : list F :=
  repeat 1%fl (2 * number_of_countries - 1).

(** Step 3 of the MR solve: the solution vector back in the units of the
    model, [x[0:n-1] * imr_rescale] with a final [1] appended and
    [x[n-1:] * omr_rescale]. *)
Definition unpack_mrs (n : nat) (x : list F) (imr_rescale omr_rescale : pyval)
    : result (list F * list F) :=
  (imrs <- scale (firstn (n - 1) x) imr_rescale ;;
   let imrs := imrs ++ [1%fl] in
   omrs <- scale (skipn (n - 1) x) omr_rescale ;;
   Ok (imrs, omrs))%result.

(** Reporting the outcome of a solve: the message is printed when it is the
    one of a converged solve, and issued as a warning otherwise. *)
Definition report (solved : OptimizeResult) : M OneSectorGE unit :=
  (self <- get ;;
   if String.eqb (opt_message solved) converged_message
   then when (negb (quiet self)) (emit (Print (opt_message solved)))
   else warn (opt_message solved))%M.

(** Steps 1 and 2 of [_calculate_multilateral_resistance] up to the solve:
    the dict [mr_params] and the initial guess. *)
Definition mr_problem (trade_costs : option (list CostRow))
    : M OneSectorGE (MRParams * list F) :=
  (self <- get ;;
   (* Step 1: Build parameters for solver *)
   let country_list := keys (country_set self) in
   let number_of_countries := length country_list in
   (* Calculate parameters reflecting trade costs, output shares, and expenditure shares *)
   cost_shr_params <- _create_cost_output_expend_params trade_costs ;;
   let mr_params :=
     {| mr_number_of_countries := number_of_countries;
        mr_omr_rescale := _omr_rescale self;
        mr_imr_rescale := _imr_rescale self;
        mr_cost_exp_shr := built_cost_exp_shr cost_shr_params;
        mr_cost_out_shr := built_cost_out_shr cost_shr_params |} in
   (* Step 2: Solve *)
   let initial_values := mr_initial_values number_of_countries in
   ret (mr_params, initial_values))%M.

Definition _calculate_multilateral_resistance
    (trade_costs : option (list CostRow)) (version : string)
    (test inputs_only : bool) : M OneSectorGE (option TestDiagnostics) :=
  (self <- get ;;
   let country_list := keys (country_set self) in
   problem <- mr_problem trade_costs ;;
   let mr_params := fst problem in
   let initial_values := snd problem in
   if test then
     if inputs_only then
       ret (Some {| td_initial_values := initial_values;
                    td_mr_params := mr_params;
                    td_function_value := None |})
     else
       value <- lift (_multilateral_resistances initial_values mr_params) ;;
       ret (Some {| td_initial_values := initial_values;
                    td_mr_params := mr_params;
                    td_function_value := Some value |})
   else
     when (negb (quiet self))
          (emit (Print ("Solving for " ++ version ++ " MRs...")%string)) ;;
     solved_mrs <- lift (root (fun x => _multilateral_resistances x mr_params)
                              initial_values (_mr_method self)
                              (_mr_tolerance self) (_mr_max_iter self)) ;;
     report solved_mrs ;;
     modify (fun self =>
       set_solver_diagnostics
         (dict_set (solver_diagnostics self) (version ++ "_MRs")%string solved_mrs)
         self) ;;
     (* Step 3: Pack up results *)
     let country_list := sorted country_list in
     unpacked <- lift (unpack_mrs (length country_list) (opt_x solved_mrs)
                                  (mr_imr_rescale mr_params)
                                  (mr_omr_rescale mr_params)) ;;
     mrs <- lift (mrs_frame country_list (fst unpacked) (snd unpacked)) ;;
     when (String.eqb version "baseline")
       (for_each mrs (fun row =>
          set_country_attr (fst row) "baseline_imr" (PyFloat (fst (snd row))) ;;
          set_country_attr (fst row) "baseline_omr" (PyFloat (snd (snd row))))) ;;
     when (String.eqb version "conditional")
       (for_each mrs (fun row =>
          set_country_attr (fst row) "conditional_imr" (PyFloat (fst (snd row))) ;;
          set_country_attr (fst row) "conditional_omr" (PyFloat (snd (snd row))))) ;;
     ret None)%M.

(** ** The closed-form (GEPPML) multilateral resistances *)

(** [math.exp]: unlike [numpy.exp], which returns [inf], it raises
    [OverflowError] when the result is out of the range of a double. *)
Definition math_exp (x : F) : result F :=
  if exp_overflows x then Raise (OverflowError "math range error")
  else Ok (fexp x).

(** Equation (2-38): [(Y_i * E_R) / math.exp(exp_fe_i)] *)
Definition _GEPPML_OMR (Y_i E_R exp_fe_i : pyval) : result F :=
  (y <- as_float Y_i ;;
   e <- as_float E_R ;;
   fe <- as_float exp_fe_i ;;
   x <- math_exp fe ;;
   Ok ((y * e) / x)%fl)%result.

(** Equation (2-39): [E_j / (math.exp(imp_fe_j) * E_R)] *)
Definition _GEPPML_IMR (E_j E_R imp_fe_j : pyval) : result F :=
  (fe <- as_float imp_fe_j ;;
   x <- math_exp fe ;;
   e <- as_float E_R ;;
   ej <- as_float E_j ;;
   Ok (ej / (x * e))%fl)%result.

Definition is_no_estimate (v : pyval) : bool :=
  match v with
  | PyStr s => String.eqb s "no estimate"
  | _ => false
  end.

Definition reference_fe_warning : string :=
  "There exists an importer fixed effect estimate for the reference country. Check that the fixed effect specification correctly omits the reference country".

(** [self.country_set[self._reference_importer]]; a reference that was left
    [None] is no key of the dict. *)
Definition reference_key (self : OneSectorGE) : result string :=
  match _reference_importer self with
  | Some r => Ok r
  | None => Raise (KeyError "None")
  end.

Definition _calculate_GEPPML_multilateral_resistance (version : string)
    : M OneSectorGE unit :=
  (self <- get ;;
   let country_list := keys (country_set self) in
   when (String.eqb version "baseline")
     (r <- lift (reference_key self) ;;
      reference_expnd <- country_attr r "baseline_expenditure" ;;
      for_each country_list (fun country =>
        country_obj <- Model.country country ;;
        if String.eqb country r then
          (* Set values for reference importer *)
          imp_fe <- lift (getattr country_obj "baseline_importer_fe") ;;
          when (negb (is_no_estimate imp_fe)) (warn reference_fe_warning) ;;
          exp_fe <- lift (getattr country_obj "baseline_exporter_fe") ;;
          when (is_no_estimate exp_fe)
            (raise (ValueError ("No exporter fixed effect estimate for " ++ country)%string)) ;;
          (* P_R = 1 by construction *)
          let imr := 1%fl in
          Y_i <- lift (getattr country_obj "baseline_output") ;;
          omr <- lift (_GEPPML_OMR Y_i reference_expnd exp_fe) ;;
          set_country_attr country "baseline_imr" (PyFloat (1 / imr)%fl) ;;
          set_country_attr country "baseline_omr" (PyFloat (1 / omr)%fl)
        else
          (* Set values for every other country *)
          imp_fe <- lift (getattr country_obj "baseline_importer_fe") ;;
          when (is_no_estimate imp_fe)
            (raise (ValueError ("No importer fixed effect estimate for " ++ country)%string)) ;;
          exp_fe <- lift (getattr country_obj "baseline_exporter_fe") ;;
          when (is_no_estimate exp_fe)
            (raise (ValueError ("No exporter fixed effect estimate for " ++ country)%string)) ;;
          Y_i <- lift (getattr country_obj "baseline_output") ;;
          omr <- lift (_GEPPML_OMR Y_i reference_expnd exp_fe) ;;
          E_j <- lift (getattr country_obj "baseline_expenditure") ;;
          (* the source passes the exporter fixed effect as [imp_fe_j] *)
          imr <- lift (_GEPPML_IMR E_j reference_expnd exp_fe) ;;
          set_country_attr country "baseline_imr" (PyFloat (1 / imr)%fl) ;;
          set_country_attr country "baseline_omr" (PyFloat (1 / omr)%fl))) ;;
   when (String.eqb version "conditional")
     (* Step 1: Re-estimate model.  The step only prepares local data (the
        estimation itself is not written), so nothing of the model
        changes; it needs the experiment data and the experiment trade
        costs.  The column of the estimation's dependent variable is looked
        up in the estimation library's objects, which the model does not
        carry. *)
     (match experiment_data self with
      | None => raise no_attribute_copy
      | Some _ =>
          match experiment_trade_costs self with
          | None => raise no_frame_to_merge
          | Some _ => ret tt
          end
      end))%M.

Definition _calculate_baseline_factory_gate_params : M OneSectorGE unit :=
  (self <- get ;;
   for_each (keys (country_set self)) (fun country =>
     s <- country_attr country "baseline_output_share" ;;
     o <- country_attr country "baseline_omr" ;;
     v <- lift (binop fmul s o) ;;
     set_country_attr country "factory_gate_price_param" v))%M.

Definition geppml_requires_estimation : string :=
  "GEPPML approach requires that the gme.EstimationModel be estimated and use importer and exporter fixed effects.".

Definition is_GEPPML (approach : option string) : bool :=
  match approach with
  | Some a => String.eqb a "GEPPML"
  | None => false
  end.

(** [build_baseline] *)
Definition build_baseline (omr_rescale imr_rescale : pyval) (mr_method : pyval)
    (mr_max_iter : option Z) (mr_tolerance : pyval) : M OneSectorGE unit :=
  (modify (set_omr_rescale omr_rescale) ;;
   modify (set_imr_rescale imr_rescale) ;;
   modify (set_mr_max_iter mr_max_iter) ;;
   modify (set_mr_tolerance mr_tolerance) ;;
   modify (set_mr_method mr_method) ;;
   self <- get ;;
   (* Solve for the baseline multilateral resistance terms *)
   (if is_GEPPML (approach self) then
      match _estimation_results self with
      | None => raise (ValueError geppml_requires_estimation)
      | Some _ => _calculate_GEPPML_multilateral_resistance "baseline"
      end
    else
      _ <- _calculate_multilateral_resistance
             (Some (baseline_trade_costs self)) "baseline" false false ;;
      ret tt) ;;
   (* Calculate baseline factory gate prices *)
   _calculate_baseline_factory_gate_params ;;
   modify (set_baseline_built true))%M.

(** ** Defining the experiment *)

Definition same_key (a b : CostRow) : bool :=
  String.eqb (tc_importer a) (tc_importer b)
  && String.eqb (tc_exporter a) (tc_exporter b)
  && String.eqb (tc_year a) (tc_year b).

(** [left.merge(right, how='outer', on=[importer, exporter, year])] with the
    two cost columns renamed.  pandas orders the rows of an outer join by
    key; here the rows of [left] come first, in their order, then the rows
    only [right] has.  No code reads the order of [cost_shock].

    The year of a row is a string in both tables, as [__init__] makes it in
    the baseline data.  An experiment frame whose year column has a numeric
    dtype is outside the frames of this model: pandas refuses to merge it
    with the baseline costs ([ValueError]), after [experiment_trade_costs]
    has been assigned. *)
Definition merge_outer (left right : list CostRow) : list ShockRow :=
  let row (k : CostRow) (b e : F) :=
    {| cs_importer := tc_importer k; cs_exporter := tc_exporter k;
       cs_year := tc_year k;
       baseline_trade_cost := b; experiment_trade_cost := e |} in
  flat_map (fun l =>
      match filter (same_key l) right with
      | [] => [row l (trade_cost l) nan]
      | matches => map (fun r => row l (trade_cost l) (trade_cost r)) matches
      end) left
  ++ map (fun r => row r nan (trade_cost r))
         (filter (fun r => negb (existsb (same_key r) left)) right).

Definition baseline_first_ge_model : string :=
  "Baseline must be built first (i.e. ge_model.build_baseline() method".

Definition baseline_first : string :=
  "Baseline must be built first (i.e. OneSectorGE.build_baseline() method".

Definition experiment_first : string :=
  "Expiriment must be defined first (i.e. OneSectorGE.define_expiriment() method".

Definition define_experiment (experiment_data : option DataFrame)
    : M OneSectorGE unit :=
  (self <- get ;;
   if negb (_baseline_built self) then
     raise (ValueError baseline_first_ge_model)
   else
     modify (set_experiment_data experiment_data) ;;
     costs <- _create_trade_costs experiment_data ;;
     modify (set_experiment_trade_costs (Some costs)) ;;
     self <- get ;;
     let cost_change := merge_outer (baseline_trade_costs self) costs in
     modify (set_cost_shock (Some
       (filter (fun r => negb (feqb (baseline_trade_cost r)
                                    (experiment_trade_cost r)))
               cost_change))) ;;
     modify (set_experiment_defined true))%M.

(** ** The full GE solve *)

(** [pd.DataFrame({'exporter': country_list, 'experiment_factory_price': prices})] *)
Definition price_frame (country_list : list string) (prices : list F)
    : result (list (string * F)) :=
  if Nat.eqb (length prices) (length country_list)
  then Ok (combine country_list prices)
  else Raise (ValueError "All arrays must be of the same length").

(** [mr / rescale] *)
Definition divide_by (rescale : pyval) (mr : pyval) : result F :=
  (m <- as_float mr ;; d <- as_float rescale ;; Ok (m / d)%fl)%result.

(** The initial guess of the full GE solve: the conditional IMRs and OMRs
    divided by their rescale factors, the last IMR left out, and a price of
    [1] for every country. *)
Definition ge_initial_values (n : nat) (imr_rescale omr_rescale : pyval)
    (init_imr init_omr : list pyval) : result (list F) :=
  (init_imr <- mapM (divide_by imr_rescale) init_imr ;;
   init_omr <- mapM (divide_by omr_rescale) init_omr ;;
   let init_price := repeat 1%fl n in
   Ok (firstn (n - 1) init_imr ++ init_omr ++ init_price))%result.

(** The solution vector of the full GE solve back in the units of the
    model: IMRs, OMRs and factory-gate prices. *)
Definition unpack_ge (n : nat) (x : list F) (imr_rescale omr_rescale : pyval)
    : result (list F * list F * list F) :=
  (imrs <- scale (firstn (n - 1) x) imr_rescale ;;
   let imrs := imrs ++ [1%fl] in
   omrs <- scale (firstn n (skipn (n - 1) x)) omr_rescale ;;
   let prices := skipn (2 * n - 1) x in
   Ok (imrs, omrs, prices))%result.

(** [_calculate_full_ge] up to the solve: the dict [ge_params] and the
    initial guess. *)
Definition full_ge_problem : M OneSectorGE (GEParams * list F) :=
  (self <- get ;;
   let country_list := sorted (keys (country_set self)) in
   let number_of_countries := length country_list in
   (* Calculate parameters reflecting trade costs, output shares, and expenditure shares *)
   cost_shr_params <-
     _create_cost_output_expend_params (experiment_trade_costs self) ;;
   inputs <- for_list country_list (fun c =>
     imr <- country_attr c "conditional_imr" ;;
     omr <- country_attr c "conditional_omr" ;;
     shr <- country_attr c "baseline_output_share" ;;
     param <- country_attr c "factory_gate_price_param" ;;
     ret ((imr, omr), (shr, param))) ;;
   let init_imr := map (fun r => fst (fst r)) inputs in
   let init_omr := map (fun r => snd (fst r)) inputs in
   let output_share := map (fun r => fst (snd r)) inputs in
   let factory_gate_params := map (fun r => snd (snd r)) inputs in
   initial_values <- lift (ge_initial_values (length country_list)
                             (_imr_rescale self) (_omr_rescale self)
                             init_imr init_omr) ;;
   let ge_params :=
     {| ge_number_of_countries := number_of_countries;
        ge_omr_rescale := _omr_rescale self;
        ge_imr_rescale := _imr_rescale self;
        ge_sigma := sigma self;
        ge_cost_exp_shr := built_cost_exp_shr cost_shr_params;
        ge_cost_out_shr := built_cost_out_shr cost_shr_params;
        ge_output_shr := output_share;
        ge_factory_gate_param := factory_gate_params |} in
   ret (ge_params, initial_values))%M.

Definition _calculate_full_ge : M OneSectorGE unit :=
  (self <- get ;;
   let country_list := sorted (keys (country_set self)) in
   problem <- full_ge_problem ;;
   let ge_params := fst problem in
   let initial_values := snd problem in
   when (negb (quiet self)) (emit (Print "Solving full GE model...")) ;;
   full_ge_results <- lift (root (fun x => _full_ge x ge_params) initial_values
                                  (_ge_method self) (_ge_tolerance self)
                                  (_ge_max_iter self)) ;;
   report full_ge_results ;;
   modify (fun self =>
     set_solver_diagnostics
       (dict_set (solver_diagnostics self) "full_GE" full_ge_results) self) ;;
   unpacked <- lift (unpack_ge (length country_list) (opt_x full_ge_results)
                               (ge_imr_rescale ge_params)
                               (ge_omr_rescale ge_params)) ;;
   let imrs := fst (fst unpacked) in
   let omrs := snd (fst unpacked) in
   let prices := snd unpacked in
   factory_gate_prices <- lift (price_frame country_list prices) ;;
   modify (set_factory_gate_prices (Some factory_gate_prices)) ;;
   for_each (combine (seq 0 (length country_list)) country_list) (fun ic =>
     let i := fst ic in
     let country := snd ic in
     imr <- lift (getitem imrs i) ;;
     set_country_attr country "experiment_imr" (PyFloat imr) ;;
     omr <- lift (getitem omrs i) ;;
     set_country_attr country "experiment_omr" (PyFloat omr) ;;
     price <- lift (getitem prices i) ;;
     set_country_attr country "experiment_factory_price" (PyFloat price) ;;
     set_country_attr country "factory_price_change"
       (PyFloat (100 * (price - 1))%fl)))%M.

(** ** Results of the experiment *)

(** A loop that carries an accumulator. *)
Fixpoint for_fold {S A B} (l : list A) (acc : B) (body : B -> A -> M S B)
    : M S B :=
  match l with
  | [] => ret acc
  | a :: l' => (acc' <- body acc a ;; for_fold l' acc' body)%M
  end.

(** A method of [self._economy]. *)
Definition in_economy {A} (c : M Economy A) : M OneSectorGE A :=
  zoom (fun self => Ok (_economy self)) (fun e self => set_economy e self) c.

Definition _construct_experiment_output_expend : M OneSectorGE unit :=
  (self <- get ;;
   let countries := keys (country_set self) in
   (* The first time looping through gets individual and total output and expenditure *)
   total_output <- for_fold countries 0%fl (fun total_output country =>
     price <- country_attr country "experiment_factory_price" ;;
     output <- country_attr country "baseline_output" ;;
     v <- lift (binop fmul price output) ;;
     set_country_attr country "experiment_output" v ;;
     price <- country_attr country "experiment_factory_price" ;;
     expenditure <- country_attr country "baseline_expenditure" ;;
     v <- lift (binop fmul price expenditure) ;;
     set_country_attr country "experiment_expenditure" v ;;
     o <- country_float country "experiment_output" ;;
     ret (total_output + o)%fl) ;;
   (* The second time looping through gets things that are dependent on total output/expenditure *)
   results_table <- for_list countries (fun country =>
     eo <- country_attr country "experiment_output" ;;
     v <- lift (binop fdiv eo (PyFloat total_output)) ;;
     set_country_attr country "experiment_output_share" v ;;
     eo <- country_attr country "experiment_output" ;;
     bo <- country_attr country "baseline_output" ;;
     v <- lift (binop percent_change_of eo bo) ;;
     set_country_attr country "output_change" v ;;
     ee <- country_attr country "experiment_expenditure" ;;
     be <- country_attr country "baseline_expenditure" ;;
     v <- lift (binop percent_change_of ee be) ;;
     set_country_attr country "expenditure_change" v ;;
     bo <- country_attr country "baseline_output" ;;
     eo <- country_attr country "experiment_output" ;;
     oc <- country_attr country "output_change" ;;
     be <- country_attr country "baseline_expenditure" ;;
     ee <- country_attr country "experiment_expenditure" ;;
     ec <- country_attr country "expenditure_change" ;;
     ret {| oe_country := country;
            oe_baseline_output := bo;
            oe_experiment_output := eo;
            oe_output_percent_change := oc;
            oe_baseline_expenditure := be;
            oe_experiment_expenditure := ee;
            oe_expenditure_percent_change := ec |}) ;;
   (* Store some economy-wide values to economy object *)
   in_economy
     (setattr "experiment_total_output" (PyFloat total_output) ;;
      base <- attr "baseline_total_output" ;;
      v <- lift (binop percent_change_of (PyFloat total_output) base) ;;
      setattr "output_change" v) ;;
   (* Save to model *)
   modify (set_outputs_expenditures (Some results_table)))%M.

(** [(expend * output_share) / (imr * omr)] *)
Definition gravity_of (expend output_share imr omr : F) : F :=
  ((expend * output_share) / (imr * omr))%fl.

(** A row of the local frame [trade_data]. *)
Record TradeRow : Type := {
  tr_exporter : string;
  tr_importer : string;
  tr_baseline_trade : F;
  tr_gravity : F;
  tr_bsln_gravity : F
}.

(** The gravity term of a pair in the state named by [prefix]
    ([experiment] or [baseline]). *)
Definition pair_gravity (prefix importer exporter : string)
    : M OneSectorGE F :=
  (imr <- country_attr importer (prefix ++ "_imr")%string ;;
   omr <- country_attr exporter (prefix ++ "_omr")%string ;;
   expend <- country_attr importer (prefix ++ "_expenditure")%string ;;
   output_share <- country_attr exporter (prefix ++ "_output_share")%string ;;
   e <- lift (as_float expend) ;;
   s <- lift (as_float output_share) ;;
   i <- lift (as_float imr) ;;
   o <- lift (as_float omr) ;;
   ret (gravity_of e s i o))%M.

(** [rows.merge(costs, how='left', on=[importer, exporter])]: every row with
    the cost of each matching row of [costs], or with a missing value when
    there is none. *)
Definition merge_left {X} (key : X -> string * string) (rows : list X)
    (costs : list CostRow) : list (X * F) :=
  flat_map (fun r =>
      match filter (fun c => key_eqb (tc_importer c, tc_exporter c) (key r))
                   costs with
      | [] => [(r, nan)]
      | matches => map (fun c => (r, trade_cost c)) matches
      end) rows.

(** The keys of [frame.groupby([key])], in sorted order. *)
Definition group_keys {X} (key : X -> string) (rows : list X) : list string :=
  sorted (nodup string_dec (map key rows)).

(** One cell of [frame.groupby([key]).agg('sum')]. *)
Definition group_sum {X} (key : X -> string) (value : X -> F)
    (rows : list X) (k : string) : F :=
  pd_sum (map value (filter (fun r => String.eqb (key r) k) rows)).

(** The three columns [pd.concat(..., axis=1)] shows for country [k] from a
    grouped frame: the two sums and their percent change when the frame has
    the group, missing values when it has not. *)
Definition group_columns (key : BilateralRow -> string)
    (rows : list BilateralRow) (k : string) : F * F * F :=
  if existsb (String.eqb k) (map key rows) then
    let b := group_sum key baseline_modeled_trade rows k in
    let e := group_sum key experiment_trade rows k in
    (b, e, percent_change_of e b)
  else (nan, nan, nan).

Definition is_foreign (r : BilateralRow) : bool :=
  negb (String.eqb (bt_importer r) (bt_exporter r)).

(** The rows of [bilateral_trade_results] from the rows of [trade_data]
    after the two merges. *)
Definition bilateral_rows (merged : list (TradeRow * F * F))
    : list BilateralRow :=
  map (fun m =>
      let row := fst (fst m) in
      let baseline_trade_cost := snd (fst m) in
      let trade_cost := snd m in
      let baseline_modeled_trade :=
        (baseline_trade_cost * tr_bsln_gravity row)%fl in
      let experiment_trade := (trade_cost * tr_gravity row)%fl in
      {| bt_exporter := tr_exporter row;
         bt_importer := tr_importer row;
         baseline_modeled_trade := baseline_modeled_trade;
         experiment_trade := experiment_trade;
         percent_change :=
           percent_change_of experiment_trade baseline_modeled_trade |})
    merged.

(** The countries of the frame [agg_trade]: the union of the indexes of the
    four grouped frames, in the order in which the countries first appear. *)
Definition aggregate_countries (bilateral : list BilateralRow) : list string :=
  let foreign := filter is_foreign bilateral in
  nodup string_dec
    (group_keys bt_exporter bilateral ++ group_keys bt_exporter foreign
     ++ group_keys bt_importer bilateral ++ group_keys bt_importer foreign).

(** The row of [agg_trade] for country [k]. *)
Definition aggregate_row (bilateral : list BilateralRow) (k : string)
    : AggregateRow :=
  let foreign := filter is_foreign bilateral in
  let '(be, ee, ce) := group_columns bt_exporter bilateral k in
  let '(bfe, efe, cfe) := group_columns bt_exporter foreign k in
  let '(bi, ei, ci) := group_columns bt_importer bilateral k in
  let '(bfi, efi, cfi) := group_columns bt_importer foreign k in
  {| ag_country := k;
     baseline_exports := be; experiment_exports := ee;
     export_percent_change := ce;
     baseline_foreign_exports := bfe; experiment_foreign_exports := efe;
     foreign_export_percent_change := cfe;
     baseline_imports := bi; experiment_imports := ei;
     import_percent_change := ci;
     baseline_foreign_imports := bfi; experiment_foreign_imports := efi;
     foreign_import_percent_change := cfi |}.

(** The frame [agg_trade]: one row per country of the four grouped frames. *)
Definition aggregate_rows (bilateral : list BilateralRow)
    : list AggregateRow :=
  map (aggregate_row bilateral) (aggregate_countries bilateral).

(** The attributes the last loop of [_construct_experiment_trade] assigns to
    a country, in its order. *)
Definition aggregate_attributes (row : AggregateRow) : list (string * F) :=
  [ ("baseline_imports", baseline_imports row);
    ("baseline_exports", baseline_exports row);
    ("baseline_foreign_imports", baseline_foreign_imports row);
    ("baseline_foreign_exports", baseline_foreign_exports row);
    ("experiment_imports", experiment_imports row);
    ("experiment_exports", experiment_exports row);
    ("imports_change", import_percent_change row);
    ("exports_change", export_percent_change row);
    ("experiment_foreign_imports", experiment_foreign_imports row);
    ("experiment_foreign_exports", experiment_foreign_exports row);
    ("foreign_imports_change", foreign_import_percent_change row);
    ("foreign_exports_change", foreign_export_percent_change row) ].

Definition _construct_experiment_trade : M OneSectorGE unit :=
  (self <- get ;;
   let trade_data :=
     filter (fun r => String.eqb (obs_year r) (_year self))
            (df_rows (baseline_data self)) in
   trade_data <- for_list trade_data (fun row =>
     let importer := obs_importer row in
     let exporter := obs_exporter row in
     gravity <- pair_gravity "experiment" importer exporter ;;
     bsln_gravity <- pair_gravity "baseline" importer exporter ;;
     ret {| tr_exporter := exporter; tr_importer := importer;
            tr_baseline_trade := obs_trade row;
            tr_gravity := gravity; tr_bsln_gravity := bsln_gravity |}) ;;
   let trade_data :=
     merge_left (fun r => (tr_importer r, tr_exporter r)) trade_data
                (baseline_trade_costs self) in
   experiment_costs <-
     match experiment_trade_costs self with
     | Some costs => ret costs
     | None => raise (TypeError "Can only merge Series or DataFrame objects")
     end ;;
   let trade_data :=
     merge_left (fun r => (tr_importer (fst r), tr_exporter (fst r)))
                trade_data experiment_costs in
   let bilateral_trade_results := bilateral_rows trade_data in
   modify (set_bilateral_trade_results (Some bilateral_trade_results)) ;;
   let agg_trade := aggregate_rows bilateral_trade_results in
   for_each agg_trade (fun row =>
     let country := ag_country row in
     _ <- Model.country country ;;
     for_each (aggregate_attributes row) (fun a =>
       set_country_attr country (fst a) (PyFloat (snd a)))) ;;
   modify (set_aggregate_trade_results (Some agg_trade)))%M.

Definition _compile_results : M OneSectorGE unit :=
  (self <- get ;;
   rows <- for_list (keys (country_set self)) (fun country =>
     c <- Model.country country ;;
     r <- lift (get_results c) ;;
     c <- Model.country country ;;
     m <- lift (get_mr_results c) ;;
     ret (r, m)) ;;
   match rows with
   | [] => raise (ValueError "No objects to concatenate")
   | _ =>
       modify (set_country_results (Some (map fst rows))) ;;
       modify (set_country_mr_terms (Some (map snd rows)))
   end)%M.

(** ** Simulation *)

Definition simulate (ge_method : pyval) (ge_tolerance : pyval)
    (ge_max_iter : option Z) : M OneSectorGE unit :=
  (self <- get ;;
   if negb (_baseline_built self) then raise (ValueError baseline_first)
   else if negb (_experiment_defined self) then
     raise (ValueError experiment_first)
   else
     modify (set_ge_method ge_method) ;;
     modify (set_ge_tolerance ge_tolerance) ;;
     modify (set_ge_max_iter ge_max_iter) ;;
     (* Step 1: Simulate conditional GE *)
     (if is_GEPPML (approach self) then
        _calculate_GEPPML_multilateral_resistance "conditional"
      else
        _ <- _calculate_multilateral_resistance
               (experiment_trade_costs self) "conditional" false false ;;
        ret tt) ;;
     (* Step 2: Simulate full GE *)
     _calculate_full_ge ;;
     (* Step 3: Generate post-simulation results *)
     self <- get ;;
     for_each (keys (country_set self))
       (fun country => in_country country construct_terms_of_trade) ;;
     _construct_experiment_output_expend ;;
     _construct_experiment_trade ;;
     _compile_results)%M.

(** ** Queries on the results *)

Definition no_attribute_loc : exn := AttributeError "loc".

(** [trade_share]: the method reads [bilat_trade.loc] and then subscripts
    [bilat_trade] with the column name ['importer'].  Before a simulation
    the attribute [self.bilateral_trade_results] is [None], which has no
    [loc]; after one, [_construct_experiment_trade] has moved the exporter
    and importer columns into the index of the frame, so the column lookup
    raises [KeyError] and the rest of the method is never reached. *)
Definition trade_share (importers exporters : list string)
    : M OneSectorGE unit :=
  (self <- get ;;
   match bilateral_trade_results self with
   | None => raise no_attribute_loc
   | Some _ => raise (KeyError "importer")
   end)%M.

(** What [export_results] returns when no directory is given: the frames
    [pd.concat(..., axis=1)] puts side by side, the bilateral results and
    the solver diagnostics. *)
Record ExportedResults : Type := {
  exported_country_results : option (list (dict pyval));
  exported_factory_gate_prices : list (string * F);
  exported_aggregate_trade_results : list AggregateRow;
  exported_outputs_expenditures : list OutputExpenditureRow;
  exported_country_mr_terms : option (list (dict pyval));
  exported_bilateral_results : option (list BilateralRow);
  exported_diagnostics : dict OptimizeResult
}.

Definition is_Some {A} (o : option A) : bool :=
  match o with
  | Some _ => true
  | None => false
  end.

(** [export_results]: [pd.concat] drops the frames that are [None] and
    raises [ValueError] when all of them are; [drop] raises [KeyError] for a
    column that no frame brought. *)
Definition export_results (directory : option string) (name : string)
    : M OneSectorGE (option ExportedResults) :=
  (self <- get ;;
   if negb (is_Some (country_results self) || is_Some (factory_gate_prices self)
            || is_Some (aggregate_trade_results self)
            || is_Some (outputs_expenditures self)
            || is_Some (country_mr_terms self))
   then raise (ValueError "All objects passed were None")
   else
     (* Drop duplicate columns *)
     prices <- match factory_gate_prices self with
               | Some t => ret t
               | None => raise (KeyError "experiment_factory_price")
               end ;;
     aggregate <- match aggregate_trade_results self with
                  | Some t => ret t
                  | None => raise (KeyError "export_percent_change")
                  end ;;
     outputs <- match outputs_expenditures self with
                | Some t => ret t
                | None => raise (KeyError "output_percent_change")
                end ;;
     let exported :=
       {| exported_country_results := country_results self;
          exported_factory_gate_prices := prices;
          exported_aggregate_trade_results := aggregate;
          exported_outputs_expenditures := outputs;
          exported_country_mr_terms := country_mr_terms self;
          exported_bilateral_results := bilateral_trade_results self;
          exported_diagnostics := solver_diagnostics self |} in
     match directory with
     | Some d =>
         emit (WriteCsv (d ++ "/" ++ name ++ "_country_results.csv")%string) ;;
         match bilateral_trade_results self with
         | Some _ =>
             emit (WriteCsv (d ++ "/" ++ name ++ "_bilateral_results.csv")%string)
         | None => raise (AttributeError "to_csv")
         end ;;
         emit (WriteCsv (d ++ "/" ++ name ++ "_solver_diagnostics.csv")%string) ;;
         ret None
     | None => ret (Some exported)
     end)%M.

(** ** The model as [__init__] leaves it

    [__init__] reads the estimation model and the data, builds the country
    set, the economy and the baseline trade costs, and leaves every solver
    setting and result field unset and both status flags [False]. *)
Definition after__init__ (estimation_results : option (dict F)) (year : string)
    (sigma : F) (reference_importer approach : option string) (quiet : bool)
    (cost_variables : list string) (cost_coeffs : dict F)
    (baseline_data : DataFrame) (country_set : dict Country)
    (economy : Economy) (baseline_trade_costs : list CostRow) : OneSectorGE :=
  {| _estimation_results := estimation_results;
     _year := year;
     sigma := sigma;
     _reference_importer := reference_importer;
     _omr_rescale := PyNone;
     _imr_rescale := PyNone;
     _mr_max_iter := None;
     _mr_tolerance := PyNone;
     _mr_method := PyNone;
     _ge_method := PyNone;
     _ge_tolerance := PyNone;
     _ge_max_iter := None;
     country_set := country_set;
     _economy := economy;
     baseline_trade_costs := baseline_trade_costs;
     experiment_trade_costs := None;
     cost_shock := None;
     experiment_data := None;
     approach := approach;
     quiet := quiet;
     (* Results fields *)
     bilateral_trade_results := None;
     aggregate_trade_results := None;
     solver_diagnostics := [];
     factory_gate_prices := None;
     outputs_expenditures := None;
     country_results := None;
     country_mr_terms := None;
     (* Status checks *)
     _baseline_built := false;
     _experiment_defined := false;
     cost_variables := cost_variables;
     cost_coeffs := cost_coeffs;
     baseline_data := baseline_data |}.

(** ** The constructor, once the countries exist *)

(** A method of a local object [p]: the outcome is the object as the method
    left it. *)
Definition on_object {S P A} (p : P) (c : M P A) : M S P :=
  fun s =>
    match c p with
    | (Ok _, p', log) => (Ok p', s, log)
    | (Raise e, _, log) => (Raise e, s, log)
    end.

(** [_create_baseline_economy] *)
Definition _create_baseline_economy : M OneSectorGE Economy :=
  (self <- get ;;
   (* Initialize Economy *)
   on_object (new_Economy (sigma self))
     (initialize_baseline_total_output_expend (country_set self)))%M.

Definition set_baseline_trade_costs (v : list CostRow) (self : OneSectorGE) : OneSectorGE :=
  {| _estimation_results := _estimation_results self; _year := _year self; sigma := sigma self;
     _reference_importer := _reference_importer self; _omr_rescale := _omr_rescale self;
     _imr_rescale := _imr_rescale self; _mr_max_iter := _mr_max_iter self;
     _mr_tolerance := _mr_tolerance self; _mr_method := _mr_method self;
     _ge_method := _ge_method self; _ge_tolerance := _ge_tolerance self;
     _ge_max_iter := _ge_max_iter self; country_set := country_set self;
     _economy := _economy self; baseline_trade_costs := v;
     experiment_trade_costs := experiment_trade_costs self; cost_shock := cost_shock self;
     experiment_data := experiment_data self; approach := approach self; quiet := quiet self;
     bilateral_trade_results := bilateral_trade_results self;
     aggregate_trade_results := aggregate_trade_results self;
     solver_diagnostics := solver_diagnostics self;
     factory_gate_prices := factory_gate_prices self;
     outputs_expenditures := outputs_expenditures self; country_results := country_results self;
     country_mr_terms := country_mr_terms self; _baseline_built := _baseline_built self;
     _experiment_defined := _experiment_defined self; cost_variables := cost_variables self;
     cost_coeffs := cost_coeffs self; baseline_data := baseline_data self |}.

(** The last lines of [__init__] (from [# Initialize a set of countries and
    the economy] on), with [created] the country set that
    [_create_baseline_countries] returned. *)
Definition __init__from_countries (created : dict Country)
    : M OneSectorGE unit :=
  ((* Initialize a set of countries and the economy *)
   modify (set_country_set created) ;;
   economy <- _create_baseline_economy ;;
   modify (set_economy economy) ;;
   (* Calculate certain country values using info from the whole economy *)
   self <- get ;;
   for_each (keys (country_set self)) (fun country =>
     self <- get ;;
     in_country country
       (calculate_baseline_output_expenditure_shares (_economy self))) ;;
   (* Calculate baseline trade costs *)
   self <- get ;;
   costs <- _create_trade_costs (Some (baseline_data self)) ;;
   modify (set_baseline_trade_costs costs))%M.

(** ** Diagnostic tools *)

(** [test_baseline_mr_function] *)
Definition test_baseline_mr_function (inputs_only : bool)
    : M OneSectorGE (option TestDiagnostics) :=
  (self <- get ;;
   _calculate_multilateral_resistance (Some (baseline_trade_costs self))
     "baseline" true inputs_only)%M.

(** numpy's reductions of the residual vector ([max], [mean], [median]) and
    the text [str.format] gives a number: external. *)
Variable array_max array_mean median : list F -> result F.
Variable format_number : F -> string.

(** A value of the dict [value_results]. *)
Inductive finding_value : Type :=
| FindingNumber (v : F)
| FindingText (s : string)
| FindingFlag (b : bool)
| FindingAttribute (v : pyval).

(** [10 ** scale_value]: an int when the exponent is not negative, a float
    when it is. *)
Definition power_of_ten (scale_value : Z) : F :=
  if (0 <=? scale_value)%Z then fromZ (10 ^ scale_value)
  else fpow (fromZ 10) (fromZ scale_value).

(** [range(start, stop)] *)
Definition range (start stop : Z) : list Z :=
  map (fun i => (start + Z.of_nat i)%Z) (seq 0 (Z.to_nat (stop - start))).

(** ['{}'.format(n)] for an int. *)
Definition format_int (n : Z) : string :=
  NilZero.string_of_int (Z.to_int n).

(** [check_omr_rescale]; the rows of [findings_table] are the dicts
    [value_results]. *)
Definition check_omr_rescale (omr_rescale_range : Z) (mr_method : pyval)
    (mr_max_iter : option Z) (mr_tolerance : pyval) (countries : list string)
    : M OneSectorGE (list (dict finding_value)) :=
  (modify (set_mr_max_iter mr_max_iter) ;;
   modify (set_mr_tolerance mr_tolerance) ;;
   modify (set_mr_method mr_method) ;;
   modify (set_imr_rescale (PyFloat 1%fl)) ;;
   (* Create list of rescale factors to test *)
   let scale_values := range (-1 * omr_rescale_range) (omr_rescale_range + 1) in
   for_list scale_values (fun scale_value =>
     let value_results : dict finding_value := [] in
     let rescale_factor := power_of_ten scale_value in
     self <- get ;;
     when (negb (quiet self))
       (emit (Print (String "010"%char "Trying OMR rescale factor of "
                     ++ format_number rescale_factor)%string)) ;;
     modify (set_omr_rescale (PyFloat rescale_factor)) ;;
     self <- get ;;
     _ <- _calculate_multilateral_resistance (Some (baseline_trade_costs self))
            "baseline" false false ;;
     let value_results :=
       dict_set value_results "omr_rescale" (FindingNumber rescale_factor) in
     let value_results :=
       dict_set value_results "omr_rescale (alt format)"
                (FindingText ("10^" ++ format_int scale_value)%string) in
     self <- get ;;
     diagnostics <- lift (lookup (solver_diagnostics self) "baseline_MRs") ;;
     let value_results :=
       dict_set value_results "solved" (FindingFlag (opt_success diagnostics)) in
     let value_results :=
       dict_set value_results "message" (FindingText (opt_message diagnostics)) in
     let func_vals := opt_fun diagnostics in
     v <- lift (array_max func_vals) ;;
     let value_results :=
       dict_set value_results "max_func_value" (FindingNumber v) in
     v <- lift (array_mean func_vals) ;;
     let value_results :=
       dict_set value_results "mean_func_value" (FindingNumber v) in
     v <- lift (median func_vals) ;;
     let value_results :=
       dict_set value_results "mean_func_value" (FindingNumber v) in
     r <- lift (reference_key self) ;;
     v <- country_attr r "baseline_omr" ;;
     let value_results :=
       dict_set value_results "reference_importer_omr" (FindingAttribute v) in
     for_fold countries value_results (fun value_results country =>
       v <- country_attr country "baseline_omr" ;;
       ret (dict_set value_results (country ++ "_omr")%string
                     (FindingAttribute v)))))%M.

End Model.

(** ** Real arithmetic with a missing value

    [None] is the not-a-number value; every operation propagates it.  The
    instance is what closed examples are run on: their inputs and results
    (1/4, 1/2, 3/4, 1, 2, [exp 0]) are numbers a double holds exactly, so
    the exact arithmetic computes what the program computes there.  No
    property of the program is stated over this instance in general. *)

Definition Rnan : Type := option R.

Definition Rnan_lift2 (op : R -> R -> R) (a b : Rnan) : Rnan :=
  match a, b with
  | Some x, Some y => Some (op x y)
  | _, _ => None
  end.

#[export] Instance RArith : Arith Rnan := {|
  fromZ := fun z => Some (IZR z);
  fadd := Rnan_lift2 Rplus;
  fsub := Rnan_lift2 Rminus;
  fmul := Rnan_lift2 Rmult;
  fdiv := Rnan_lift2 Rdiv;
  fpow := Rnan_lift2 Rpower;
  fexp := option_map exp;
  exp_overflows := fun _ => false;   (* the real exponential has no range *)
  nan := None;
  isnan := fun a => match a with None => true | Some _ => false end;
  feqb := fun a b =>
    match a, b with
    | Some x, Some y => if Req_dec_T x y then true else false
    | _, _ => false
    end
|}.

(** * Properties of the model *)

Unset Implicit Arguments.

(** * Properties *)

(** ** Lists, the error monad and the numpy helpers *)

Lemma mapM_ok {A B} (f : A -> result B) (g : A -> B) (l : list A) :
  (forall a, In a l -> f a = Ok (g a)) -> mapM f l = Ok (map g l).
Proof.
  induction l as [|a l IH]; intros H; simpl; [reflexivity|].
  rewrite (H a (or_introl eq_refl)), IH; [reflexivity|].
  intros b Hb. apply H. now right.
Qed.

Lemma mapM_length {A B} (f : A -> result B) (l : list A) (bs : list B) :
  mapM f l = Ok bs -> length bs = length l.
Proof.
  revert bs. induction l as [|a l IH]; simpl; intros bs H.
  - now inversion H.
  - destruct (f a); [|discriminate].
    destruct (mapM f l); [|discriminate].
    inversion H; subst. simpl. f_equal. now apply IH.
Qed.

Lemma getitem_nth {A} (l : list A) (i : nat) (d : A) :
  i < length l -> getitem l i = Ok (nth i l d).
Proof.
  intros H. unfold getitem.
  rewrite (nth_error_nth' l d H). reflexivity.
Qed.

Lemma nth_nil {A} (i : nat) (d : A) : nth i [] d = d.
Proof. now destruct i. Qed.

Lemma zip_with_length {A B C} (f : A -> B -> C) (a : list A) (b : list B) :
  length a = length b -> length (zip_with f a b) = length a.
Proof.
  revert b. induction a as [|x a IH]; intros [|y b] H; simpl in *; try congruence.
  f_equal. apply IH. congruence.
Qed.

Lemma zip_with_nth {A B C} (f : A -> B -> C) (a : list A) (b : list B)
    (i : nat) (da : A) (db : B) (dc : C) :
  length a = length b -> i < length a ->
  nth i (zip_with f a b) dc = f (nth i a da) (nth i b db).
Proof.
  revert b i. induction a as [|x a IH]; intros [|y b] i Hl Hi; simpl in *;
    try lia; try congruence.
  destruct i; [reflexivity|]. apply IH; [congruence|lia].
Qed.

(** A list is the table of its entries. *)
Lemma list_as_map {A} (l : list A) (d : A) :
  l = map (fun i => nth i l d) (seq 0 (length l)).
Proof.
  apply (nth_ext _ _ d d).
  - now rewrite length_map, length_seq.
  - intros i Hi. symmetry.
    rewrite (nth_indep (map _ _) d ((fun i => nth i l d) 0))
      by now rewrite length_map, length_seq.
    rewrite (map_nth (fun i => nth i l d)), seq_nth; [reflexivity|exact Hi].
Qed.

Lemma map_seq_ext {A} (f g : nat -> A) (n : nat) :
  (forall i, i < n -> f i = g i) -> map f (seq 0 n) = map g (seq 0 n).
Proof.
  intros H. apply map_ext_in. intros i Hi. apply in_seq in Hi. apply H. lia.
Qed.

Lemma firstn_seq_min (n start len : nat) :
  firstn n (seq start len) = seq start (Nat.min n len).
Proof.
  revert start len. induction n as [|n IH]; intros start [|len]; simpl;
    try reflexivity.
  now rewrite IH.
Qed.

Section Residuals.

Context {F : Type} {AF : Arith F}.

Lemma scale_float (l : list F) (r : F) :
  scale l (PyFloat r) = Ok (map (fun v => v * r)%fl l).
Proof. unfold scale. apply mapM_ok. intros; reflexivity. Qed.

Lemma multiply_same_length (a b : list F) :
  length a = length b -> multiply a b = Ok (zip_with fmul a b).
Proof.
  intros H. unfold multiply.
  destruct a as [|x [|x' a]]; destruct b as [|y [|y' b]]; simpl in *;
    try discriminate; try reflexivity.
  injection H as H. rewrite H, Nat.eqb_refl. reflexivity.
Qed.

(** A matrix with [n] rows and [n] columns. *)
Definition square (n : nat) (m : @matrix F) : Prop :=
  length m = n /\ Forall (fun row => length row = n) m.

(** [m[i][j]] *)
Definition entry (m : @matrix F) (i j : nat) : F := nth j (nth i m []) nan.

Lemma matrix_col_entries (n : nat) (m : @matrix F) (j : nat) :
  square n m -> j < n ->
  matrix_col m j = Ok (map (fun i => entry m i j) (seq 0 n)).
Proof.
  intros [Hn Hrows] Hj. unfold matrix_col.
  rewrite (mapM_ok _ (fun row => nth j row nan)).
  - f_equal. subst n.
    rewrite (list_as_map (map _ m) nan), length_map.
    apply map_seq_ext. intros i Hi. unfold entry.
    rewrite (nth_indep _ nan (nth j [] nan)) by now rewrite length_map.
    now rewrite (map_nth (fun row => nth j row nan)).
  - intros row Hrow. apply getitem_nth.
    rewrite Forall_forall in Hrows. rewrite (Hrows row Hrow). exact Hj.
Qed.

Lemma matrix_row_entries (n : nat) (m : @matrix F) (i : nat) :
  square n m -> i < n ->
  matrix_row m i = Ok (map (fun j => entry m i j) (seq 0 n)).
Proof.
  intros [Hn Hrows] Hi. unfold matrix_row.
  rewrite (getitem_nth m i []) by lia. f_equal.
  assert (Hlen : length (nth i m []) = n).
  { rewrite Forall_forall in Hrows. apply Hrows, nth_In. lia. }
  rewrite (list_as_map (nth i m []) nan) at 1. now rewrite Hlen.
Qed.

(** The sum of the spec, [Sigma_{k < n} f k], added up in index order. *)
Definition Sigma (n : nat) (f : nat -> F) : F := py_sum (map f (seq 0 n)).

Lemma zip_with_tables (f g : nat -> F) (n : nat) :
  zip_with fmul (map f (seq 0 n)) (map g (seq 0 n))
  = map (fun k => f k * g k)%fl (seq 0 n).
Proof.
  generalize 0. induction n as [|n IH]; intros s; simpl; [reflexivity|].
  now rewrite IH.
Qed.

(** One equation of the residual, on tables of length [n]. *)
Lemma mr_equation_tables (n k : nat) (v : nat -> F) (line w : nat -> F)
    (len : nat) :
  k < len ->
  mr_equation (map v (seq 0 len)) k (Ok (map line (seq 0 n))) (map w (seq 0 n))
  = Ok (1 - v k * Sigma n (fun i => line i * w i))%fl.
Proof.
  intros Hk. unfold mr_equation.
  rewrite (getitem_nth _ k (v 0)) by now rewrite length_map, length_seq.
  rewrite (map_nth v), seq_nth by exact Hk. simpl.
  rewrite multiply_same_length by now rewrite !length_map.
  simpl. now rewrite zip_with_tables.
Qed.

End Residuals.

Section ResidualSpec.

Context {F : Type} {AF : Arith F}.

(** The multilateral resistances the unknowns vector [x] stands for in the
    code.  Entry [j < N - 1] is the IMR of country [j] of the sorted order;
    the last country of the sorted order has no entry, and its IMR is 1.
    The comments of the code call that country the reference country, but
    nothing makes it the model's [_reference_importer]. *)
Definition IMR (N : nat) (imr_rescale : F) (x : list F) (j : nat) : F :=
  if j <? N - 1 then (nth j x nan * imr_rescale)%fl else 1%fl.

Definition OMR (N : nat) (omr_rescale : F) (x : list F) (i : nat) : F :=
  (nth (N - 1 + i) x nan * omr_rescale)%fl.

(** [1 - IMR_j * Sigma_i cost_out_shr[i,j] * OMR_i] *)
Definition imr_residual (N : nat) (cost_out_shr : @matrix F) (imr omr : nat -> F)
    (j : nat) : F :=
  (1 - imr j * Sigma N (fun i => entry cost_out_shr i j * omr i))%fl.

(** [1 - OMR_i * Sigma_j cost_exp_shr[i,j] * IMR_j] *)
Definition omr_residual (N : nat) (cost_exp_shr : @matrix F) (imr omr : nat -> F)
    (i : nat) : F :=
  (1 - omr i * Sigma N (fun j => entry cost_exp_shr i j * imr j))%fl.

(** The residual vector with the last country of the sorted order left
    out: the IMR equations of the first [N - 1] importers, then the OMR
    equations of all exporters. *)
Definition spec_mr_residuals (N : nat) (cost_exp_shr cost_out_shr : @matrix F)
    (imr omr : nat -> F) : list F :=
  map (imr_residual N cost_out_shr imr omr) (seq 0 (N - 1))
  ++ map (omr_residual N cost_exp_shr imr omr) (seq 0 N).

(** The system as the specification states it, for a designated reference
    importer at position [ref] of the sorted order: the vector has no IMR
    entry for that country, whose IMR is 1; its [N - 1] IMR entries belong
    to the other countries, in sorted order. *)
Definition reference_IMR (ref : nat) (imr_rescale : F) (x : list F) (j : nat)
    : F :=
  if Nat.eqb j ref then 1%fl
  else (nth (if j <? ref then j else j - 1) x nan * imr_rescale)%fl.

(** The IMR equations of the importers other than the reference importer,
    then the OMR equations of all exporters. *)
Definition reference_mr_residuals (N ref : nat)
    (cost_exp_shr cost_out_shr : @matrix F) (imr omr : nat -> F) : list F :=
  map (imr_residual N cost_out_shr imr omr)
      (filter (fun j => negb (Nat.eqb j ref)) (seq 0 N))
  ++ map (omr_residual N cost_exp_shr imr omr) (seq 0 N).

Lemma firstn_table (k : nat) (x : list F) :
  k <= length x -> firstn k x = map (fun j => nth j x nan) (seq 0 k).
Proof.
  intros H. rewrite (list_as_map (firstn k x) nan).
  rewrite length_firstn, Nat.min_l by exact H.
  apply map_seq_ext. intros i Hi.
  rewrite nth_firstn. apply Nat.ltb_lt in Hi. now rewrite Hi.
Qed.

Lemma skipn_table (k n : nat) (x : list F) :
  length x = k + n -> skipn k x = map (fun i => nth (k + i) x nan) (seq 0 n).
Proof.
  intros H. rewrite (list_as_map (skipn k x) nan).
  rewrite length_skipn, H. replace (k + n - k) with n by lia.
  apply map_seq_ext. intros i Hi. apply nth_skipn.
Qed.

(** The IMRs with the [1] of the last country appended, as a table over all
    countries. *)
Lemma imr_table (N : nat) (r : F) (x : list F) :
  1 <= N ->
  map (fun j => nth j x nan * r)%fl (seq 0 (N - 1)) ++ [1%fl]
  = map (IMR N r x) (seq 0 N).
Proof.
  intros HN. replace N with ((N - 1) + 1) at 3 by lia.
  rewrite seq_app, map_app. simpl. f_equal.
  - apply map_seq_ext. intros j Hj. unfold IMR.
    apply Nat.ltb_lt in Hj. now rewrite Hj.
  - unfold IMR. now rewrite Nat.ltb_irrefl.
Qed.

Lemma imr_table_lt (N : nat) (r : F) (x : list F) :
  map (fun j => nth j x nan * r)%fl (seq 0 (N - 1))
  = map (IMR N r x) (seq 0 (N - 1)).
Proof.
  apply map_seq_ext. intros j Hj. unfold IMR.
  apply Nat.ltb_lt in Hj. now rewrite Hj.
Qed.

(** The two MR residual families, computed by the code from the scaled
    tables. *)
Lemma mr_families (N : nat) (ce co : @matrix F) (imr omr : nat -> F) :
  1 <= N -> square N ce -> square N co ->
  mapM (fun j => mr_equation (map imr (seq 0 (N - 1))) j (matrix_col co j)
                             (map omr (seq 0 N)))
       (seq 0 (N - 1))
  = Ok (map (imr_residual N co imr omr) (seq 0 (N - 1)))
  /\ mapM (fun i => mr_equation (map omr (seq 0 N)) i (matrix_row ce i)
                                (map imr (seq 0 N)))
          (seq 0 N)
     = Ok (map (omr_residual N ce imr omr) (seq 0 N)).
Proof.
  intros HN Hce Hco. split; apply mapM_ok; intros k Hk; apply in_seq in Hk.
  - rewrite (matrix_col_entries N co k Hco) by lia.
    apply mr_equation_tables. lia.
  - rewrite (matrix_row_entries N ce k Hce) by lia.
    rewrite mr_equation_tables by lia.
    unfold omr_residual. reflexivity.
Qed.

(** The residual function as the code has it.  On an unknowns vector of
    length [2N - 1] over [N] countries in sorted order (the first [N - 1]
    entries the rescaled IMRs of the first [N - 1] countries, the remaining
    [N] the rescaled OMRs), it returns, for each of the first [N - 1]
    importers [j], [1 - IMR_j * Sigma_i cost_out_shr[i,j] * OMR_i] and, for
    each exporter [i], [1 - OMR_i * Sigma_j cost_exp_shr[i,j] * IMR_j],
    with [IMR = 1] for the last country of the sorted order.  The initial
    guess of the solve is the all-ones vector of that length, and the
    function is defined on it. *)
Theorem multilateral_resistances_residuals
    (N : nat) (ce co : @matrix F) (r_omr r_imr : F) (x : list F) :
  1 <= N -> square N ce -> square N co -> length x = 2 * N - 1 ->
  let mr_params :=
    {| mr_number_of_countries := N;
       mr_omr_rescale := PyFloat r_omr; mr_imr_rescale := PyFloat r_imr;
       mr_cost_exp_shr := ce; mr_cost_out_shr := co |} in
  _multilateral_resistances x mr_params
  = Ok (spec_mr_residuals N ce co (IMR N r_imr x) (OMR N r_omr x))
  /\ length (spec_mr_residuals N ce co (IMR N r_imr x) (OMR N r_omr x))
     = 2 * N - 1
  /\ mr_initial_values N = repeat 1%fl (2 * N - 1)
  /\ exists out, _multilateral_resistances (mr_initial_values N) mr_params
                 = Ok out.
Proof.
  intros HN Hce Hco Hx mr_params.
  assert (Hres : forall y, length y = 2 * N - 1 ->
            _multilateral_resistances y mr_params
            = Ok (spec_mr_residuals N ce co (IMR N r_imr y) (OMR N r_omr y))).
  { intros y Hy. unfold _multilateral_resistances, mr_params. simpl.
    rewrite !scale_float. simpl.
    rewrite (firstn_table (N - 1)) by lia.
    rewrite (skipn_table (N - 1) N) by lia.
    rewrite !map_map.
    rewrite imr_table by exact HN. rewrite imr_table_lt.
    change (map (fun i => (nth (N - 1 + i) y nan * r_omr)%fl) (seq 0 N))
      with (map (OMR N r_omr y) (seq 0 N)).
    destruct (mr_families N ce co (IMR N r_imr y) (OMR N r_omr y) HN Hce Hco)
      as [H1 H2].
    rewrite H1. simpl. rewrite H2. reflexivity. }
  split; [now apply Hres|]. split.
  - unfold spec_mr_residuals.
    rewrite length_app, !length_map, !length_seq. lia.
  - split; [reflexivity|]. eexists. apply Hres.
    unfold mr_initial_values. apply repeat_length.
Qed.

End ResidualSpec.

Section Rescaling.

Context {F : Type} {AF : Arith F}.

(** The componentwise-scaled vector: the IMR entries times [imr_rescale],
    the OMR entries times [omr_rescale]. *)
Definition rescaled (N : nat) (imr_rescale omr_rescale : F) (x : list F)
    : list F :=
  map (fun v => v * imr_rescale)%fl (firstn (N - 1) x)
  ++ map (fun v => v * omr_rescale)%fl (skipn (N - 1) x).

(** A residual vector that is exactly zero. *)
Definition zeroes (r : result (list F)) : Prop :=
  exists out, r = Ok out /\ Forall (fun v => v = 0%fl) out.

Lemma rescaled_split (N : nat) (r_imr r_omr : F) (x : list F) :
  firstn (N - 1) (rescaled N r_imr r_omr x)
  = map (fun v => v * r_imr)%fl (firstn (N - 1) x)
  /\ skipn (N - 1) (rescaled N r_imr r_omr x)
     = map (fun v => v * r_omr)%fl (skipn (N - 1) x).
Proof.
  unfold rescaled.
  destruct (Nat.le_gt_cases (N - 1) (length x)) as [Hle|Hgt].
  - assert (Hlen : length (map (fun v => (v * r_imr)%fl) (firstn (N - 1) x))
                   = N - 1).
    { rewrite length_map, length_firstn. lia. }
    split.
    + rewrite firstn_app, Hlen, Nat.sub_diag. simpl.
      rewrite app_nil_r. apply firstn_all2. lia.
    + rewrite skipn_app, Hlen, Nat.sub_diag. simpl.
      rewrite skipn_all2 by lia. reflexivity.
  - rewrite (skipn_all2 (n := N - 1) x) by lia. simpl. rewrite app_nil_r.
    rewrite (firstn_all2 (n := N - 1) x) by lia.
    split.
    + apply firstn_all2. rewrite length_map. lia.
    + apply skipn_all2. rewrite length_map. lia.
Qed.

Lemma map_mul_one (l : list F) :
  (forall v : F, (v * 1)%fl = v) -> map (fun v => v * 1)%fl l = l.
Proof.
  intros H. rewrite <- (map_id l) at 2. apply map_ext. exact H.
Qed.

(** C5.  Rescale invariance.  Under the law [v * 1 = v] of the arithmetic,
    the residual vector of [x] under the rescale factors
    [(omr_rescale, imr_rescale)] is the residual vector of the
    componentwise-scaled vector under the factors [(1, 1)]: one is exactly
    zero if and only if the other is, and the IMR and OMR values unpacked
    from the two are the same.  This holds for all factors, the positive
    ones included. *)
Theorem rescale_invariance
    (N : nat) (ce co : @matrix F) (omr_rescale imr_rescale : F) (x : list F) :
  (forall v : F, (v * 1)%fl = v) ->
  let mr_params (r_omr r_imr : F) :=
    {| mr_number_of_countries := N;
       mr_omr_rescale := PyFloat r_omr; mr_imr_rescale := PyFloat r_imr;
       mr_cost_exp_shr := ce; mr_cost_out_shr := co |} in
  let x' := rescaled N imr_rescale omr_rescale x in
  _multilateral_resistances x (mr_params omr_rescale imr_rescale)
  = _multilateral_resistances x' (mr_params 1%fl 1%fl)
  /\ (zeroes (_multilateral_resistances x (mr_params omr_rescale imr_rescale))
      <-> zeroes (_multilateral_resistances x' (mr_params 1%fl 1%fl)))
  /\ unpack_mrs N x (PyFloat imr_rescale) (PyFloat omr_rescale)
     = unpack_mrs N x' (PyFloat 1%fl) (PyFloat 1%fl).
Proof.
  intros Hone mr_params x'.
  destruct (rescaled_split N imr_rescale omr_rescale x) as [Hfirst Hskip].
  assert (Heq : _multilateral_resistances x (mr_params omr_rescale imr_rescale)
                = _multilateral_resistances x' (mr_params 1%fl 1%fl)).
  { unfold _multilateral_resistances, mr_params, x'. simpl.
    rewrite !scale_float, Hfirst, Hskip, !(map_mul_one _ Hone).
    reflexivity. }
  split; [exact Heq|]. split.
  - now rewrite Heq.
  - unfold unpack_mrs, x'.
    rewrite !scale_float, Hfirst, Hskip, !(map_mul_one _ Hone).
    reflexivity.
Qed.

End Rescaling.

Section FullGESpec.

Context {F : Type} {AF : Arith F}.

(** The float a list of attribute values holds at an index. *)
Definition float_at (l : list (@pyval F)) (i : nat) : F :=
  match nth i l PyNone with
  | PyFloat v => v
  | _ => nan
  end.

(** The factory-gate price of exporter [i] in the unknowns vector. *)
Definition price (N : nat) (x : list F) (i : nat) : F :=
  nth (2 * N - 1 + i) x nan.

(** [1 - (output_share_i * OMR_i) / (factory_gate_param_i * price_i ** (1 - sigma))] *)
Definition price_residual (sigma : F) (output_share factory_gate_param : nat -> F)
    (omr price : nat -> F) (i : nat) : F :=
  (1 - (output_share i * omr i)
       / (factory_gate_param i * fpow (price i) (1 - sigma)))%fl.

(** The residual vector of the full GE system in the spec: the two MR
    families, then the price equations. *)
Definition spec_ge_residuals (N : nat) (sigma : F) (ce co : @matrix F)
    (output_share factory_gate_param : nat -> F) (imr omr price : nat -> F)
    : list F :=
  spec_mr_residuals N ce co imr omr
  ++ map (price_residual sigma output_share factory_gate_param omr price)
         (seq 0 N).

(** All entries of a list of attribute values are floats. *)
Definition all_floats (l : list (@pyval F)) : Prop :=
  Forall (fun v => exists f, v = PyFloat f) l.

Lemma float_at_ok (l : list (@pyval F)) (i : nat) :
  all_floats l -> i < length l ->
  getitem l i = Ok (PyFloat (float_at l i)).
Proof.
  intros Hall Hi. rewrite (getitem_nth l i PyNone Hi). unfold float_at.
  unfold all_floats in Hall. rewrite Forall_forall in Hall.
  destruct (Hall (nth i l PyNone) (nth_In l PyNone Hi)) as [f ->].
  reflexivity.
Qed.

Lemma firstn_skipn_table (k n : nat) (x : list F) :
  k + n <= length x ->
  firstn n (skipn k x) = map (fun i => nth (k + i) x nan) (seq 0 n).
Proof.
  intros H. rewrite firstn_table by (rewrite length_skipn; lia).
  apply map_seq_ext. intros i Hi. apply nth_skipn.
Qed.

Lemma full_ge_residuals (N : nat) (sigma : F) (ce co : @matrix F)
    (r_omr r_imr : F) (output_shr factory_gate_param : list (@pyval F))
    (x : list F) :
  1 <= N -> square N ce -> square N co -> length x = 3 * N - 1 ->
  all_floats output_shr -> length output_shr = N ->
  all_floats factory_gate_param -> length factory_gate_param = N ->
  _full_ge x
    {| ge_number_of_countries := N;
       ge_omr_rescale := PyFloat r_omr; ge_imr_rescale := PyFloat r_imr;
       ge_sigma := sigma;
       ge_cost_exp_shr := ce; ge_cost_out_shr := co;
       ge_output_shr := output_shr;
       ge_factory_gate_param := factory_gate_param |}
  = Ok (spec_ge_residuals N sigma ce co
          (float_at output_shr) (float_at factory_gate_param)
          (IMR N r_imr x) (OMR N r_omr x) (price N x)).
Proof.
  intros HN Hce Hco Hx Hos Hlos Hfg Hlfg.
  unfold _full_ge. simpl.
  rewrite !scale_float. simpl.
  rewrite (firstn_table (N - 1)) by lia.
  rewrite (firstn_skipn_table (N - 1) N) by lia.
  rewrite !map_map.
  rewrite imr_table by exact HN. rewrite imr_table_lt.
  change (map (fun i => (nth (N - 1 + i) x nan * r_omr)%fl) (seq 0 N))
    with (map (OMR N r_omr x) (seq 0 N)).
  destruct (mr_families N ce co (IMR N r_imr x) (OMR N r_omr x) HN Hce Hco)
    as [H1 H2].
  rewrite H1. simpl. rewrite H2. simpl.
  rewrite (mapM_ok _ (price_residual sigma (float_at output_shr)
                        (float_at factory_gate_param) (OMR N r_omr x)
                        (price N x))).
  - unfold spec_ge_residuals, spec_mr_residuals.
    now rewrite <- app_assoc.
  - intros i Hi. apply in_seq in Hi. unfold price_equation.
    rewrite (float_at_ok output_shr i Hos) by lia. simpl.
    rewrite (getitem_nth _ i (OMR N r_omr x 0))
      by (rewrite length_map, length_seq; lia).
    rewrite (map_nth (OMR N r_omr x)), seq_nth by lia. simpl.
    rewrite (float_at_ok factory_gate_param i Hfg) by lia. simpl.
    rewrite (getitem_nth _ i nan) by (rewrite length_skipn; lia).
    rewrite nth_skipn. simpl. reflexivity.
Qed.

Lemma mapM_divide (r : F) (l : list (@pyval F)) :
  all_floats l ->
  mapM (divide_by (PyFloat r)) l
  = Ok (map (fun i => (float_at l i / r)%fl) (seq 0 (length l))).
Proof.
  intros Hall.
  set (g := fun mr : @pyval F => match mr with
                                 | PyFloat v => (v / r)%fl
                                 | _ => (nan / r)%fl
                                 end).
  rewrite (mapM_ok _ g).
  - f_equal. rewrite (list_as_map (map g l) (g PyNone)), length_map.
    apply map_seq_ext. intros i Hi.
    rewrite (map_nth g). unfold g, float_at.
    now destruct (nth i l PyNone).
  - intros mr Hin. unfold all_floats in Hall. rewrite Forall_forall in Hall.
    destruct (Hall mr Hin) as [f ->]. reflexivity.
Qed.

Lemma ge_initial_values_spec (N : nat) (r_imr r_omr : F)
    (init_imr init_omr : list (@pyval F)) :
  1 <= N -> all_floats init_imr -> length init_imr = N ->
  all_floats init_omr -> length init_omr = N ->
  ge_initial_values N (PyFloat r_imr) (PyFloat r_omr) init_imr init_omr
  = Ok (map (fun j => float_at init_imr j / r_imr)%fl (seq 0 (N - 1))
        ++ map (fun i => float_at init_omr i / r_omr)%fl (seq 0 N)
        ++ repeat 1%fl N).
Proof.
  intros HN Hi Hli Ho Hlo. unfold ge_initial_values.
  rewrite (mapM_divide r_imr init_imr Hi). simpl.
  rewrite (mapM_divide r_omr init_omr Ho). simpl.
  rewrite Hli, Hlo. do 2 f_equal.
  rewrite firstn_map, firstn_seq_min. now rewrite Nat.min_l by lia.
Qed.

End FullGESpec.

(** ** Dicts *)

Lemma dict_get_set {V} (d : dict V) (k : string) (v : V) (k' : string) :
  dict_get (dict_set d k v) k'
  = if String.eqb k' k then Some v else dict_get d k'.
Proof.
  induction d as [|[k0 v0] d IH]; simpl.
  - reflexivity.
  - destruct (String.eqb k k0) eqn:Hk; simpl.
    + apply String.eqb_eq in Hk. subst k0.
      now destruct (String.eqb k' k).
    + rewrite IH. destruct (String.eqb k' k0) eqn:Hk0; [|reflexivity].
      apply String.eqb_eq in Hk0. subst k0.
      now rewrite String.eqb_sym, Hk.
Qed.

Lemma keys_dict_set {V} (d : dict V) (k : string) (v : V) :
  dict_get d k <> None -> keys (dict_set d k v) = keys d.
Proof.
  induction d as [|[k0 v0] d IH]; simpl; intros H.
  - congruence.
  - destruct (String.eqb k k0) eqn:Hk; simpl; [reflexivity|].
    f_equal. apply IH. exact H.
Qed.

Lemma dict_get_In_keys {V} (d : dict V) (k : string) :
  In k (keys d) -> dict_get d k <> None.
Proof.
  induction d as [|[k0 v0] d IH]; simpl; intros H.
  - contradiction.
  - destruct (String.eqb k k0) eqn:Hk; [discriminate|].
    destruct H as [H|H].
    + subst. now rewrite String.eqb_refl in Hk.
    + now apply IH.
Qed.

Section Countries.

Context {F : Type} {AF : Arith F}.

(** The value of attribute [a] of country [k] in a country set. *)
Definition cs_attr (cs : dict (@Country F)) (k a : string) : option (@pyval F) :=
  match dict_get cs k with
  | Some c => dict_get c a
  | None => None
  end.

(** The value of attribute [a] of country [k] of the model. *)
Definition stored (self : @OneSectorGE F) (k a : string) : option (@pyval F) :=
  cs_attr (country_set self) k a.

Lemma cs_attr_set (cs : dict (@Country F)) (k a : string) (v : @pyval F)
    (c : @Country F) (k' a' : string) :
  dict_get cs k = Some c ->
  cs_attr (dict_set cs k (dict_set c a v)) k' a'
  = if String.eqb k' k && String.eqb a' a then Some v else cs_attr cs k' a'.
Proof.
  intros H. unfold cs_attr. rewrite dict_get_set.
  destruct (String.eqb k' k) eqn:Hk; simpl; [|reflexivity].
  apply String.eqb_eq in Hk. subst k'. rewrite H, dict_get_set.
  reflexivity.
Qed.

Lemma binop_floats (op : F -> F -> F) (a b : F) :
  binop op (PyFloat a) (PyFloat b) = Ok (PyFloat (op a b)).
Proof. reflexivity. Qed.

Lemma set_country_attr_run (self : @OneSectorGE F) (k a : string)
    (v : @pyval F) (c : @Country F) :
  dict_get (country_set self) k = Some c ->
  set_country_attr k a v self
  = (Ok tt, set_country_set (dict_set (country_set self) k (dict_set c a v)) self, []).
Proof.
  intros H. unfold set_country_attr, in_country, zoom, lookup.
  rewrite H. reflexivity.
Qed.

Lemma country_attr_run (self : @OneSectorGE F) (k a : string) (v : @pyval F) :
  stored self k a = Some v -> country_attr k a self = (Ok v, self, []).
Proof.
  unfold stored, cs_attr, country_attr, lookup, getattr. intros H.
  destruct (dict_get (country_set self) k); [|discriminate]. simpl.
  now rewrite H.
Qed.

(** [cs'] is [cs] with the attributes [assigns] of country [k] overwritten. *)
Definition updates (cs cs' : dict (@Country F)) (k : string)
    (assigns : list (string * @pyval F)) : Prop :=
  keys cs' = keys cs
  /\ forall k' a',
       cs_attr cs' k' a'
       = if String.eqb k' k then
           match dict_get assigns a' with
           | Some v => Some v
           | None => cs_attr cs k' a'
           end
         else cs_attr cs k' a'.

Lemma updates_nil (cs : dict (@Country F)) (k : string) : updates cs cs k [].
Proof.
  split; [reflexivity|]. intros k' a'. simpl. now destruct (String.eqb k' k).
Qed.

Lemma updates_present (cs cs' : dict (@Country F)) (k : string)
    (assigns : list (string * @pyval F)) (k' : string) :
  updates cs cs' k assigns -> In k' (keys cs) -> In k' (keys cs').
Proof. intros [Hk _] H. now rewrite Hk. Qed.

(** One more assignment, made first. *)
Lemma updates_cons (cs cs' : dict (@Country F)) (k a : string) (v : @pyval F)
    (c : @Country F) (assigns : list (string * @pyval F)) :
  dict_get cs k = Some c ->
  dict_get assigns a = None ->
  updates (dict_set cs k (dict_set c a v)) cs' k assigns ->
  updates cs cs' k ((a, v) :: assigns).
Proof.
  intros Hc Hfresh [Hkeys Hattr]. split.
  - rewrite Hkeys. apply keys_dict_set. congruence.
  - intros k' a'. rewrite Hattr, (cs_attr_set cs k a v c k' a' Hc). simpl.
    destruct (String.eqb k' k); simpl; [|reflexivity].
    destruct (String.eqb a' a) eqn:Ha.
    + apply String.eqb_eq in Ha. subst a'. now rewrite Hfresh.
    + reflexivity.
Qed.

Lemma set_country_set_twice (a b : dict (@Country F)) (self : @OneSectorGE F) :
  set_country_set a (set_country_set b self) = set_country_set a self.
Proof. reflexivity. Qed.

Lemma set_country_set_same (self : @OneSectorGE F) :
  set_country_set (country_set self) self = self.
Proof. now destruct self. Qed.

(** The outcome of a loop body that stores the attributes [assigns] in
    country [k] and does nothing else, on the models whose countries
    satisfy [Inv]. *)
Definition stores_under (Inv : dict (@Country F) -> Prop)
    (body : M (@OneSectorGE F) unit) (k : string)
    (assigns : list (string * @pyval F)) : Prop :=
  forall self, Inv (country_set self) -> In k (keys (country_set self)) ->
    exists cs', body self = (Ok tt, set_country_set cs' self, [])
                /\ updates (country_set self) cs' k assigns.

Definition stores (body : M (@OneSectorGE F) unit) (k : string)
    (assigns : list (string * @pyval F)) : Prop :=
  stores_under (fun _ => True) body k assigns.

Lemma In_keys_get (cs : dict (@Country F)) (k : string) :
  In k (keys cs) -> exists c, dict_get cs k = Some c.
Proof.
  intros H. apply dict_get_In_keys in H.
  destruct (dict_get cs k) as [c|]; [now exists c|congruence].
Qed.

(** [for a in assigns: country k .a = v] *)
Lemma stores_sequence (k : string) (assigns : list (string * @pyval F)) :
  NoDup (map fst assigns) ->
  stores (for_each assigns (fun a => set_country_attr k (fst a) (snd a)))
         k assigns.
Proof.
  induction assigns as [|[a v] assigns IH]; intros Hnd self _ Hin.
  - exists (country_set self). simpl. unfold ret.
    rewrite set_country_set_same. split; [reflexivity|apply updates_nil].
  - destruct (In_keys_get _ _ Hin) as [c Hc].
    inversion Hnd as [|? ? Hnotin Hnd']; subst.
    simpl. unfold bind.
    rewrite (set_country_attr_run self k a v c Hc).
    set (self1 := set_country_set _ self).
    assert (Hin1 : In k (keys (country_set self1))).
    { unfold self1. simpl. rewrite keys_dict_set by congruence. exact Hin. }
    destruct (IH Hnd' self1 I Hin1) as [cs' [Hrun Hup]].
    rewrite Hrun. exists cs'. split; [reflexivity|].
    apply (updates_cons _ _ _ _ _ c); try assumption.
    clear -Hnotin. induction assigns as [|[a0 v0] l IH]; simpl in *.
    + reflexivity.
    + destruct (String.eqb a a0) eqn:Ha.
      * apply String.eqb_eq in Ha. subst. tauto.
      * apply IH. tauto.
Qed.

(** The countries after a loop that stores [assign x] in country [key x]
    for every row [x], when every such store keeps [Inv]. *)
Lemma for_each_stores_under {X} (Inv : dict (@Country F) -> Prop)
    (key : X -> string) (assign : X -> list (string * @pyval F))
    (body : X -> M (@OneSectorGE F) unit)
    (rows : list X) (self : @OneSectorGE F) :
  (forall x, In x rows -> stores_under Inv (body x) (key x) (assign x)) ->
  (forall x cs cs', In x rows -> Inv cs -> updates cs cs' (key x) (assign x) ->
     Inv cs') ->
  Inv (country_set self) ->
  NoDup (map key rows) ->
  (forall x, In x rows -> In (key x) (keys (country_set self))) ->
  exists cs',
    for_each rows body self = (Ok tt, set_country_set cs' self, [])
    /\ keys cs' = keys (country_set self)
    /\ (forall x a v, In x rows -> dict_get (assign x) a = Some v ->
          cs_attr cs' (key x) a = Some v)
    /\ (forall k a, (forall x, In x rows -> key x = k -> dict_get (assign x) a = None) ->
          cs_attr cs' k a = cs_attr (country_set self) k a).
Proof.
  revert self. induction rows as [|x rows IH]; intros self Hbody Hinv Hi Hnd Hin.
  - exists (country_set self). simpl. unfold ret.
    rewrite set_country_set_same. repeat split; intros; tauto.
  - inversion Hnd as [|? ? Hnotin Hnd']; subst.
    destruct (Hbody x (or_introl eq_refl) self Hi (Hin x (or_introl eq_refl)))
      as [cs1 [Hrun1 Hup1]].
    pose proof Hup1 as [Hkeys1 Hattr1].
    simpl. unfold bind. rewrite Hrun1.
    set (self1 := set_country_set cs1 self).
    destruct (IH self1) as [cs' [Hrun [Hkeys [Hset Hkeep]]]].
    + intros y Hy. apply Hbody. now right.
    + intros y cs cs'' Hy. apply Hinv. now right.
    + unfold self1. simpl. apply (Hinv x (country_set self)); auto. now left.
    + exact Hnd'.
    + intros y Hy. unfold self1. simpl. rewrite Hkeys1. apply Hin. now right.
    + rewrite Hrun. exists cs'. split; [reflexivity|]. split; [|split].
      * rewrite Hkeys. unfold self1. simpl. exact Hkeys1.
      * intros y a v [Hy|Hy] Hv.
        -- subst y. rewrite Hkeep.
           ++ unfold self1. simpl. rewrite Hattr1, String.eqb_refl, Hv.
              reflexivity.
           ++ intros z Hz Hkz. exfalso. apply Hnotin.
              rewrite <- Hkz. now apply in_map.
        -- now apply Hset.
      * intros k a Hnone. rewrite Hkeep.
        -- unfold self1. simpl. rewrite Hattr1.
           destruct (String.eqb k (key x)) eqn:Hk; [|reflexivity].
           apply String.eqb_eq in Hk.
           rewrite (Hnone x (or_introl eq_refl) (eq_sym Hk)). reflexivity.
        -- intros z Hz Hkz. apply Hnone; [now right|exact Hkz].
Qed.

Lemma for_each_stores {X} (key : X -> string)
    (assign : X -> list (string * @pyval F)) (body : X -> M (@OneSectorGE F) unit)
    (rows : list X) (self : @OneSectorGE F) :
  (forall x, In x rows -> stores (body x) (key x) (assign x)) ->
  NoDup (map key rows) ->
  (forall x, In x rows -> In (key x) (keys (country_set self))) ->
  exists cs',
    for_each rows body self = (Ok tt, set_country_set cs' self, [])
    /\ keys cs' = keys (country_set self)
    /\ (forall x a v, In x rows -> dict_get (assign x) a = Some v ->
          cs_attr cs' (key x) a = Some v)
    /\ (forall k a, (forall x, In x rows -> key x = k -> dict_get (assign x) a = None) ->
          cs_attr cs' k a = cs_attr (country_set self) k a).
Proof.
  intros Hbody Hnd Hin.
  apply (for_each_stores_under (fun _ => True)); auto.
Qed.

End Countries.

(** ** Running methods *)

Section Running.

Context {S : Type}.

(** The outcome of a continuation after a step that logged [log]. *)
Definition after {A} (log : list event) (o : result A * S * list event)
    : result A * S * list event :=
  match o with
  | (r, s, log') => (r, s, log ++ log')
  end.

Lemma bind_run {A B} (c : M S A) (k : A -> M S B) (s s1 : S) (a : A)
    (log : list event) :
  c s = (Ok a, s1, log) -> bind c k s = after log (k a s1).
Proof. intros H. unfold bind, after. now rewrite H. Qed.

Lemma lift_run {A} (r : result A) (a : A) (s : S) :
  r = Ok a -> lift r s = (Ok a, s, []).
Proof. intros ->. reflexivity. Qed.

Lemma modify_run (f : S -> S) (s : S) : modify f s = (Ok tt, f s, []).
Proof. reflexivity. Qed.

Lemma bind_lift_ok {A B} (a : A) (k : A -> M S B) (s : S) :
  bind (lift (Ok a)) k s = k a s.
Proof. unfold bind, lift. now destruct (k a s) as [[r s'] l]. Qed.

Lemma bind_ret_tt (c : M S unit) (s : S) :
  bind c (fun _ => ret tt) s = c s.
Proof.
  unfold bind, ret. destruct (c s) as [[[[]|e] s'] l]; [|reflexivity].
  now rewrite app_nil_r.
Qed.

Lemma bind_ext {A B} (c : M S A) (k k' : A -> M S B) (s : S) :
  (forall a s', k a s' = k' a s') -> bind c k s = bind c k' s.
Proof.
  intros H. unfold bind. destruct (c s) as [[[a|e] s1] l]; [|reflexivity].
  now rewrite H.
Qed.

Lemma after_nil {A} (o : result A * S * list event) : after [] o = o.
Proof. now destruct o as [[r s] l]. Qed.

Lemma after_after {A} (l1 l2 : list event) (o : result A * S * list event) :
  after l1 (after l2 o) = after (l1 ++ l2) o.
Proof. destruct o as [[r s] l]. simpl. now rewrite app_assoc. Qed.

Lemma bind_raise {A B} (c : M S A) (k : A -> M S B) (s s1 : S) (e : exn)
    (log : list event) :
  c s = (Raise e, s1, log) -> bind c k s = (Raise e, s1, log).
Proof. intros H. unfold bind. now rewrite H. Qed.

(** A computation that never changes the object. *)
Definition readonly {A} (c : M S A) : Prop :=
  forall s, snd (fst (c s)) = s.

Lemma readonly_run {A} (c : M S A) (s : S) (a : A) :
  readonly c -> fst (fst (c s)) = Ok a -> c s = (Ok a, s, snd (c s)).
Proof.
  intros Hr Ha. specialize (Hr s).
  destruct (c s) as [[r s'] log]. simpl in *. now subst.
Qed.

Lemma readonly_ret {A} (a : A) : readonly (@ret S A a).
Proof. intros s. reflexivity. Qed.

Lemma readonly_raise {A} (e : exn) : readonly (@raise S A e).
Proof. intros s. reflexivity. Qed.

Lemma readonly_get : readonly (@get S).
Proof. intros s. reflexivity. Qed.

Lemma readonly_emit (e : event) : readonly (@emit S e).
Proof. intros s. reflexivity. Qed.

Lemma readonly_warn (msg : string) : readonly (@warn S msg).
Proof. intros s. reflexivity. Qed.

Lemma readonly_lift {A} (r : result A) : readonly (@lift S A r).
Proof. intros s. reflexivity. Qed.

Lemma readonly_bind {A B} (c : M S A) (k : A -> M S B) :
  readonly c -> (forall a, readonly (k a)) -> readonly (bind c k).
Proof.
  intros Hc Hk s. unfold bind. specialize (Hc s).
  destruct (c s) as [[[a|e] s1] log]; simpl in *; subst; [|reflexivity].
  specialize (Hk a s). now destruct (k a s) as [[r s2] log'].
Qed.

Lemma readonly_when (b : bool) (c : M S unit) :
  readonly c -> readonly (when b c).
Proof. intros H. destruct b; [exact H|apply readonly_ret]. Qed.

Lemma readonly_for_list {A B} (l : list A) (body : A -> M S B) :
  (forall a, readonly (body a)) -> readonly (for_list l body).
Proof.
  intros H. induction l as [|a l IH]; simpl.
  - apply readonly_ret.
  - apply readonly_bind; [apply H|]. intros b.
    apply readonly_bind; [exact IH|]. intros bs. apply readonly_ret.
Qed.

(** A loop whose body only reads. *)
Lemma for_list_reads {A B} (l : list A) (body : A -> M S B) (g : A -> B)
    (s : S) :
  (forall a, In a l -> body a s = (Ok (g a), s, [])) ->
  for_list l body s = (Ok (map g l), s, []).
Proof.
  induction l as [|a l IH]; intros H; simpl.
  - reflexivity.
  - rewrite (bind_run _ _ _ _ _ _ (H a (or_introl eq_refl))).
    rewrite (bind_run _ _ _ _ _ _ (IH (fun b Hb => H b (or_intror Hb)))).
    reflexivity.
Qed.

End Running.

Create HintDb readonly.

#[export] Hint Resolve readonly_ret readonly_raise readonly_get readonly_emit
  readonly_warn readonly_lift readonly_when readonly_for_list : readonly.

Ltac readonly_step :=
  first [ apply readonly_bind; [|intros ?]
        | apply readonly_for_list; intros ?
        | apply readonly_when
        | solve [auto with readonly]
        | match goal with
          | |- readonly (match ?x with _ => _ end) => destruct x
          | |- readonly (if ?b then _ else _) => destruct b
          end ].

Section ReadOnlyMethods.

Context {F : Type} {AF : Arith F}.

Lemma readonly_country_attr (k a : string) :
  readonly (@country_attr F k a).
Proof. intros s. reflexivity. Qed.

Lemma readonly_country (k : string) : readonly (@country F k).
Proof. intros s. reflexivity. Qed.

Lemma readonly_country_float (k a : string) :
  readonly (@country_float F k a).
Proof.
  unfold country_float. apply readonly_bind.
  - apply readonly_country_attr.
  - intros v. apply readonly_lift.
Qed.

Lemma readonly_create_cost_output_expend_params
    (trade_costs : option (list (@CostRow F))) :
  readonly (_create_cost_output_expend_params trade_costs).
Proof.
  unfold _create_cost_output_expend_params.
  destruct trade_costs as [cost_params|]; [|apply readonly_raise].
  repeat first [ apply readonly_country_float | readonly_step ].
Qed.

Lemma readonly_mr_problem (trade_costs : option (list (@CostRow F))) :
  readonly (mr_problem trade_costs).
Proof.
  unfold mr_problem.
  repeat first [ apply readonly_create_cost_output_expend_params
               | readonly_step ].
Qed.

Lemma readonly_full_ge_problem : readonly (@full_ge_problem F AF).
Proof.
  unfold full_ge_problem.
  repeat first [ apply readonly_create_cost_output_expend_params
               | apply readonly_country_attr
               | readonly_step ].
Qed.

End ReadOnlyMethods.

Local Open Scope string_scope.
Local Open Scope list_scope.

(** ** Sorted country lists *)

Lemma sorted_Permutation (l : list string) : Permutation l (sorted l).
Proof. apply StringSort.Permuted_sort. Qed.

Lemma sorted_length (l : list string) : length (sorted l) = length l.
Proof. symmetry. apply Permutation_length, sorted_Permutation. Qed.

Lemma sorted_NoDup (l : list string) : NoDup l -> NoDup (sorted l).
Proof. apply Permutation_NoDup, sorted_Permutation. Qed.

Lemma sorted_In (l : list string) (k : string) : In k (sorted l) -> In k l.
Proof.
  apply Permutation_in, Permutation_sym, sorted_Permutation.
Qed.

Lemma map_fst_combine {A B} (l : list A) (l' : list B) :
  length l = length l' -> map fst (combine l l') = l.
Proof.
  revert l'. induction l as [|a l IH]; intros [|b l'] H; simpl in *;
    try congruence.
  f_equal. apply IH. congruence.
Qed.

Lemma map_snd_combine {A B} (l : list A) (l' : list B) :
  length l = length l' -> map snd (combine l l') = l'.
Proof.
  revert l'. induction l as [|a l IH]; intros [|b l'] H; simpl in *;
    try congruence.
  f_equal. apply IH. congruence.
Qed.

Lemma In_combine_nth {A B} (l : list A) (l' : list B) (i : nat) (da : A) (db : B) :
  length l = length l' -> i < length l ->
  In (nth i l da, nth i l' db) (combine l l').
Proof.
  intros Hl Hi.
  rewrite <- (combine_nth l l' i da db Hl).
  apply nth_In. rewrite length_combine. lia.
Qed.

Section MRSolve.

Context {F : Type} {AF : Arith F}.

Variable root :
  (list F -> result (list F)) -> list F -> @pyval F -> @pyval F -> option Z ->
  result (@OptimizeResult F).

Lemma mr_problem_fields (trade_costs : option (list (@CostRow F)))
    (self : @OneSectorGE F) (p : @MRParams F) (x0 : list F) :
  fst (fst (mr_problem trade_costs self)) = Ok (p, x0) ->
  mr_number_of_countries p = length (keys (country_set self))
  /\ mr_imr_rescale p = _imr_rescale self
  /\ mr_omr_rescale p = _omr_rescale self
  /\ x0 = mr_initial_values (length (keys (country_set self))).
Proof.
  unfold mr_problem, bind, get, ret.
  destruct (_create_cost_output_expend_params trade_costs self)
    as [[[b|e] s1] l]; simpl; intros H; [|discriminate].
  inversion H; subst. simpl. auto.
Qed.

Lemma report_not_converged (solved : @OptimizeResult F) (self : @OneSectorGE F) :
  opt_message solved <> converged_message ->
  report solved self = (Ok tt, self, [Warn (opt_message solved)]).
Proof.
  intros H. unfold report, bind, get.
  apply String.eqb_neq in H. rewrite H. reflexivity.
Qed.

Lemma unpack_mrs_floats (N : nat) (x : list F) (r_imr r_omr : F) :
  1 <= N -> length x = 2 * N - 1 ->
  unpack_mrs N x (PyFloat r_imr) (PyFloat r_omr)
  = Ok (map (IMR N r_imr x) (seq 0 N), map (OMR N r_omr x) (seq 0 N)).
Proof.
  intros HN Hx. unfold unpack_mrs. rewrite !scale_float. simpl.
  rewrite (firstn_table (N - 1)) by lia.
  rewrite (skipn_table (N - 1) N) by lia.
  rewrite !map_map. rewrite imr_table by exact HN. reflexivity.
Qed.

(** The two assignments of a row of [mrs]. *)
Lemma stores_two (k a1 a2 : string) (v1 v2 : @pyval F) :
  a1 <> a2 ->
  stores (bind (set_country_attr k a1 v1)
               (fun _ => set_country_attr k a2 v2))
         k [(a1, v1); (a2, v2)].
Proof.
  intros Hne self _ Hin.
  destruct (stores_sequence k [(a1, v1); (a2, v2)]) with (self := self)
    as [cs' [Hrun Hup]].
  - constructor; [simpl; intuition congruence|].
    constructor; [simpl; tauto|constructor].
  - exact I.
  - exact Hin.
  - exists cs'. split; [|exact Hup].
    rewrite <- Hrun. simpl. unfold bind, ret.
    destruct (set_country_attr k a1 v1 self) as [[[[]|e] s1] l1]; [|reflexivity].
    destruct (set_country_attr k a2 v2 s1) as [[[[]|e] s2] l2];
      now rewrite ?app_nil_r.
Qed.

(** The solve of the multilateral resistances when the root finder has not
    converged. *)
Lemma mr_solve_not_converged
    (self : @OneSectorGE F) (trade_costs : option (list (@CostRow F)))
    (version : string) (p : @MRParams F) (x0 : list F)
    (solved : @OptimizeResult F) (r_imr r_omr : F) :
  let country_list := sorted (keys (country_set self)) in
  let N := length (keys (country_set self)) in
  version = "baseline" \/ version = "conditional" ->
  1 <= N ->
  NoDup (keys (country_set self)) ->
  _imr_rescale self = PyFloat r_imr ->
  _omr_rescale self = PyFloat r_omr ->
  fst (fst (mr_problem trade_costs self)) = Ok (p, x0) ->
  root (fun x => _multilateral_resistances x p) x0
       (_mr_method self) (_mr_tolerance self) (_mr_max_iter self)
  = Ok solved ->
  opt_message solved <> converged_message ->
  length (opt_x solved) = 2 * N - 1 ->
  exists self' log,
    _calculate_multilateral_resistance root trade_costs version false false self
    = (Ok None, self', log)
    /\ In (Warn (opt_message solved)) log
    /\ dict_get (solver_diagnostics self') (version ++ "_MRs")%string
       = Some solved
    /\ forall i, i < N ->
         stored self' (nth i country_list "") (version ++ "_imr")%string
         = Some (PyFloat (IMR N r_imr (opt_x solved) i))
         /\ stored self' (nth i country_list "") (version ++ "_omr")%string
            = Some (PyFloat (OMR N r_omr (opt_x solved) i)).
Proof.
  intros country_list N Hversion HN Hnodup Himr Homr Hproblem Hroot Hmsg Hx.
  destruct (mr_problem_fields _ _ _ _ Hproblem) as [HpN [Hpi [Hpo Hx0]]].
  pose proof (readonly_run _ self _ (readonly_mr_problem trade_costs) Hproblem)
    as Hrun.
  set (log0 := snd (mr_problem trade_costs self)) in Hrun.
  set (key := (version ++ "_MRs")%string).
  set (self1 := set_solver_diagnostics
                  (dict_set (solver_diagnostics self) key solved) self).
  set (imrs := map (IMR N r_imr (opt_x solved)) (seq 0 N)).
  set (omrs := map (OMR N r_omr (opt_x solved)) (seq 0 N)).
  set (mrs := combine country_list (combine imrs omrs)).
  assert (Hlen : length (sorted (keys (country_set self))) = N)
    by apply sorted_length.
  assert (Hlen' : length country_list = N) by exact Hlen.
  assert (Himrs : length imrs = N) by (unfold imrs; now rewrite length_map, length_seq).
  assert (Homrs : length omrs = N) by (unfold omrs; now rewrite length_map, length_seq).
  (* the loop that stores the rows of [mrs] *)
  assert (Hloop : forall a1 a2, a1 <> a2 ->
            exists cs',
              for_each mrs (fun row =>
                bind (set_country_attr (fst row) a1 (PyFloat (fst (snd row))))
                     (fun _ => set_country_attr (fst row) a2
                                 (PyFloat (snd (snd row))))) self1
              = (Ok tt, set_country_set cs' self1, [])
              /\ forall i, i < N ->
                   cs_attr cs' (nth i country_list "") a1
                   = Some (PyFloat (IMR N r_imr (opt_x solved) i))
                   /\ cs_attr cs' (nth i country_list "") a2
                      = Some (PyFloat (OMR N r_omr (opt_x solved) i))).
  { intros a1 a2 Hne.
    destruct (for_each_stores fst
                (fun row : string * (F * F) =>
                   [(a1, PyFloat (fst (snd row))); (a2, PyFloat (snd (snd row)))])
                (fun row =>
                   bind (set_country_attr (fst row) a1 (PyFloat (fst (snd row))))
                        (fun _ => set_country_attr (fst row) a2
                                    (PyFloat (snd (snd row)))))
                mrs self1)
      as [cs' [Hloop [_ [Hset _]]]].
    - intros row _. now apply stores_two.
    - unfold mrs. rewrite map_fst_combine.
      + now apply sorted_NoDup.
      + rewrite length_combine. lia.
    - intros row Hrow. simpl. apply sorted_In.
      apply (in_map fst) in Hrow. unfold mrs in Hrow.
      rewrite map_fst_combine in Hrow; [exact Hrow|].
      rewrite length_combine. lia.
    - exists cs'. split; [exact Hloop|]. intros i Hi.
      assert (Hin : In (nth i country_list "",
                        (IMR N r_imr (opt_x solved) i,
                         OMR N r_omr (opt_x solved) i)) mrs).
      { unfold mrs.
        replace (IMR N r_imr (opt_x solved) i, OMR N r_omr (opt_x solved) i)
          with (nth i (combine imrs omrs) (1%fl, 1%fl)).
        - apply In_combine_nth; [rewrite length_combine|]; lia.
        - rewrite combine_nth by lia. unfold imrs, omrs.
          rewrite (nth_indep _ 1%fl (IMR N r_imr (opt_x solved) 0))
            by (rewrite length_map, length_seq; lia).
          rewrite (nth_indep (map (OMR _ _ _) _) 1%fl (OMR N r_omr (opt_x solved) 0))
            by (rewrite length_map, length_seq; lia).
          rewrite !map_nth, !seq_nth by lia. reflexivity. }
      split.
      + apply (Hset _ a1 _ Hin). simpl. now rewrite String.eqb_refl.
      + apply (Hset _ a2 _ Hin). simpl.
        apply String.eqb_neq in Hne. rewrite String.eqb_sym, Hne.
        now rewrite String.eqb_refl. }
  (* running the method *)
  unfold _calculate_multilateral_resistance.
  rewrite (bind_run _ _ self self self [] eq_refl).
  rewrite (bind_run _ _ _ _ _ _ Hrun). cbv beta iota zeta. simpl fst. simpl snd.
  assert (Hprint : exists l1,
            when (negb (quiet self))
                 (emit (Print ("Solving for " ++ version ++ " MRs...")%string)) self
            = (Ok tt, self, l1)).
  { destruct (quiet self); simpl; eexists; reflexivity. }
  destruct Hprint as [l1 Hprint].
  rewrite (bind_run _ _ _ _ _ _ Hprint).
  rewrite (bind_run _ _ _ _ _ _ (lift_run _ _ self Hroot)).
  rewrite (bind_run _ _ _ _ _ _ (report_not_converged solved self Hmsg)).
  rewrite (bind_run _ _ _ _ _ _ (modify_run _ self)).
  cbv beta. fold key. fold self1.
  rewrite Hpi, Hpo, Himr, Homr, Hlen.
  rewrite (bind_run _ _ _ _ _ _
             (lift_run _ _ self1
                (unpack_mrs_floats N (opt_x solved) r_imr r_omr HN Hx))).
  simpl fst. simpl snd. fold imrs omrs.
  assert (Hframe : mrs_frame (sorted (keys (country_set self))) imrs omrs = Ok mrs).
  { unfold mrs_frame. fold country_list.
    rewrite Himrs, Homrs, Hlen', Nat.eqb_refl. reflexivity. }
  rewrite (bind_run _ _ _ _ _ _ (lift_run _ _ self1 Hframe)).
  destruct Hversion as [-> | ->].
  - destruct (Hloop "baseline_imr" "baseline_omr") as [cs' [Hl Hattrs]];
      [discriminate|].
    change (String.eqb "baseline" "baseline") with true.
    change (String.eqb "baseline" "conditional") with false.
    unfold when at 1.
    rewrite (bind_run _ _ _ _ _ _ Hl).
    unfold when at 1. rewrite (bind_run (ret tt) _ _ _ tt [] eq_refl).
    unfold ret, after. simpl.
    eexists. eexists. split; [reflexivity|]. split.
    + apply in_or_app. right. apply in_or_app. right. now left.
    + split.
      * unfold self1, key.
        cbn [solver_diagnostics set_country_set set_solver_diagnostics].
        rewrite dict_get_set, String.eqb_refl. reflexivity.
      * exact Hattrs.
  - destruct (Hloop "conditional_imr" "conditional_omr") as [cs' [Hl Hattrs]];
      [discriminate|].
    change (String.eqb "conditional" "baseline") with false.
    change (String.eqb "conditional" "conditional") with true.
    unfold when at 1. rewrite (bind_run (ret tt) _ _ _ tt [] eq_refl).
    unfold when at 1.
    rewrite (bind_run _ _ _ _ _ _ Hl).
    unfold ret, after. simpl.
    eexists. eexists. split; [reflexivity|]. split.
    + apply in_or_app. right. apply in_or_app. right. now left.
    + split.
      * unfold self1, key.
        cbn [solver_diagnostics set_country_set set_solver_diagnostics].
        rewrite dict_get_set, String.eqb_refl. reflexivity.
      * exact Hattrs.
Qed.

End MRSolve.

Section GESolve.

Context {F : Type} {AF : Arith F}.

Variable root :
  (list F -> result (list F)) -> list F -> @pyval F -> @pyval F -> option Z ->
  result (@OptimizeResult F).

Lemma full_ge_problem_fields (self : @OneSectorGE F) (p : @GEParams F)
    (x0 : list F) :
  fst (fst (full_ge_problem self)) = Ok (p, x0) ->
  ge_number_of_countries p = length (sorted (keys (country_set self)))
  /\ ge_imr_rescale p = _imr_rescale self
  /\ ge_omr_rescale p = _omr_rescale self
  /\ ge_sigma p = sigma self.
Proof.
  unfold full_ge_problem, bind, get, ret, lift.
  destruct (_create_cost_output_expend_params _ self)
    as [[[b|e] s1] l]; simpl; [|discriminate].
  destruct (for_list _ _ s1) as [[[inputs|e] s2] l2]; simpl; [|discriminate].
  destruct (ge_initial_values _ _ _ _ _) as [x|e]; simpl; [|discriminate].
  intros H. inversion H; subst. simpl. auto.
Qed.

Lemma unpack_ge_floats (N : nat) (x : list F) (r_imr r_omr : F) :
  1 <= N -> length x = 3 * N - 1 ->
  unpack_ge N x (PyFloat r_imr) (PyFloat r_omr)
  = Ok (map (IMR N r_imr x) (seq 0 N), map (OMR N r_omr x) (seq 0 N),
        map (price N x) (seq 0 N)).
Proof.
  intros HN Hx. unfold unpack_ge.
  rewrite scale_float. cbn [rbind]. rewrite scale_float. cbn [rbind].
  rewrite (firstn_table (N - 1)) by lia.
  rewrite (firstn_skipn_table (N - 1) N) by lia.
  rewrite (skipn_table (2 * N - 1) N) by lia.
  rewrite !map_map. rewrite imr_table by exact HN.
  reflexivity.
Qed.

(** The attributes the last loop of [_calculate_full_ge] assigns. *)
Definition experiment_attributes (imr omr price : F)
    : list (string * @pyval F) :=
  [ ("experiment_imr", PyFloat imr);
    ("experiment_omr", PyFloat omr);
    ("experiment_factory_price", PyFloat price);
    ("factory_price_change", PyFloat (100 * (price - 1))%fl) ].

Lemma stores_experiment (imrs omrs prices : list F) (i : nat) (k : string) :
  i < length imrs -> i < length omrs -> i < length prices ->
  stores
    (imr <- lift (getitem imrs i) ;;
     set_country_attr k "experiment_imr" (PyFloat imr) ;;
     omr <- lift (getitem omrs i) ;;
     set_country_attr k "experiment_omr" (PyFloat omr) ;;
     price <- lift (getitem prices i) ;;
     set_country_attr k "experiment_factory_price" (PyFloat price) ;;
     set_country_attr k "factory_price_change"
       (PyFloat (100 * (price - 1))%fl))%M
    k (experiment_attributes (nth i imrs nan) (nth i omrs nan)
                             (nth i prices nan)).
Proof.
  intros Hi Ho Hp self _ Hin.
  destruct (stores_sequence k (experiment_attributes (nth i imrs nan)
                                 (nth i omrs nan) (nth i prices nan)))
    with (self := self) as [cs' [Hrun Hup]].
  - repeat constructor; simpl; intuition discriminate.
  - exact I.
  - exact Hin.
  - exists cs'. split; [|exact Hup]. rewrite <- Hrun.
    rewrite (getitem_nth imrs i nan Hi), (getitem_nth omrs i nan Ho),
      (getitem_nth prices i nan Hp).
    simpl. rewrite bind_lift_ok.
    apply bind_ext. intros _ s1. rewrite bind_lift_ok.
    apply bind_ext. intros _ s2. rewrite bind_lift_ok.
    apply bind_ext. intros _ s3. symmetry. apply bind_ret_tt.
Qed.

(** The full GE solve when the root finder has not converged. *)
Lemma ge_solve_not_converged
    (self : @OneSectorGE F) (p : @GEParams F) (x0 : list F)
    (solved : @OptimizeResult F) (r_imr r_omr : F) :
  let country_list := sorted (keys (country_set self)) in
  let N := length (keys (country_set self)) in
  1 <= N ->
  NoDup (keys (country_set self)) ->
  _imr_rescale self = PyFloat r_imr ->
  _omr_rescale self = PyFloat r_omr ->
  fst (fst (full_ge_problem self)) = Ok (p, x0) ->
  root (fun x => _full_ge x p) x0
       (_ge_method self) (_ge_tolerance self) (_ge_max_iter self)
  = Ok solved ->
  opt_message solved <> converged_message ->
  length (opt_x solved) = 3 * N - 1 ->
  exists self' log,
    _calculate_full_ge root self = (Ok tt, self', log)
    /\ In (Warn (opt_message solved)) log
    /\ dict_get (solver_diagnostics self') "full_GE" = Some solved
    /\ forall i, i < N ->
         let c := nth i country_list "" in
         let x := opt_x solved in
         stored self' c "experiment_imr" = Some (PyFloat (IMR N r_imr x i))
         /\ stored self' c "experiment_omr" = Some (PyFloat (OMR N r_omr x i))
         /\ stored self' c "experiment_factory_price"
            = Some (PyFloat (price N x i))
         /\ stored self' c "factory_price_change"
            = Some (PyFloat (100 * (price N x i - 1))%fl).
Proof.
  intros country_list N HN Hnodup Himr Homr Hproblem Hroot Hmsg Hx.
  destruct (full_ge_problem_fields _ _ _ Hproblem) as [HpN [Hpi [Hpo _]]].
  pose proof (readonly_run _ self _ readonly_full_ge_problem Hproblem) as Hrun.
  set (log0 := snd (full_ge_problem self)) in Hrun.
  set (self1 := set_solver_diagnostics
                  (dict_set (solver_diagnostics self) "full_GE" solved) self).
  set (x := opt_x solved).
  set (imrs := map (IMR N r_imr x) (seq 0 N)).
  set (omrs := map (OMR N r_omr x) (seq 0 N)).
  set (prices := map (price N x) (seq 0 N)).
  set (self2 := set_factory_gate_prices (Some (combine country_list prices)) self1).
  assert (Hlen : length (sorted (keys (country_set self))) = N)
    by apply sorted_length.
  assert (Hlen' : length country_list = N) by exact Hlen.
  assert (Himrs : length imrs = N) by (unfold imrs; now rewrite length_map, length_seq).
  assert (Homrs : length omrs = N) by (unfold omrs; now rewrite length_map, length_seq).
  assert (Hprices : length prices = N) by (unfold prices; now rewrite length_map, length_seq).
  set (body := fun ic : nat * string =>
     (imr <- lift (getitem imrs (fst ic)) ;;
      set_country_attr (snd ic) "experiment_imr" (PyFloat imr) ;;
      omr <- lift (getitem omrs (fst ic)) ;;
      set_country_attr (snd ic) "experiment_omr" (PyFloat omr) ;;
      price <- lift (getitem prices (fst ic)) ;;
      set_country_attr (snd ic) "experiment_factory_price" (PyFloat price) ;;
      set_country_attr (snd ic) "factory_price_change"
        (PyFloat (100 * (price - 1))%fl))%M).
  assert (Hloop : exists cs',
            for_each (combine (seq 0 N) country_list) body self2
            = (Ok tt, set_country_set cs' self2, [])
            /\ forall i, i < N ->
                 forall a v,
                   dict_get (experiment_attributes (nth i imrs nan)
                               (nth i omrs nan) (nth i prices nan)) a = Some v ->
                   cs_attr cs' (nth i country_list "") a = Some v).
  { destruct (for_each_stores snd
                (fun ic : nat * string =>
                   experiment_attributes (nth (fst ic) imrs nan)
                     (nth (fst ic) omrs nan) (nth (fst ic) prices nan))
                body (combine (seq 0 N) country_list) self2)
      as [cs' [Hloop [_ [Hset _]]]].
    - intros [i c] Hic. apply in_combine_l in Hic. apply in_seq in Hic.
      apply stores_experiment; simpl; lia.
    - rewrite map_snd_combine by (rewrite length_seq; lia).
      now apply sorted_NoDup.
    - intros [i c] Hic. apply in_combine_r in Hic. simpl.
      now apply sorted_In.
    - exists cs'. split; [exact Hloop|]. intros i Hi a v Hv.
      apply (Hset (i, nth i country_list "") a v); [|exact Hv].
      replace (i, nth i country_list "")
        with (nth i (combine (seq 0 N) country_list) (0, "")).
      + apply nth_In. rewrite length_combine, length_seq. lia.
      + rewrite combine_nth by (rewrite length_seq; lia).
        now rewrite seq_nth by lia. }
  destruct Hloop as [cs' [Hloop Hattrs]].
  unfold _calculate_full_ge.
  rewrite (bind_run _ _ self self self [] eq_refl).
  rewrite (bind_run _ _ _ _ _ _ Hrun). cbv beta iota zeta. simpl fst. simpl snd.
  assert (Hprint : exists l1,
            when (negb (quiet self)) (emit (Print "Solving full GE model...")) self
            = (Ok tt, self, l1)).
  { destruct (quiet self); simpl; eexists; reflexivity. }
  destruct Hprint as [l1 Hprint].
  rewrite (bind_run _ _ _ _ _ _ Hprint).
  rewrite (bind_run _ _ _ _ _ _ (lift_run _ _ self Hroot)).
  rewrite (bind_run _ _ _ _ _ _ (report_not_converged solved self Hmsg)).
  rewrite (bind_run _ _ _ _ _ _ (modify_run _ self)).
  cbv beta. fold self1.
  rewrite Hpi, Hpo, Himr, Homr, Hlen.
  rewrite (bind_run _ _ _ _ _ _
             (lift_run _ _ self1
                (unpack_ge_floats N (opt_x solved) r_imr r_omr HN Hx))).
  simpl fst. simpl snd. fold x. fold imrs omrs prices.
  assert (Hframe : price_frame (sorted (keys (country_set self))) prices
                   = Ok (combine country_list prices)).
  { unfold price_frame. fold country_list.
    rewrite Hprices, Hlen', Nat.eqb_refl. reflexivity. }
  rewrite (bind_run _ _ _ _ _ _ (lift_run _ _ self1 Hframe)).
  rewrite (bind_run _ _ _ _ _ _ (modify_run _ self1)).
  fold self2. fold country_list. fold body.
  rewrite Hloop. unfold after. simpl.
  eexists. eexists. split; [reflexivity|]. split.
  - apply in_or_app. right. apply in_or_app. right. now left.
  - split.
    + unfold self2, self1.
      cbn [solver_diagnostics set_country_set set_solver_diagnostics
           set_factory_gate_prices].
      rewrite dict_get_set, String.eqb_refl. reflexivity.
    + intros i Hi. cbv zeta. unfold stored.
      cbn [country_set set_country_set].
      assert (Hn : forall (f : nat -> F) d,
                nth i (map f (seq 0 N)) d = f i).
      { intros f d. rewrite (nth_indep _ d (f 0))
          by (rewrite length_map, length_seq; lia).
        now rewrite map_nth, seq_nth by lia. }
      specialize (Hattrs i Hi). unfold imrs, omrs, prices in Hattrs.
      rewrite !Hn in Hattrs.
      repeat split; apply Hattrs; reflexivity.
Qed.

End GESolve.

Section FullGE.

Context {F : Type} {AF : Arith F}.

(** The float stored in attribute [a] of country [k]. *)
Definition float_attr (self : @OneSectorGE F) (k a : string) : F :=
  match stored self k a with
  | Some (PyFloat v) => v
  | _ => nan
  end.

(** Attribute [a] of country [k] holds a float. *)
Definition is_float_attr (self : @OneSectorGE F) (k a : string) : Prop :=
  exists v, stored self k a = Some (PyFloat v).

Lemma is_float_attr_stored (self : @OneSectorGE F) (k a : string) :
  is_float_attr self k a ->
  stored self k a = Some (PyFloat (float_attr self k a)).
Proof. intros [v H]. unfold float_attr. now rewrite H. Qed.

(** The factory-gate parameter of every country is its baseline output
    share times its baseline OMR. *)
Lemma factory_gate_params (self : @OneSectorGE F) :
  NoDup (keys (country_set self)) ->
  (forall k, In k (keys (country_set self)) ->
     is_float_attr self k "baseline_output_share"
     /\ is_float_attr self k "baseline_omr") ->
  exists self',
    _calculate_baseline_factory_gate_params self = (Ok tt, self', [])
    /\ forall k, In k (keys (country_set self)) ->
         stored self' k "factory_gate_price_param"
         = Some (PyFloat (float_attr self k "baseline_output_share"
                          * float_attr self k "baseline_omr")%fl)
         /\ stored self' k "baseline_output_share"
            = stored self k "baseline_output_share"
         /\ stored self' k "baseline_omr" = stored self k "baseline_omr".
Proof.
  intros Hnodup Hfloats.
  set (Inv := fun cs : dict (@Country F) =>
                forall k a, a <> "factory_gate_price_param" ->
                  cs_attr cs k a = cs_attr (country_set self) k a).
  set (assign := fun k : string =>
         [("factory_gate_price_param",
           PyFloat (float_attr self k "baseline_output_share"
                    * float_attr self k "baseline_omr")%fl)]).
  destruct (for_each_stores_under Inv (fun k => k) assign
              (fun country =>
                 (s <- country_attr country "baseline_output_share" ;;
                  o <- country_attr country "baseline_omr" ;;
                  v <- lift (binop fmul s o) ;;
                  set_country_attr country "factory_gate_price_param" v)%M)
              (keys (country_set self)) self)
    as [cs' [Hloop [_ [Hset Hkeep]]]].
  - intros k Hk s Hinv Hin.
    destruct (Hfloats k Hk) as [Hs Ho].
    apply is_float_attr_stored in Hs, Ho.
    assert (Hs' : stored s k "baseline_output_share"
                  = Some (PyFloat (float_attr self k "baseline_output_share"))).
    { unfold stored. rewrite Hinv by discriminate. exact Hs. }
    assert (Ho' : stored s k "baseline_omr"
                  = Some (PyFloat (float_attr self k "baseline_omr"))).
    { unfold stored. rewrite Hinv by discriminate. exact Ho. }
    destruct (In_keys_get _ _ Hin) as [c Hc].
    rewrite (bind_run _ _ _ _ _ _ (country_attr_run s k _ _ Hs')).
    rewrite (bind_run _ _ _ _ _ _ (country_attr_run s k _ _ Ho')).
    rewrite binop_floats, bind_lift_ok.
    rewrite (set_country_attr_run s k _ _ c Hc). simpl.
    eexists. split; [reflexivity|].
    apply (updates_cons _ _ _ _ _ c); [exact Hc|reflexivity|apply updates_nil].
  - intros k cs cs1 _ Hinv [_ Hattr] k' a' Ha'.
    rewrite Hattr. simpl.
    apply String.eqb_neq in Ha'. rewrite Ha'.
    destruct (String.eqb k' k); now apply Hinv, String.eqb_neq.
  - intros k a _. reflexivity.
  - rewrite map_id. exact Hnodup.
  - intros k Hk. exact Hk.
  - unfold _calculate_baseline_factory_gate_params.
    rewrite (bind_run _ _ self self self [] eq_refl).
    rewrite Hloop. simpl. eexists. split; [reflexivity|].
    intros k Hk. unfold stored. simpl. split; [|split].
    + apply (Hset k); [exact Hk|reflexivity].
    + apply Hkeep. intros x _ _. reflexivity.
    + apply Hkeep. intros x _ _. reflexivity.
Qed.

(** The problem the full GE solve hands to the root finder. *)
Lemma full_ge_problem_spec (self : @OneSectorGE F) (built : @BuiltParams F)
    (r_imr r_omr : F) :
  let country_list := sorted (keys (country_set self)) in
  let N := length (keys (country_set self)) in
  let c := fun i => nth i country_list "" in
  1 <= N ->
  _imr_rescale self = PyFloat r_imr ->
  _omr_rescale self = PyFloat r_omr ->
  fst (fst (_create_cost_output_expend_params (experiment_trade_costs self) self))
  = Ok built ->
  (forall k, In k (keys (country_set self)) ->
     is_float_attr self k "conditional_imr"
     /\ is_float_attr self k "conditional_omr"
     /\ is_float_attr self k "baseline_output_share"
     /\ is_float_attr self k "factory_gate_price_param") ->
  exists output_shr factory_gate_param,
    fst (fst (full_ge_problem self))
    = Ok ({| ge_number_of_countries := N;
             ge_omr_rescale := PyFloat r_omr;
             ge_imr_rescale := PyFloat r_imr;
             ge_sigma := sigma self;
             ge_cost_exp_shr := built_cost_exp_shr built;
             ge_cost_out_shr := built_cost_out_shr built;
             ge_output_shr := output_shr;
             ge_factory_gate_param := factory_gate_param |},
          map (fun j => float_attr self (c j) "conditional_imr" / r_imr)%fl
              (seq 0 (N - 1))
          ++ map (fun i => float_attr self (c i) "conditional_omr" / r_omr)%fl
                 (seq 0 N)
          ++ repeat 1%fl N)
    /\ all_floats output_shr /\ length output_shr = N
    /\ all_floats factory_gate_param /\ length factory_gate_param = N
    /\ forall i, i < N ->
         float_at output_shr i = float_attr self (c i) "baseline_output_share"
         /\ float_at factory_gate_param i
            = float_attr self (c i) "factory_gate_price_param".
Proof.
  intros country_list N c HN Himr Homr Hbuilt Hfloats.
  pose proof (readonly_run _ self _
                (readonly_create_cost_output_expend_params _) Hbuilt) as Hrun.
  assert (Hlen : length country_list = N) by apply sorted_length.
  set (value := fun (a k : string) => @PyFloat F (float_attr self k a)).
  assert (Hreads :
    for_list country_list (fun c =>
      (imr <- country_attr c "conditional_imr" ;;
       omr <- country_attr c "conditional_omr" ;;
       shr <- country_attr c "baseline_output_share" ;;
       param <- country_attr c "factory_gate_price_param" ;;
       ret ((imr, omr), (shr, param)))%M) self
    = (Ok (map (fun k => ((value "conditional_imr" k, value "conditional_omr" k),
                          (value "baseline_output_share" k,
                           value "factory_gate_price_param" k)))
               country_list), self, [])).
  { apply for_list_reads. intros k Hk. apply sorted_In in Hk.
    destruct (Hfloats k Hk) as [H1 [H2 [H3 H4]]].
    apply is_float_attr_stored in H1, H2, H3, H4.
    rewrite (bind_run _ _ _ _ _ _ (country_attr_run self k _ _ H1)).
    rewrite (bind_run _ _ _ _ _ _ (country_attr_run self k _ _ H2)).
    rewrite (bind_run _ _ _ _ _ _ (country_attr_run self k _ _ H3)).
    rewrite (bind_run _ _ _ _ _ _ (country_attr_run self k _ _ H4)).
    reflexivity. }
  assert (Hall : forall a, all_floats (map (value a) country_list)).
  { intros a. unfold all_floats. rewrite Forall_forall. intros v Hv.
    apply in_map_iff in Hv. destruct Hv as [k [<- _]]. now eexists. }
  assert (Hat : forall a i, i < N ->
            float_at (map (value a) country_list) i = float_attr self (c i) a).
  { intros a i Hi. unfold float_at, c.
    rewrite (nth_indep _ PyNone (value a "")) by (rewrite length_map; lia).
    now rewrite (map_nth (value a)). }
  exists (map (value "baseline_output_share") country_list),
         (map (value "factory_gate_price_param") country_list).
  split; [|repeat split; try apply Hall; try (now rewrite length_map);
           now apply Hat].
  unfold full_ge_problem.
  rewrite (bind_run _ _ self self self [] eq_refl).
  rewrite (bind_run _ _ _ _ _ _ Hrun).
  fold country_list. rewrite (bind_run _ _ _ _ _ _ Hreads).
  rewrite !map_map. cbn [fst snd]. rewrite Himr, Homr, Hlen.
  fold (value "conditional_imr") (value "conditional_omr")
       (value "baseline_output_share") (value "factory_gate_price_param").
  rewrite (bind_run _ _ _ _ _ _
             (lift_run _ _ self
                (ge_initial_values_spec N r_imr r_omr _ _ HN
                   (Hall _) (eq_trans (length_map _ _) Hlen)
                   (Hall _) (eq_trans (length_map _ _) Hlen)))).
  unfold ret, after. cbn [fst snd].
  do 3 f_equal.
  - apply map_seq_ext. intros j Hj. rewrite Hat by lia. reflexivity.
  - f_equal. apply map_seq_ext. intros i Hi. rewrite Hat by lia. reflexivity.
Qed.

(** The full-GE system as the code has it.  Its unknowns vector has
    length [3N - 1]: [N - 1] rescaled IMRs (the last country of the sorted
    order left out), [N] rescaled OMRs and [N] factory-gate prices.  The initial vector is
    the conditional-MR solution divided by the rescale factors, with every
    price 1.  The residual function, on the share matrices built from the
    experiment trade costs, returns the two MR residual families followed,
    for each exporter [i], by
    [1 - (output_share_i * OMR_i) / (factory_gate_param_i * price_i ** (1 - sigma))],
    with the [factory_gate_price_param] the country holds;
    [_calculate_baseline_factory_gate_params] makes it
    [baseline_output_share_i * baseline_OMR_i]. *)
Theorem full_ge_system (self : @OneSectorGE F) (built : @BuiltParams F)
    (r_imr r_omr : F) :
  let country_list := sorted (keys (country_set self)) in
  let N := length (keys (country_set self)) in
  let c := fun i => nth i country_list "" in
  1 <= N ->
  NoDup (keys (country_set self)) ->
  _imr_rescale self = PyFloat r_imr ->
  _omr_rescale self = PyFloat r_omr ->
  fst (fst (_create_cost_output_expend_params (experiment_trade_costs self) self))
  = Ok built ->
  square N (built_cost_exp_shr built) ->
  square N (built_cost_out_shr built) ->
  (forall k, In k (keys (country_set self)) ->
     is_float_attr self k "conditional_imr"
     /\ is_float_attr self k "conditional_omr"
     /\ is_float_attr self k "baseline_output_share"
     /\ is_float_attr self k "baseline_omr"
     /\ is_float_attr self k "factory_gate_price_param") ->
  (exists ge_params initial_values,
     fst (fst (full_ge_problem self)) = Ok (ge_params, initial_values)
     /\ initial_values
        = map (fun j => float_attr self (c j) "conditional_imr" / r_imr)%fl
              (seq 0 (N - 1))
          ++ map (fun i => float_attr self (c i) "conditional_omr" / r_omr)%fl
                 (seq 0 N)
          ++ repeat 1%fl N
     /\ length initial_values = 3 * N - 1
     /\ forall x, length x = 3 * N - 1 ->
          _full_ge x ge_params
          = Ok (spec_ge_residuals N (sigma self)
                  (built_cost_exp_shr built) (built_cost_out_shr built)
                  (fun i => float_attr self (c i) "baseline_output_share")
                  (fun i => float_attr self (c i) "factory_gate_price_param")
                  (IMR N r_imr x) (OMR N r_omr x) (price N x)))
  /\ (exists self',
        _calculate_baseline_factory_gate_params self = (Ok tt, self', [])
        /\ forall k, In k (keys (country_set self)) ->
             stored self' k "factory_gate_price_param"
             = Some (PyFloat (float_attr self k "baseline_output_share"
                              * float_attr self k "baseline_omr")%fl)).
Proof.
  intros country_list N c HN Hnodup Himr Homr Hbuilt Hce Hco Hfloats.
  split.
  - destruct (full_ge_problem_spec self built r_imr r_omr HN Himr Homr Hbuilt)
      as [output_shr [fgp [Hproblem [Hos [Hlos [Hfg [Hlfg Hat]]]]]]].
    { intros k Hk. destruct (Hfloats k Hk) as [H1 [H2 [H3 [_ H5]]]]. auto. }
    eexists. eexists. split; [exact Hproblem|]. split; [reflexivity|]. split.
    + rewrite !length_app, !length_map, !length_seq, repeat_length. lia.
    + intros x Hx.
      rewrite (full_ge_residuals N (sigma self) _ _ r_omr r_imr output_shr fgp x
                 HN Hce Hco Hx Hos Hlos Hfg Hlfg).
      f_equal. unfold spec_ge_residuals. f_equal.
      apply map_seq_ext. intros i Hi. unfold price_residual.
      destruct (Hat i Hi) as [-> ->]. reflexivity.
  - destruct (factory_gate_params self Hnodup) as [self' [Hrun Hattrs]].
    { intros k Hk. destruct (Hfloats k Hk) as [_ [_ [H3 [H4 _]]]]. auto. }
    exists self'. split; [exact Hrun|]. intros k Hk. apply Hattrs, Hk.
Qed.

End FullGE.

Section Lifecycle.

Context {F : Type} {AF : Arith F}.

Variable root :
  (list F -> result (list F)) -> list F -> @pyval F -> @pyval F -> option Z ->
  result (@OptimizeResult F).

(** The messages of the lifecycle checks. *)
Definition sequencing_messages : list string :=
  [baseline_first_ge_model; baseline_first; experiment_first].

(** C6.  Lifecycle sequencing.  [define_experiment] on a model whose
    baseline is not built, and [simulate] on a model whose experiment is
    not defined, raise the [ValueError] of the lifecycle check and leave
    the model exactly as it was; nothing is logged.  A model is in both
    conditions when [__init__] returns. *)
Theorem lifecycle_sequencing (self : @OneSectorGE F)
    (experiment_data : option (@DataFrame F))
    (ge_method ge_tolerance : @pyval F) (ge_max_iter : option Z) :
  (_baseline_built self = false ->
   define_experiment experiment_data self
   = (Raise (ValueError baseline_first_ge_model), self, []))
  /\ (_experiment_defined self = false ->
      exists msg,
        simulate root ge_method ge_tolerance ge_max_iter self
        = (Raise (ValueError msg), self, [])
        /\ In msg sequencing_messages)
  /\ (forall estimation_results year sigma reference_importer approach quiet
             cost_variables cost_coeffs baseline_data country_set economy
             baseline_trade_costs,
        let fresh := @after__init__ F estimation_results year sigma
                       reference_importer approach quiet cost_variables
                       cost_coeffs baseline_data country_set economy
                       baseline_trade_costs in
        _baseline_built fresh = false /\ _experiment_defined fresh = false).
Proof.
  split; [|split].
  - intros H. unfold define_experiment, bind, get. now rewrite H.
  - intros H. unfold simulate, bind, get.
    destruct (_baseline_built self); simpl.
    + rewrite H. simpl. exists experiment_first. split; [reflexivity|].
      unfold sequencing_messages. simpl. tauto.
    + exists baseline_first. split; [reflexivity|].
      unfold sequencing_messages. simpl. tauto.
  - intros. split; reflexivity.
Qed.

(** C10 as the code has it.  On a model whose result fields are still
    [None] (as [__init__] leaves them), [trade_share] raises the
    [AttributeError] of reading [loc] of [None] and [export_results]
    raises the [ValueError] that [pandas.concat] raises when every object
    passed is [None]; neither is an exception of the lifecycle checks, and
    the model is left as it was. *)
Theorem queries_before_simulate (self : @OneSectorGE F)
    (importers exporters : list string) (directory : option string)
    (name : string) :
  bilateral_trade_results self = None ->
  aggregate_trade_results self = None ->
  factory_gate_prices self = None ->
  outputs_expenditures self = None ->
  country_results self = None ->
  country_mr_terms self = None ->
  trade_share importers exporters self = (Raise no_attribute_loc, self, [])
  /\ export_results directory name self
     = (Raise (ValueError "All objects passed were None"), self, [])
  /\ forall msg, In msg sequencing_messages ->
       no_attribute_loc <> ValueError msg
       /\ ValueError "All objects passed were None" <> ValueError msg.
Proof.
  intros Hb Ha Hf Ho Hc Hm. split; [|split].
  - unfold trade_share, bind, get. now rewrite Hb.
  - unfold export_results, bind, get. now rewrite Ha, Hf, Ho, Hc, Hm.
  - intros msg Hmsg. split; [discriminate|].
    unfold sequencing_messages in Hmsg. simpl in Hmsg.
    destruct Hmsg as [<-|[<-|[<-|[]]]]; discriminate.
Qed.

End Lifecycle.

Section TermsOfTrade.

Context {F : Type} {AF : Arith F}.

Lemma attr_run (c : @pyobject F) (name : string) (v : @pyval F) :
  dict_get c name = Some v -> attr name c = (Ok v, c, []).
Proof. intros H. unfold attr, getattr. now rewrite H. Qed.

Lemma setattr_run (c : @pyobject F) (name : string) (v : @pyval F) :
  setattr name v c = (Ok tt, dict_set c name v, []).
Proof. reflexivity. Qed.

(** One warning for each value that is [None]. *)
Definition unset_warnings (values : list (@pyval F)) : list event :=
  map (fun _ => Warn terms_of_trade_warning) (filter is_None values).

Lemma warn_unset (values : list (@pyval F)) (c : @pyobject F) :
  for_each values
    (fun value => when (is_None value) (warn terms_of_trade_warning)) c
  = (Ok tt, c, unset_warnings values).
Proof.
  induction values as [|v values IH]; [reflexivity|].
  simpl. unfold bind. unfold unset_warnings. simpl.
  destruct (is_None v); simpl; rewrite IH; reflexivity.
Qed.

Lemma bind_attr {B} (name : string) (k : @pyval F -> M (@pyobject F) B)
    (c : @pyobject F) (v : @pyval F) :
  dict_get c name = Some v -> bind (attr name) k c = k v c.
Proof.
  intros H. now rewrite (bind_run _ _ _ _ _ _ (attr_run _ _ _ H)), after_nil.
Qed.

Lemma bind_setattr {B} (name : string) (v : @pyval F)
    (k : unit -> M (@pyobject F) B) (c : @pyobject F) :
  bind (setattr name v) k c = k tt (dict_set c name v).
Proof.
  now rewrite (bind_run _ _ _ _ _ _ (setattr_run _ _ _)), after_nil.
Qed.

Ltac get_set :=
  rewrite ?dict_get_set; cbn [String.eqb Ascii.eqb Bool.eqb andb].

(** One statement of a method of a country. *)
Ltac country_step :=
  first [ erewrite bind_attr by (get_set; first [eassumption|reflexivity])
        | rewrite binop_floats, bind_lift_ok
        | rewrite bind_setattr ].

(** The terms of trade as the code has them.  When the baseline factory
    price, the baseline
    IMR, the experiment factory price and the experiment IMR of a country
    are floats, [construct_terms_of_trade] logs nothing and sets the
    baseline and the experiment terms of trade to [factory_price / IMR] of
    the respective state and their change to
    [100 * (experiment - baseline) / baseline]; the baseline factory price
    of a new country is 1.  When one of the four is [None], it issues one
    warning for each unset value and then raises [TypeError]: the
    computation does not continue, and the change is never assigned. *)
Theorem terms_of_trade (c : @Country F) (v_bp v_bi v_ep v_ei : @pyval F) :
  dict_get c "baseline_factory_price" = Some v_bp ->
  dict_get c "baseline_imr" = Some v_bi ->
  dict_get c "experiment_factory_price" = Some v_ep ->
  dict_get c "experiment_imr" = Some v_ei ->
  (forall bp bi ep ei,
     v_bp = PyFloat bp -> v_bi = PyFloat bi ->
     v_ep = PyFloat ep -> v_ei = PyFloat ei ->
     exists c',
       construct_terms_of_trade c = (Ok tt, c', [])
       /\ dict_get c' "baseline_terms_of_trade" = Some (PyFloat (bp / bi)%fl)
       /\ dict_get c' "experiment_terms_of_trade" = Some (PyFloat (ep / ei)%fl)
       /\ dict_get c' "terms_of_trade_change"
          = Some (PyFloat (100 * ((ep / ei) - (bp / bi)) / (bp / bi))%fl))
  /\ (existsb is_None [v_bp; v_bi; v_ep; v_ei] = true ->
      exists c',
        construct_terms_of_trade c
        = (Raise unsupported_operand, c', unset_warnings [v_bp; v_bi; v_ep; v_ei])
        /\ unset_warnings [v_bp; v_bi; v_ep; v_ei] <> []
        /\ dict_get c' "terms_of_trade_change"
           = dict_get c "terms_of_trade_change")
  /\ (forall identifier year o e imp_fe exp_fe ref,
        dict_get (new_Country identifier year o e imp_fe exp_fe ref)
                 "baseline_factory_price" = Some (PyFloat 1%fl)).
Proof.
  intros Hbp Hbi Hep Hei.
  assert (Hstart : forall o,
            (bp <- attr "baseline_factory_price" ;;
             bi <- attr "baseline_imr" ;;
             bt <- lift (binop fdiv bp bi) ;;
             setattr "baseline_terms_of_trade" bt ;;
             ep <- attr "experiment_factory_price" ;;
             ei <- attr "experiment_imr" ;;
             et <- lift (binop fdiv ep ei) ;;
             setattr "experiment_terms_of_trade" et ;;
             e <- attr "experiment_terms_of_trade" ;;
             b <- attr "baseline_terms_of_trade" ;;
             change <- lift (binop percent_change_of e b) ;;
             setattr "terms_of_trade_change" change)%M c = o ->
            construct_terms_of_trade c
            = after (unset_warnings [v_bp; v_bi; v_ep; v_ei]) o).
  { intros o <-. unfold construct_terms_of_trade.
    do 4 country_step.
    rewrite (bind_run _ _ _ _ _ _ (warn_unset _ c)). reflexivity. }
  split; [|split].
  - intros bp bi ep ei -> -> -> ->.
    eexists. split.
    + rewrite (Hstart _ eq_refl).
      repeat country_step. rewrite setattr_run. reflexivity.
    + get_set. repeat split.
  - intros Hnone.
    assert (Hwarn : unset_warnings [v_bp; v_bi; v_ep; v_ei] <> []).
    { unfold unset_warnings. simpl in *.
      destruct v_bp, v_bi, v_ep, v_ei; simpl in *; discriminate. }
    assert (Hfirst : (exists bp bi, v_bp = PyFloat bp /\ v_bi = PyFloat bi)
                     \/ binop fdiv v_bp v_bi = Raise unsupported_operand).
    { destruct v_bp, v_bi; simpl; eauto. }
    destruct Hfirst as [[bp [bi [-> ->]]]|Hraise].
    + assert (Hsecond : binop fdiv v_ep v_ei = Raise unsupported_operand).
      { destruct v_ep, v_ei; simpl in *; try reflexivity; discriminate. }
      eexists. split; [|split; [exact Hwarn|]].
      * rewrite (Hstart _ eq_refl).
        do 6 country_step.
        rewrite Hsecond. unfold bind, lift, after.
        rewrite app_nil_r. reflexivity.
      * get_set. reflexivity.
    + exists c. split; [|split; [exact Hwarn|reflexivity]].
      rewrite (Hstart _ eq_refl).
      do 2 country_step. rewrite Hraise.
      unfold bind, lift, after. rewrite app_nil_r. reflexivity.
  - intros. reflexivity.
Qed.

End TermsOfTrade.

Section Trade.

Context {F : Type} {AF : Arith F}.





(** The sum of a column over the rows a predicate selects. *)
Definition sum_over (rows : list (@BilateralRow F))
    (select : @BilateralRow F -> bool) (value : @BilateralRow F -> F) : F :=
  pd_sum (map value (filter select rows)).





(** ** Grouped sums *)








End Trade.

Section TradeResults.

Context {F : Type} {AF : Arith F}.




Lemma group_sum_filter (key : @BilateralRow F -> string)
    (value : @BilateralRow F -> F) (rows : list (@BilateralRow F)) (k : string) :
  group_sum key value rows k
  = sum_over rows (fun r => String.eqb (key r) k) value.
Proof. reflexivity. Qed.


End TradeResults.

Section TradeResultsSpec.

Context {F : Type} {AF : Arith F}.











End TradeResultsSpec.

(** ** The reference importer and the sorted order *)

Section ReferenceLast.

Context {F : Type} {AF : Arith F}.

Lemma reference_IMR_last (N : nat) (r : F) (x : list F) (j : nat) :
  j < N -> reference_IMR (N - 1) r x j = IMR N r x j.
Proof.
  intros Hj. unfold reference_IMR, IMR.
  destruct (Nat.eqb_spec j (N - 1)) as [->|Hne].
  - now rewrite Nat.ltb_irrefl.
  - assert (Hlt : j < N - 1) by lia.
    apply Nat.ltb_lt in Hlt. now rewrite Hlt.
Qed.

Lemma others_when_last (N : nat) :
  1 <= N ->
  filter (fun j => negb (Nat.eqb j (N - 1))) (seq 0 N) = seq 0 (N - 1).
Proof.
  intros HN. replace N with (N - 1 + 1) at 1 by lia.
  rewrite seq_app, filter_app. simpl.
  rewrite Nat.eqb_refl. simpl. rewrite app_nil_r.
  apply forallb_filter_id. apply forallb_forall. intros j Hj.
  apply in_seq in Hj. apply negb_true_iff, Nat.eqb_neq. lia.
Qed.

(** The system of the code is the system of the specification exactly
    when the reference importer is the last country of the sorted order. *)
Lemma reference_last (N : nat) (ce co : @matrix F) (r_imr : F) (x : list F)
    (omr : nat -> F) :
  1 <= N ->
  reference_mr_residuals N (N - 1) ce co (reference_IMR (N - 1) r_imr x) omr
  = spec_mr_residuals N ce co (IMR N r_imr x) omr.
Proof.
  intros HN. unfold reference_mr_residuals, spec_mr_residuals.
  rewrite (others_when_last N HN). f_equal.
  - apply map_ext_in. intros j Hj. apply in_seq in Hj.
    unfold imr_residual. rewrite reference_IMR_last by lia. reflexivity.
  - apply map_ext_in. intros i _. unfold omr_residual, Sigma. do 3 f_equal.
    apply map_ext_in. intros j Hj. apply in_seq in Hj.
    rewrite reference_IMR_last by lia. reflexivity.
Qed.

End ReferenceLast.

(** ** A two-country economy

    Countries [A] and [B], each with output 1 and expenditure 1, in the year
    2006; [A] is the reference importer.  Exports to [A] carry the trade
    cost 1/2, exports to [B] the trade cost 1. *)

Definition num (x : R) : @pyval Rnan := PyFloat (Some x).

Definition countries_AB : dict (@Country Rnan) :=
  [ ("A", new_Country "A" "2006" (num 1) (num 1)
            (PyStr "no estimate") (num 0) (num 1));
    ("B", new_Country "B" "2006" (num 1) (num 1)
            (num 0) (num 0) (num 1)) ].

(** The economy and the countries as [__init__] completes them. *)
Definition economy_AB : @Economy Rnan :=
  snd (fst (initialize_baseline_total_output_expend countries_AB
              (new_Economy (Some 5%R)))).

Definition country_set_AB : dict (@Country Rnan) :=
  map (fun kc =>
         (fst kc,
          snd (fst (calculate_baseline_output_expenditure_shares economy_AB
                      (snd kc)))))
      countries_AB.

Definition cost_row (importer exporter : string) (cost : R) : @CostRow Rnan :=
  {| tc_importer := importer; tc_exporter := exporter; tc_year := "2006";
     trade_cost := Some cost |}.

Definition costs_AB : list (@CostRow Rnan) :=
  [ cost_row "A" "A" (1/2); cost_row "A" "B" (1/2);
    cost_row "B" "A" 1; cost_row "B" "B" 1 ].

Definition observation (importer exporter : string) (trade : R)
    : @Observation Rnan :=
  {| obs_importer := importer; obs_exporter := exporter; obs_year := "2006";
     obs_trade := Some trade; obs_values := [] |}.

Definition data_AB : @DataFrame Rnan :=
  {| df_columns := [];
     df_rows := [ observation "A" "A" 1; observation "A" "B" 1;
                  observation "B" "A" 1; observation "B" "B" 1 ] |}.

(** The model after [__init__], solving by root finding ([approach] None)
    or in closed form ([approach] GEPPML). *)
Definition model_AB (approach : option string) : @OneSectorGE Rnan :=
  after__init__ (Some []) "2006" (Some 5%R) (Some "A") approach true
    [] [] data_AB country_set_AB economy_AB costs_AB.

(** The exact solution of the baseline MR system of the economy, in the
    order (IMR of A, OMR of A, OMR of B). *)
Definition solution_AB : list Rnan := [Some 2%R; Some 1%R; Some 1%R].

(** A root finder that returns the exact solution and reports
    convergence. *)
Definition exact_root (f : list Rnan -> result (list Rnan)) (x0 : list Rnan)
    (method tol : @pyval Rnan) (maxfev : option Z)
    : result (@OptimizeResult Rnan) :=
  Ok {| opt_x := solution_AB; opt_success := true;
        opt_message := converged_message;
        opt_fun := [Some 0%R; Some 0%R; Some 0%R] |}.

Definition tolerance : @pyval Rnan := num (1 / 100000000).

(** The model once [build_baseline] has stored its solver settings. *)
Definition model_AB_settings (approach : option string) : @OneSectorGE Rnan :=
  set_mr_method (PyStr "hybr")
    (set_mr_tolerance tolerance
       (set_mr_max_iter (Some 1400%Z)
          (set_imr_rescale (num 1)
             (set_omr_rescale (num 1) (model_AB approach))))).

(** C1 (code bug).  In the two-country economy with reference importer
    [A], a baseline solve whose root finder returns the exact solution of
    the MR system stores the IMR 2 for [A] and the IMR 1 for [B]: the
    code pins the last country of the sorted order, not the reference
    importer.  The vector is an exact zero of the residual function the
    solve was given. *)
Theorem reference_importer_not_normalized :
  exists self' log p x0,
    build_baseline exact_root (num 1) (num 1) (PyStr "hybr") (Some 1400%Z)
      tolerance (model_AB None) = (Ok tt, self', log)
    /\ _reference_importer self' = Some "A"
    /\ stored self' "A" "baseline_imr" = Some (num 2)
    /\ stored self' "B" "baseline_imr" = Some (num 1)
    /\ fst (fst (mr_problem (Some costs_AB) (model_AB_settings None)))
       = Ok (p, x0)
    /\ _multilateral_resistances solution_AB p
       = Ok [Some 0%R; Some 0%R; Some 0%R].
Proof.
  do 4 eexists. split; [vm_compute; reflexivity|].
  split; [reflexivity|]. split; [|split; [|split]].
  - vm_compute. do 3 f_equal. lra.
  - vm_compute. reflexivity.
  - vm_compute. reflexivity.
  - vm_compute. repeat f_equal; lra.
Qed.

(** C4 (code bug).  On the same economy the closed-form GEPPML baseline
    stores the IMR 1 for the reference importer [A], and the iterative
    baseline, with a root finder that returns the exact solution, stores
    the IMR 2 for it: the two paths do not normalize the same country. *)
Theorem geppml_and_solver_normalize_differently :
  exists geppml solved log log',
    build_baseline exact_root (num 1) (num 1) (PyStr "hybr") (Some 1400%Z)
      tolerance (model_AB (Some "GEPPML")) = (Ok tt, geppml, log)
    /\ build_baseline exact_root (num 1) (num 1) (PyStr "hybr") (Some 1400%Z)
         tolerance (model_AB None) = (Ok tt, solved, log')
    /\ _reference_importer geppml = _reference_importer solved
    /\ keys (country_set geppml) = keys (country_set solved)
    /\ stored geppml "A" "baseline_imr" = Some (num 1)
    /\ stored solved "A" "baseline_imr" = Some (num 2).
Proof.
  do 4 eexists. split; [vm_compute; reflexivity|].
  split; [vm_compute; reflexivity|].
  split; [reflexivity|]. split; [reflexivity|]. split.
  - vm_compute. do 3 f_equal. field.
  - vm_compute. do 3 f_equal. lra.
Qed.

(** Lists of real numbers that are equal entry by entry. *)
Ltac equal_reals :=
  repeat match goal with
         | |- Ok _ = Ok _ => apply f_equal
         | |- Some _ :: _ = Some _ :: _ =>
             apply f_equal2; [apply f_equal; lra|]
         | |- @nil _ = @nil _ => reflexivity
         end.

(** C2 (code bug).  In the two-country economy the reference importer [A]
    is the first country of the sorted order.  The system
    [_calculate_multilateral_resistance] hands to the solver has three
    unknowns, and the residual function vanishes at [[2; 1; 1]]: it reads
    the first entry as the IMR of [A], computes the IMR equation of [A],
    and substitutes the IMR 1 for [B].  The system of the specification,
    which leaves out the reference importer [A], reads the first entry as
    the IMR of [B] and has the residuals [-1], [-1/4] and [-1/4] there. *)
Theorem mr_residuals_exclude_the_last_country :
  exists p x0,
    fst (fst (mr_problem (Some costs_AB) (model_AB_settings None)))
    = Ok (p, x0)
    /\ _reference_importer (model_AB_settings None) = Some "A"
    /\ sorted (keys (country_set (model_AB_settings None))) = ["A"; "B"]
    /\ mr_number_of_countries p = 2
    /\ length x0 = 3
    /\ _multilateral_resistances solution_AB p
       = Ok [Some 0%R; Some 0%R; Some 0%R]
    /\ _multilateral_resistances solution_AB p
       = Ok (spec_mr_residuals 2 (mr_cost_exp_shr p) (mr_cost_out_shr p)
               (IMR 2 (Some 1%R) solution_AB) (OMR 2 (Some 1%R) solution_AB))
    /\ IMR 2 (Some 1%R) solution_AB 1 = Some 1%R
    /\ reference_mr_residuals 2 0 (mr_cost_exp_shr p) (mr_cost_out_shr p)
         (reference_IMR 0 (Some 1%R) solution_AB)
         (OMR 2 (Some 1%R) solution_AB)
       = [Some (-1)%R; Some (-1/4)%R; Some (-1/4)%R].
Proof.
  do 2 eexists. split; [vm_compute; reflexivity|].
  split; [reflexivity|]. split; [vm_compute; reflexivity|].
  split; [reflexivity|]. split; [reflexivity|].
  split; [|split; [|split]].
  - vm_compute. equal_reals.
  - vm_compute. reflexivity.
  - vm_compute. reflexivity.
  - vm_compute. equal_reals.
Qed.

(** The two-country economy after [build_baseline] with the exact solution
    of the baseline system. *)
Definition model_AB_baseline : @OneSectorGE Rnan :=
  snd (fst (build_baseline exact_root (num 1) (num 1) (PyStr "hybr")
              (Some 1400%Z) tolerance (model_AB None))).

(** An experiment that leaves the trade costs as they are, and its
    conditional MR solve, again with the exact solution. *)
Definition model_AB_conditional : @OneSectorGE Rnan :=
  snd (fst (_calculate_multilateral_resistance exact_root (Some costs_AB)
              "conditional" false false
              (set_experiment_defined true
                 (set_experiment_trade_costs (Some costs_AB)
                    model_AB_baseline)))).

(** The residual vector a residual function returned. *)
Definition residuals_of (r : result (list Rnan)) : list Rnan :=
  match r with
  | Ok out => out
  | Raise _ => []
  end.

(** C3 (code bug).  The full-GE system of the two-country economy, after a
    baseline, an experiment that leaves the trade costs as they are and its
    conditional solve, each solved exactly.  The reference importer [A] is
    the first country of the sorted order and holds the conditional IMR 2;
    [B] holds 1.  The initial vector of [_calculate_full_ge] starts with the
    IMR of [A]: the code leaves out the last country of the sorted order,
    [B], where the specification leaves out the reference importer.  At
    that vector the two MR residual families of [_full_ge] vanish, whereas
    the system of the specification, which reads the first entry as the IMR
    of [B], has the residuals [-1], [-1/4] and [-1/4].  The factory-gate
    parameters are the products [build_baseline] stored. *)
Theorem full_ge_system_excludes_the_last_country :
  exists p x0,
    fst (fst (full_ge_problem model_AB_conditional)) = Ok (p, x0)
    /\ _reference_importer model_AB_conditional = Some "A"
    /\ sorted (keys (country_set model_AB_conditional)) = ["A"; "B"]
    /\ stored model_AB_conditional "A" "conditional_imr" = Some (num 2)
    /\ stored model_AB_conditional "B" "conditional_imr" = Some (num 1)
    /\ x0 = [Some 2%R; Some 1%R; Some 1%R; Some 1%R; Some 1%R]
    /\ length (residuals_of (_full_ge x0 p)) = 5
    /\ firstn 3 (residuals_of (_full_ge x0 p))
       = [Some 0%R; Some 0%R; Some 0%R]
    /\ reference_mr_residuals 2 0 (ge_cost_exp_shr p) (ge_cost_out_shr p)
         (reference_IMR 0 (Some 1%R) x0) (OMR 2 (Some 1%R) x0)
       = [Some (-1)%R; Some (-1/4)%R; Some (-1/4)%R]
    /\ ge_factory_gate_param p
       = map (fun k =>
                PyFloat (fmul (float_attr model_AB_baseline k
                                 "baseline_output_share")
                              (float_attr model_AB_baseline k "baseline_omr")))
             ["A"; "B"].
Proof.
  do 2 eexists. split; [vm_compute; reflexivity|].
  split; [reflexivity|]. split; [vm_compute; reflexivity|].
  split; [vm_compute; do 3 f_equal; lra|].
  split; [vm_compute; do 3 f_equal; lra|].
  split; [equal_reals|].
  split; [vm_compute; reflexivity|].
  split; [vm_compute; equal_reals|].
  split; [vm_compute; equal_reals|].
  vm_compute. reflexivity.
Qed.

Section NonConvergence.

Context {F : Type} {AF : Arith F}.

Variable root :
  (list F -> result (list F)) -> list F -> @pyval F -> @pyval F -> option Z ->
  result (@OptimizeResult F).

(** C7.  Solver non-convergence is not fatal.  In a model with at least
    one country and float rescale factors, when the root finder returns a
    result whose message is not the one of a converged solve (the test the
    code applies), the MR solve and the full GE solve return without
    raising, a warning with the solver's message is in the log, the
    result object is stored in [solver_diagnostics] under its key
    ([baseline_MRs], [conditional_MRs], [full_GE]), and the solution
    vector is unpacked and stored in the countries, in sorted order. *)
Theorem solver_nonconvergence_not_fatal (self : @OneSectorGE F)
    (r_imr r_omr : F) :
  let country_list := sorted (keys (country_set self)) in
  let N := length (keys (country_set self)) in
  1 <= N ->
  NoDup (keys (country_set self)) ->
  _imr_rescale self = PyFloat r_imr ->
  _omr_rescale self = PyFloat r_omr ->
  (forall trade_costs version p x0 solved,
     version = "baseline" \/ version = "conditional" ->
     fst (fst (mr_problem trade_costs self)) = Ok (p, x0) ->
     root (fun x => _multilateral_resistances x p) x0
          (_mr_method self) (_mr_tolerance self) (_mr_max_iter self)
     = Ok solved ->
     opt_message solved <> converged_message ->
     length (opt_x solved) = 2 * N - 1 ->
     exists self' log,
       _calculate_multilateral_resistance root trade_costs version false false
         self = (Ok None, self', log)
       /\ In (Warn (opt_message solved)) log
       /\ dict_get (solver_diagnostics self') (version ++ "_MRs")%string
          = Some solved
       /\ forall i, i < N ->
            stored self' (nth i country_list "") (version ++ "_imr")%string
            = Some (PyFloat (IMR N r_imr (opt_x solved) i))
            /\ stored self' (nth i country_list "") (version ++ "_omr")%string
               = Some (PyFloat (OMR N r_omr (opt_x solved) i)))
  /\ (forall p x0 solved,
        fst (fst (full_ge_problem self)) = Ok (p, x0) ->
        root (fun x => _full_ge x p) x0
             (_ge_method self) (_ge_tolerance self) (_ge_max_iter self)
        = Ok solved ->
        opt_message solved <> converged_message ->
        length (opt_x solved) = 3 * N - 1 ->
        exists self' log,
          _calculate_full_ge root self = (Ok tt, self', log)
          /\ In (Warn (opt_message solved)) log
          /\ dict_get (solver_diagnostics self') "full_GE" = Some solved
          /\ forall i, i < N ->
               let c := nth i country_list "" in
               let x := opt_x solved in
               stored self' c "experiment_imr"
               = Some (PyFloat (IMR N r_imr x i))
               /\ stored self' c "experiment_omr"
                  = Some (PyFloat (OMR N r_omr x i))
               /\ stored self' c "experiment_factory_price"
                  = Some (PyFloat (price N x i))
               /\ stored self' c "factory_price_change"
                  = Some (PyFloat (100 * (price N x i - 1))%fl)).
Proof.
  intros country_list N HN Hnodup Himr Homr. split.
  - intros trade_costs version p x0 solved Hv Hp Hroot Hmsg Hx.
    exact (mr_solve_not_converged root self trade_costs version p x0 solved
             r_imr r_omr Hv HN Hnodup Himr Homr Hp Hroot Hmsg Hx).
  - intros p x0 solved Hp Hroot Hmsg Hx.
    exact (ge_solve_not_converged root self p x0 solved r_imr r_omr
             HN Hnodup Himr Homr Hp Hroot Hmsg Hx).
Qed.

End NonConvergence.

(** ** The theorems at the two-country economy *)

Definition with_attrs (assigns : list (string * @pyval Rnan))
    (c : @Country Rnan) : @Country Rnan :=
  fold_left (fun c a => dict_set c (fst a) (snd a)) assigns c.

(** A country with the attributes the solver phases store. *)
Definition simulated_country (c : @Country Rnan) : @Country Rnan :=
  with_attrs
    [ ("baseline_imr", num 1); ("baseline_omr", num 1);
      ("factory_gate_price_param", num (1/2));
      ("conditional_imr", num 1); ("conditional_omr", num 1);
      ("experiment_imr", num 1); ("experiment_omr", num 1);
      ("experiment_factory_price", num 1);
      ("experiment_output", num 1); ("experiment_expenditure", num 1);
      ("experiment_output_share", num (1/2)) ] c.

(** The model with an experiment that leaves the trade costs as they are. *)
Definition model_AB_simulated : @OneSectorGE Rnan :=
  set_country_set
    (map (fun kc => (fst kc, simulated_country (snd kc))) country_set_AB)
    (set_experiment_trade_costs (Some costs_AB) (model_AB_settings None)).

Definition stalled_message : string :=
  "The iteration is not making good progress.".

(** A root finder that gives up at the initial guess. *)
Definition stalled_root (f : list Rnan -> result (list Rnan)) (x0 : list Rnan)
    (method tol : @pyval Rnan) (maxfev : option Z)
    : result (@OptimizeResult Rnan) :=
  Ok {| opt_x := x0; opt_success := false; opt_message := stalled_message;
        opt_fun := [] |}.

Definition ones (n : nat) : list Rnan := repeat (Some 1%R) n.

Definition shares_AB : @matrix Rnan :=
  [ [Some (1/4)%R; Some (1/2)%R]; [Some (1/4)%R; Some (1/2)%R] ].

Lemma square_shares_AB : square 2 shares_AB.
Proof. split; [reflexivity|repeat constructor]. Defined.

Lemma multilateral_resistances_residuals_witness :
  _multilateral_resistances solution_AB
    {| mr_number_of_countries := 2;
       mr_omr_rescale := num 1; mr_imr_rescale := num 1;
       mr_cost_exp_shr := shares_AB; mr_cost_out_shr := shares_AB |}
  = Ok (spec_mr_residuals 2 shares_AB shares_AB
          (IMR 2 (Some 1%R) solution_AB) (OMR 2 (Some 1%R) solution_AB)).
Proof.
  apply (multilateral_resistances_residuals 2 shares_AB shares_AB
           (Some 1%R) (Some 1%R) solution_AB).
  - lia.
  - exact square_shares_AB.
  - exact square_shares_AB.
  - reflexivity.
Defined.

Lemma Rnan_mul_one (v : Rnan) : (v * 1)%fl = v.
Proof.
  destruct v as [x|]; [|reflexivity].
  simpl. f_equal. apply Rmult_1_r.
Defined.

Lemma rescale_invariance_witness :
  unpack_mrs 2 solution_AB (num 10) (num 100)
  = unpack_mrs 2 (rescaled 2 (Some 10%R) (Some 100%R) solution_AB)
      (num 1) (num 1).
Proof.
  apply (rescale_invariance 2 shares_AB shares_AB (Some 100%R) (Some 10%R)
           solution_AB Rnan_mul_one).
Defined.

Lemma model_AB_countries : keys (country_set model_AB_simulated) = ["A"; "B"].
Proof. reflexivity. Defined.

Lemma NoDup_AB : NoDup ["A"; "B"].
Proof.
  constructor; [simpl; intros [H|[]]; discriminate|].
  constructor; [simpl; tauto|constructor].
Defined.

Definition built_of (r : result (@BuiltParams Rnan)) : @BuiltParams Rnan :=
  match r with
  | Ok built => built
  | Raise _ => {| built_cost_exp_shr := []; built_cost_out_shr := [] |}
  end.

(** The share matrices of the experiment of [model_AB_simulated]. *)
Definition built_AB : @BuiltParams Rnan :=
  built_of (fst (fst (_create_cost_output_expend_params (Some costs_AB)
                        model_AB_simulated))).

Lemma full_ge_system_witness :
  exists ge_params initial_values,
    fst (fst (full_ge_problem model_AB_simulated))
    = Ok (ge_params, initial_values)
    /\ length initial_values = 5.
Proof.
  destruct (full_ge_system model_AB_simulated
              built_AB (Some 1%R) (Some 1%R))
    as [[p [x0 [Hp [_ [Hlen _]]]]] _].
  - vm_compute. lia.
  - exact NoDup_AB.
  - reflexivity.
  - reflexivity.
  - vm_compute. reflexivity.
  - vm_compute. split; [reflexivity|repeat constructor].
  - vm_compute. split; [reflexivity|repeat constructor].
  - intros k Hk. vm_compute in Hk.
    destruct Hk as [<-|[<-|[]]]; repeat split; eexists; vm_compute; reflexivity.
  - exists p, x0. split; [exact Hp|exact Hlen].
Defined.

Definition problem_of (r : result (@MRParams Rnan * list Rnan))
    : @MRParams Rnan * list Rnan :=
  match r with
  | Ok problem => problem
  | Raise _ =>
      ({| mr_number_of_countries := 0;
          mr_omr_rescale := PyNone; mr_imr_rescale := PyNone;
          mr_cost_exp_shr := []; mr_cost_out_shr := [] |}, [])
  end.

(** The baseline MR problem of the two-country economy. *)
Definition problem_AB : @MRParams Rnan * list Rnan :=
  problem_of (fst (fst (mr_problem (Some costs_AB) (model_AB_settings None)))).

Definition stalled_AB : @OptimizeResult Rnan :=
  {| opt_x := snd problem_AB; opt_success := false;
     opt_message := stalled_message; opt_fun := [] |}.

Lemma solver_nonconvergence_not_fatal_witness :
  exists self' log,
    _calculate_multilateral_resistance stalled_root (Some costs_AB) "baseline"
      false false (model_AB_settings None) = (Ok None, self', log)
    /\ In (Warn stalled_message) log
    /\ dict_get (solver_diagnostics self') "baseline_MRs" = Some stalled_AB.
Proof.
  destruct (solver_nonconvergence_not_fatal stalled_root
              (model_AB_settings None) (Some 1%R) (Some 1%R))
    as [Hmr _].
  - vm_compute. lia.
  - exact NoDup_AB.
  - reflexivity.
  - reflexivity.
  - destruct (Hmr (Some costs_AB) "baseline" (fst problem_AB) (snd problem_AB)
                stalled_AB)
      as [self' [log [Hrun [Hwarn [Hstored _]]]]].
    + left. reflexivity.
    + vm_compute. reflexivity.
    + reflexivity.
    + vm_compute. discriminate.
    + vm_compute. reflexivity.
    + exists self', log. split; [exact Hrun|]. split; [exact Hwarn|].
      exact Hstored.
Defined.


(** A country whose four inputs of the terms of trade are set. *)
Definition country_A_solved : @Country Rnan :=
  simulated_country
    (new_Country "A" "2006" (num 1) (num 1) (PyStr "no estimate") (num 0)
       (num 1)).

(** A country as its constructor leaves it: no IMR and no experiment
    price yet. *)
Definition country_A_new : @Country Rnan :=
  new_Country "A" "2006" (num 1) (num 1) (PyStr "no estimate") (num 0)
    (num 1).

Lemma terms_of_trade_witness :
  exists c',
    construct_terms_of_trade country_A_solved = (Ok tt, c', [])
    /\ dict_get c' "baseline_terms_of_trade"
       = Some (PyFloat (fdiv (Some 1%R) (Some 1%R))).
Proof.
  destruct (terms_of_trade country_A_solved (num 1) (num 1) (num 1) (num 1))
    as [Hfloats _].
  - vm_compute. reflexivity.
  - vm_compute. reflexivity.
  - vm_compute. reflexivity.
  - vm_compute. reflexivity.
  - destruct (Hfloats (Some 1%R) (Some 1%R) (Some 1%R) (Some 1%R)
                eq_refl eq_refl eq_refl eq_refl)
      as [c' [Hrun [Hb _]]].
    exists c'. split; [exact Hrun|exact Hb].
Defined.

(** C9 (code bug).  [construct_terms_of_trade] on a country as its
    constructor leaves it, whose baseline IMR, experiment factory price and
    experiment IMR are unset: the method issues its warning three times,
    once for each unset value, and then the unguarded division of the next
    statement raises [TypeError].  The warning is not followed by a
    computation that continues: the country is left as it was, without
    terms of trade. *)
Theorem terms_of_trade_warning_then_TypeError :
  dict_get country_A_new "baseline_factory_price" = Some (num 1)
  /\ dict_get country_A_new "baseline_imr" = Some PyNone
  /\ dict_get country_A_new "experiment_factory_price" = Some PyNone
  /\ dict_get country_A_new "experiment_imr" = Some PyNone
  /\ construct_terms_of_trade country_A_new
     = (Raise unsupported_operand, country_A_new,
        [Warn terms_of_trade_warning; Warn terms_of_trade_warning;
         Warn terms_of_trade_warning])
  /\ dict_get country_A_new "baseline_terms_of_trade" = Some PyNone
  /\ dict_get country_A_new "terms_of_trade_change" = Some PyNone.
Proof.
  split; [reflexivity|]. split; [reflexivity|].
  split; [reflexivity|]. split; [reflexivity|].
  split; [vm_compute; reflexivity|].
  split; reflexivity.
Qed.

Lemma queries_before_simulate_witness :
  trade_share ["A"] ["B"] (model_AB None)
  = (Raise no_attribute_loc, model_AB None, [])
  /\ export_results None "" (model_AB None)
     = (Raise (ValueError "All objects passed were None"), model_AB None, []).
Proof.
  destruct (queries_before_simulate (model_AB None) ["A"] ["B"] None ""
              eq_refl eq_refl eq_refl eq_refl eq_refl eq_refl)
    as [Hshare [Hexport _]].
  split; [exact Hshare|exact Hexport].
Defined.

(** The exceptions the specification calls attribute or type errors. *)
Definition is_attribute_or_type_error (e : exn) : bool :=
  match e with
  | AttributeError _ | TypeError _ => true
  | _ => false
  end.

Definition raised {A S : Type} (o : result A * S * list event) : option exn :=
  match fst (fst o) with
  | Raise e => Some e
  | Ok _ => None
  end.

(** C10, the sentence as the specification has it, fails for
    [export_results]: before [simulate] it raises a [ValueError], the one
    of [pandas.concat] on a list of [None]s, not an attribute or type
    error. *)
Lemma export_results_raises_ValueError :
  raised (export_results None "" (model_AB None))
  = Some (ValueError "All objects passed were None")
  /\ option_map is_attribute_or_type_error
       (raised (export_results None "" (model_AB None)))
     = Some false.
Proof. split; vm_compute; reflexivity. Qed.

Lemma lifecycle_sequencing_witness :
  define_experiment None (model_AB None)
  = (Raise (ValueError baseline_first_ge_model), model_AB None, []).
Proof.
  exact (proj1 (lifecycle_sequencing stalled_root (model_AB None) None
                  PyNone PyNone None) eq_refl).
Defined.

(** * Further properties of the code *)

(** ** The domains of the residual functions *)

Lemma mapM_ok_inv {A B} (f : A -> result B) (l : list A) (bs : list B) :
  mapM f l = Ok bs -> forall a, In a l -> exists b, f a = Ok b.
Proof.
  revert bs. induction l as [|a0 l IH]; simpl; intros bs H a Ha.
  - contradiction.
  - destruct (f a0) as [b0|e] eqn:Hf; [|discriminate].
    destruct (mapM f l) as [bs'|e]; [|discriminate].
    destruct Ha as [<-|Ha]; [now exists b0|].
    now apply (IH bs').
Qed.

Lemma mapM_ext_in {A B} (f g : A -> result B) (l : list A) :
  (forall a, In a l -> f a = g a) -> mapM f l = mapM g l.
Proof.
  induction l as [|a l IH]; simpl; intros H; [reflexivity|].
  rewrite (H a (or_introl eq_refl)), IH; [reflexivity|].
  intros b Hb. apply H. now right.
Qed.

Lemma rbind_ok_inv {A B} (c : result A) (k : A -> result B) (b : B) :
  rbind c k = Ok b -> exists a, c = Ok a /\ k a = Ok b.
Proof. destruct c as [a|e]; simpl; [now exists a|discriminate]. Qed.

Lemma getitem_ok_length {A} (l : list A) (i : nat) (a : A) :
  getitem l i = Ok a -> i < length l.
Proof.
  unfold getitem. destruct (nth_error l i) eqn:H; [|discriminate].
  intros _. apply nth_error_Some. congruence.
Qed.

Section ResidualDomains.

Context {F : Type} {AF : Arith F}.

(** [numpy.multiply] broadcasts only an operand of length one. *)
Lemma multiply_ok_length (a b : list F) (p : list F) :
  2 <= length a -> 2 <= length b -> multiply a b = Ok p ->
  length a = length b.
Proof.
  intros Ha Hb. unfold multiply.
  destruct a as [|x [|x' a]]; simpl in Ha; try lia.
  destruct b as [|y [|y' b]]; simpl in Hb; try lia.
  destruct (Nat.eqb _ _) eqn:E; [|discriminate].
  intros _. now apply Nat.eqb_eq in E.
Qed.

Lemma mr_residuals_defined (N : nat) (ce co : @matrix F) (r_omr r_imr : F)
    (x : list F) :
  1 <= N -> square N ce -> square N co -> length x = 2 * N - 1 ->
  _multilateral_resistances x
    {| mr_number_of_countries := N;
       mr_omr_rescale := PyFloat r_omr; mr_imr_rescale := PyFloat r_imr;
       mr_cost_exp_shr := ce; mr_cost_out_shr := co |}
  = Ok (spec_mr_residuals N ce co (IMR N r_imr x) (OMR N r_omr x)).
Proof.
  intros HN Hce Hco Hx. unfold _multilateral_resistances. simpl.
  rewrite !scale_float. simpl.
  rewrite (firstn_table (N - 1)) by lia.
  rewrite (skipn_table (N - 1) N) by lia.
  rewrite !map_map.
  rewrite imr_table by exact HN. rewrite imr_table_lt.
  change (map (fun i => (nth (N - 1 + i) x nan * r_omr)%fl) (seq 0 N))
    with (map (OMR N r_omr x) (seq 0 N)).
  destruct (mr_families N ce co (IMR N r_imr x) (OMR N r_omr x) HN Hce Hco)
    as [H1 H2].
  rewrite H1. simpl. rewrite H2. reflexivity.
Qed.

(** X1.  With at least two countries the MR residual function is defined on
    the vectors of length [2N - 1] and on no others: a shorter vector runs
    out of OMR entries and a longer one cannot be multiplied with a column
    of the share matrix. *)
Theorem multilateral_resistances_domain
    (N : nat) (ce co : @matrix F) (r_omr r_imr : F) (x : list F) :
  2 <= N -> square N ce -> square N co ->
  (exists out,
     _multilateral_resistances x
       {| mr_number_of_countries := N;
          mr_omr_rescale := PyFloat r_omr; mr_imr_rescale := PyFloat r_imr;
          mr_cost_exp_shr := ce; mr_cost_out_shr := co |} = Ok out)
  <-> length x = 2 * N - 1.
Proof.
  intros HN Hce Hco. split.
  - intros [out H]. unfold _multilateral_resistances in H. simpl in H.
    rewrite !scale_float in H. simpl in H.
    set (x_imr := map (fun v => (v * r_imr)%fl) (firstn (N - 1) x)) in *.
    set (x_omr := map (fun v => (v * r_omr)%fl) (skipn (N - 1) x)) in *.
    apply rbind_ok_inv in H. destruct H as [o1 [H1 H]].
    apply rbind_ok_inv in H. destruct H as [o2 [H2 _]].
    assert (Hlen : length x_omr = length x - (N - 1)).
    { unfold x_omr. now rewrite length_map, length_skipn. }
    (* the last OMR equation reads x_omr[N - 1] *)
    assert (Hge : N <= length x_omr).
    { destruct (mapM_ok_inv _ _ _ H2 (N - 1)) as [b Hb].
      - apply in_seq. lia.
      - unfold mr_equation in Hb.
        apply rbind_ok_inv in Hb. destruct Hb as [vk [Hvk _]].
        apply getitem_ok_length in Hvk. lia. }
    (* the first IMR equation multiplies a column with x_omr *)
    destruct (mapM_ok_inv _ _ _ H1 0) as [b Hb].
    { apply in_seq. lia. }
    unfold mr_equation in Hb.
    apply rbind_ok_inv in Hb. destruct Hb as [vk [_ Hb]].
    rewrite (matrix_col_entries N co 0 Hco) in Hb by lia. simpl in Hb.
    apply rbind_ok_inv in Hb. destruct Hb as [prod [Hprod _]].
    apply multiply_ok_length in Hprod.
    + rewrite length_map, length_seq in Hprod. lia.
    + rewrite length_map, length_seq. lia.
    + lia.
  - intros Hx. eexists. apply mr_residuals_defined; auto. lia.
Qed.

(** The full-GE residual function reads only the first [3N - 1] entries of
    its argument. *)
Lemma full_ge_prefix (x : list F) (p : @GEParams F) :
  _full_ge x p = _full_ge (firstn (3 * ge_number_of_countries p - 1) x) p.
Proof.
  unfold _full_ge. set (N := ge_number_of_countries p).
  assert (H1 : firstn (N - 1) (firstn (3 * N - 1) x) = firstn (N - 1) x).
  { rewrite firstn_firstn. f_equal. lia. }
  assert (H2 : firstn N (skipn (N - 1) (firstn (3 * N - 1) x))
               = firstn N (skipn (N - 1) x)).
  { rewrite skipn_firstn_comm, firstn_firstn. f_equal. lia. }
  rewrite H1, H2.
  assert (Hprice : forall i, i < N ->
            getitem (skipn (2 * N - 1) (firstn (3 * N - 1) x)) i
            = getitem (skipn (2 * N - 1) x) i).
  { intros i Hi. unfold getitem.
    rewrite skipn_firstn_comm, nth_error_firstn.
    destruct (Nat.ltb_spec i (3 * N - 1 - (2 * N - 1))); [reflexivity|lia]. }
  destruct (scale (firstn (N - 1) x) (ge_imr_rescale p)) as [x_imr|e];
    [|reflexivity]. cbn [rbind].
  destruct (scale (firstn N (skipn (N - 1) x)) (ge_omr_rescale p))
    as [x_omr|e]; [|reflexivity]. cbn [rbind].
  destruct (mapM _ (seq 0 (N - 1))) as [out|e]; [|reflexivity]. cbn [rbind].
  destruct (mapM _ (seq 0 N)) as [out'|e]; [|reflexivity]. cbn [rbind].
  f_equal.
  apply mapM_ext_in. intros i Hi. apply in_seq in Hi.
  unfold price_equation. rewrite Hprice by lia. reflexivity.
Qed.

(** X2.  The full-GE residual function is defined on the vectors with at least
    [3N - 1] entries and on no others; unlike the MR residual function it
    accepts a vector that is too long and ignores the surplus. *)
Theorem full_ge_domain (N : nat) (sigma : F) (ce co : @matrix F)
    (r_omr r_imr : F) (output_shr factory_gate_param : list (@pyval F))
    (x : list F) :
  1 <= N -> square N ce -> square N co ->
  all_floats output_shr -> length output_shr = N ->
  all_floats factory_gate_param -> length factory_gate_param = N ->
  let ge_params :=
    {| ge_number_of_countries := N;
       ge_omr_rescale := PyFloat r_omr; ge_imr_rescale := PyFloat r_imr;
       ge_sigma := sigma;
       ge_cost_exp_shr := ce; ge_cost_out_shr := co;
       ge_output_shr := output_shr;
       ge_factory_gate_param := factory_gate_param |} in
  ((exists out, _full_ge x ge_params = Ok out) <-> 3 * N - 1 <= length x)
  /\ _full_ge x ge_params = _full_ge (firstn (3 * N - 1) x) ge_params.
Proof.
  intros HN Hce Hco Hos Hlos Hfg Hlfg ge_params.
  assert (Hprefix : _full_ge x ge_params
                    = _full_ge (firstn (3 * N - 1) x) ge_params).
  { exact (full_ge_prefix x ge_params). }
  split; [|exact Hprefix]. split.
  - intros [out H]. unfold _full_ge, ge_params in H. cbn [ge_number_of_countries
      ge_omr_rescale ge_imr_rescale ge_sigma ge_cost_exp_shr ge_cost_out_shr
      ge_output_shr ge_factory_gate_param] in H.
    apply rbind_ok_inv in H. destruct H as [x_imr [_ H]].
    apply rbind_ok_inv in H. destruct H as [x_omr [_ H]].
    apply rbind_ok_inv in H. destruct H as [o1 [_ H]].
    apply rbind_ok_inv in H. destruct H as [o2 [_ H]].
    apply rbind_ok_inv in H. destruct H as [o3 [H3 _]].
    destruct (mapM_ok_inv _ _ _ H3 (N - 1)) as [b Hb].
    { apply in_seq. lia. }
    unfold price_equation in Hb.
    apply rbind_ok_inv in Hb. destruct Hb as [s [_ Hb]].
    apply rbind_ok_inv in Hb. destruct Hb as [o [_ Hb]].
    apply rbind_ok_inv in Hb. destruct Hb as [sv [_ Hb]].
    apply rbind_ok_inv in Hb. destruct Hb as [bt [_ Hb]].
    apply rbind_ok_inv in Hb. destruct Hb as [pr [Hpr _]].
    apply getitem_ok_length in Hpr. rewrite length_skipn in Hpr. lia.
  - intros Hlen. rewrite Hprefix. eexists.
    apply full_ge_residuals; auto.
    rewrite length_firstn. lia.
Qed.

End ResidualDomains.

(** ** The domain of the MR residual function at the two-country economy *)

Lemma multilateral_resistances_domain_witness :
  (exists out,
     _multilateral_resistances [Some 2%R; Some 1%R; Some 1%R]
       {| mr_number_of_countries := 2;
          mr_omr_rescale := PyFloat (Some 1%R);
          mr_imr_rescale := PyFloat (Some 1%R);
          mr_cost_exp_shr := shares_AB; mr_cost_out_shr := shares_AB |}
     = Ok out)
  <-> 3 = 3.
Proof.
  apply (multilateral_resistances_domain 2 shares_AB shares_AB
           (Some 1%R) (Some 1%R) [Some 2%R; Some 1%R; Some 1%R]).
  - lia.
  - exact square_shares_AB.
  - exact square_shares_AB.
Defined.

(** ** What a method leaves alone *)

Section Frames.

Context {S : Type}.

(** A computation that never changes the observation [f] of the object,
    whether it returns or raises. *)
Definition keeps {A X} (f : S -> X) (c : M S A) : Prop :=
  forall s, f (snd (fst (c s))) = f s.

Lemma keeps_readonly {A X} (f : S -> X) (c : M S A) :
  readonly c -> keeps f c.
Proof. intros H s. now rewrite (H s). Qed.

Lemma keeps_ret {A X} (f : S -> X) (a : A) : keeps f (@ret S A a).
Proof. intros s. reflexivity. Qed.

Lemma keeps_raise {A X} (f : S -> X) (e : exn) : keeps f (@raise S A e).
Proof. intros s. reflexivity. Qed.

Lemma keeps_get {X} (f : S -> X) : keeps f (@get S).
Proof. intros s. reflexivity. Qed.

Lemma keeps_emit {X} (f : S -> X) (e : event) : keeps f (@emit S e).
Proof. intros s. reflexivity. Qed.

Lemma keeps_warn {X} (f : S -> X) (msg : string) : keeps f (@warn S msg).
Proof. intros s. reflexivity. Qed.

Lemma keeps_lift {A X} (f : S -> X) (r : result A) : keeps f (@lift S A r).
Proof. intros s. reflexivity. Qed.

Lemma keeps_modify {X} (f : S -> X) (g : S -> S) :
  (forall s, f (g s) = f s) -> keeps f (modify g).
Proof. intros H s. apply H. Qed.

Lemma keeps_bind {A B X} (f : S -> X) (c : M S A) (k : A -> M S B) :
  keeps f c -> (forall a, keeps f (k a)) -> keeps f (bind c k).
Proof.
  intros Hc Hk s. unfold bind. specialize (Hc s).
  destruct (c s) as [[[a|e] s1] log]; simpl in *; [|exact Hc].
  specialize (Hk a s1). destruct (k a s1) as [[r s2] log']. simpl in *.
  congruence.
Qed.

Lemma keeps_when {X} (f : S -> X) (b : bool) (c : M S unit) :
  keeps f c -> keeps f (when b c).
Proof. intros H. destruct b; [exact H|apply keeps_ret]. Qed.

Lemma keeps_for_each {A X} (f : S -> X) (l : list A) (body : A -> M S unit) :
  (forall a, keeps f (body a)) -> keeps f (for_each l body).
Proof.
  intros H. induction l as [|a l IH]; simpl.
  - apply keeps_ret.
  - apply keeps_bind; [apply H|]. intros _. exact IH.
Qed.

Lemma keeps_for_list {A B X} (f : S -> X) (l : list A) (body : A -> M S B) :
  (forall a, keeps f (body a)) -> keeps f (for_list l body).
Proof.
  intros H. induction l as [|a l IH]; simpl.
  - apply keeps_ret.
  - apply keeps_bind; [apply H|]. intros b.
    apply keeps_bind; [exact IH|]. intros bs. apply keeps_ret.
Qed.

Lemma keeps_for_fold {A B X} (f : S -> X) (l : list A) (acc : B)
    (body : B -> A -> M S B) :
  (forall b a, keeps f (body b a)) -> keeps f (for_fold l acc body).
Proof.
  intros H. revert acc. induction l as [|a l IH]; intros acc; simpl.
  - apply keeps_ret.
  - apply keeps_bind; [apply H|]. intros b. apply IH.
Qed.

Lemma keeps_zoom {P A X} (f : S -> X) (get_part : S -> result P)
    (set_part : P -> S -> S) (c : M P A) :
  (forall p s, f (set_part p s) = f s) -> keeps f (zoom get_part set_part c).
Proof.
  intros H s. unfold zoom. destruct (get_part s) as [p|e]; [|reflexivity].
  destruct (c p) as [[r p'] log]. simpl. apply H.
Qed.

Lemma keeps_on_object {P A X} (f : S -> X) (p : P) (c : M P A) :
  keeps f (@on_object S P A p c).
Proof.
  intros s. unfold on_object. now destruct (c p) as [[[a|e] p'] log].
Qed.

(** The outcome of a sequence, by the outcome of its first step. *)
Lemma bind_ok_inv {A B} (c : M S A) (k : A -> M S B) (s s' : S) (b : B)
    (log : list event) :
  bind c k s = (Ok b, s', log) ->
  exists a s1 l1 l2,
    c s = (Ok a, s1, l1) /\ k a s1 = (Ok b, s', l2) /\ log = l1 ++ l2.
Proof.
  unfold bind. destruct (c s) as [[[a|e] s1] l1]; [|discriminate].
  destruct (k a s1) as [[r s2] l2] eqn:Hk. intros H. inversion H; subst.
  now exists a, s1, l1, l2.
Qed.

(** An observation that a computation sets to [v] when it returns and
    leaves alone when it raises. *)
Definition sets_on_return {A X} (f : S -> X) (v : X) (c : M S A) : Prop :=
  forall s,
    match fst (fst (c s)) with
    | Ok _ => f (snd (fst (c s))) = v
    | Raise _ => f (snd (fst (c s))) = f s
    end.

Lemma sets_on_return_bind {A B X} (f : S -> X) (v : X) (c : M S A)
    (k : A -> M S B) :
  keeps f c -> (forall a, sets_on_return f v (k a)) ->
  sets_on_return f v (bind c k).
Proof.
  intros Hc Hk s. unfold bind. specialize (Hc s).
  destruct (c s) as [[[a|e] s1] log]; simpl in *; [|exact Hc].
  specialize (Hk a s1). destruct (k a s1) as [[[b|e] s2] log']; simpl in *;
    congruence.
Qed.

Lemma sets_on_return_modify {X} (f : S -> X) (v : X) (g : S -> S) :
  (forall s, f (g s) = v) -> sets_on_return f v (modify g).
Proof. intros H s. simpl. apply H. Qed.

Lemma sets_on_return_raise {A X} (f : S -> X) (v : X) (e : exn) :
  sets_on_return f v (@raise S A e).
Proof. intros s. reflexivity. Qed.

(** An observation that holds whenever the computation returns. *)
Definition ensures {A} (P : S -> Prop) (c : M S A) : Prop :=
  forall s a s' log, c s = (Ok a, s', log) -> P s'.

Lemma ensures_bind_last {A B} (P : S -> Prop) (c : M S A) (k : A -> M S B) :
  (forall a, ensures P (k a)) -> ensures P (bind c k).
Proof.
  intros Hk s b s' log H. apply bind_ok_inv in H.
  destruct H as [a [s1 [l1 [l2 [_ [H _]]]]]]. exact (Hk a s1 b s' l2 H).
Qed.

Lemma ensures_bind_first {A B X} (f : S -> X) (v : X) (c : M S A)
    (k : A -> M S B) :
  ensures (fun s => f s = v) c -> (forall a, keeps f (k a)) ->
  ensures (fun s => f s = v) (bind c k).
Proof.
  intros Hc Hk s b s' log H. apply bind_ok_inv in H.
  destruct H as [a [s1 [l1 [l2 [H1 [H2 _]]]]]].
  specialize (Hk a s1). rewrite H2 in Hk. simpl in Hk. rewrite Hk.
  exact (Hc s a s1 l1 H1).
Qed.

Lemma ensures_modify {X} (f : S -> X) (v : X) (g : S -> S) :
  (forall s, f (g s) = v) -> ensures (fun s => f s = v) (modify g).
Proof. intros H s a s' log E. inversion E; subst. apply H. Qed.

Lemma ensures_raise {A} (P : S -> Prop) (e : exn) : ensures P (@raise S A e).
Proof. intros s a s' log E. discriminate. Qed.

End Frames.

Create HintDb keeps.

#[export] Hint Resolve keeps_ret keeps_raise keeps_get keeps_emit keeps_warn
  keeps_lift keeps_on_object : keeps.

Ltac keeps_step :=
  first [ apply keeps_bind; [|intros ?]
        | apply keeps_for_list; intros ?
        | apply keeps_for_each; intros ?
        | apply keeps_for_fold; intros ? ?
        | apply keeps_when
        | apply keeps_modify; intros ?;
          first [reflexivity | solve [cbv beta; auto]]
        | apply keeps_zoom; intros ? ?; first [reflexivity | solve [auto]]
        | solve [auto with keeps]
        | match goal with
          | |- keeps _ (match ?x with _ => _ end) => destruct x
          | |- keeps _ (if ?b then _ else _) => destruct b
          | |- keeps _ (let _ := _ in _) => cbv zeta
          end ].

Section MethodFrames.

Context {F : Type} {AF : Arith F}.

Variable root :
  (list F -> result (list F)) -> list F -> @pyval F -> @pyval F -> option Z ->
  result (@OptimizeResult F).

Context {X : Type}.

(** An observation of the model that does not read the countries, the
    solver diagnostics, the economy or the result fields. *)
Variable f : @OneSectorGE F -> X.

Hypothesis f_country_set : forall v s, f (set_country_set v s) = f s.
Hypothesis f_solver_diagnostics :
  forall v s, f (set_solver_diagnostics v s) = f s.

Lemma keeps_set_country_attr (k a : string) (v : @pyval F) :
  keeps f (set_country_attr k a v).
Proof.
  unfold set_country_attr, in_country. apply keeps_zoom.
  intros p s. apply f_country_set.
Qed.

Lemma keeps_in_country {A} (k : string) (c : M (@Country F) A) :
  keeps f (in_country k c).
Proof.
  unfold in_country. apply keeps_zoom. intros p s. apply f_country_set.
Qed.

Lemma keeps_report (solved : @OptimizeResult F) : keeps f (report solved).
Proof. apply keeps_readonly. unfold report. repeat readonly_step. Qed.

Lemma keeps_calculate_multilateral_resistance
    (trade_costs : option (list (@CostRow F))) (version : string)
    (test inputs_only : bool) :
  keeps f (_calculate_multilateral_resistance root trade_costs version test
             inputs_only).
Proof.
  unfold _calculate_multilateral_resistance.
  apply keeps_bind; [apply keeps_get|]. intros self.
  apply keeps_bind; [apply keeps_readonly, readonly_mr_problem|].
  intros problem.
  destruct test.
  - destruct inputs_only; repeat keeps_step.
  - repeat first [ apply keeps_report
                 | apply keeps_set_country_attr
                 | apply keeps_modify; intros ?; apply f_solver_diagnostics
                 | keeps_step ].
Qed.

Lemma keeps_calculate_GEPPML_multilateral_resistance (version : string) :
  keeps f (_calculate_GEPPML_multilateral_resistance version).
Proof.
  unfold _calculate_GEPPML_multilateral_resistance.
  repeat first [ apply keeps_set_country_attr
               | apply keeps_readonly, readonly_country_attr
               | apply keeps_readonly, readonly_country
               | keeps_step ].
Qed.

Lemma keeps_calculate_baseline_factory_gate_params :
  keeps f _calculate_baseline_factory_gate_params.
Proof.
  unfold _calculate_baseline_factory_gate_params.
  repeat first [ apply keeps_set_country_attr
               | apply keeps_readonly, readonly_country_attr
               | keeps_step ].
Qed.

End MethodFrames.

Section StoredSettings.

Context {S : Type}.

(** An observation that has the value [v] after the computation, whether
    it returns or raises. *)
Definition leaves {A X} (f : S -> X) (v : X) (c : M S A) : Prop :=
  forall s, f (snd (fst (c s))) = v.

Lemma leaves_modify_then {B X} (f : S -> X) (v : X) (g : S -> S)
    (k : unit -> M S B) :
  (forall s, f (g s) = v) -> (forall a, keeps f (k a)) ->
  leaves f v (bind (modify g) k).
Proof.
  intros Hg Hk s. unfold bind, modify. specialize (Hk tt (g s)).
  destruct (k tt (g s)) as [[r s2] log']. simpl in *. now rewrite Hk.
Qed.

Lemma leaves_after_modify {B X} (f : S -> X) (v : X) (g : S -> S)
    (k : unit -> M S B) :
  (forall a, leaves f v (k a)) -> leaves f v (bind (modify g) k).
Proof.
  intros Hk s. unfold bind, modify. specialize (Hk tt (g s)).
  now destruct (k tt (g s)) as [[r s2] log'].
Qed.

End StoredSettings.

Section ReadOnlyCosts.

Context {F : Type} {AF : Arith F}.

Lemma readonly_create_trade_costs (data_set : option (@DataFrame F)) :
  readonly (_create_trade_costs data_set).
Proof.
  unfold _create_trade_costs.
  apply readonly_bind; [apply readonly_get|]. intros self.
  destruct data_set as [df|]; [|apply readonly_raise].
  repeat readonly_step.
Qed.

(** No method adds or removes a country: a method of a country is run on
    a key the dict has. *)
Lemma keeps_keys_in_country {A} (k : string) (c : M (@Country F) A) :
  keeps (fun s : @OneSectorGE F => keys (country_set s)) (in_country k c).
Proof.
  intros s. unfold in_country, zoom, lookup.
  destruct (dict_get (country_set s) k) as [c0|] eqn:E; [|reflexivity].
  destruct (c c0) as [[r p'] log]. simpl.
  apply keys_dict_set. congruence.
Qed.

Lemma keeps_keys_set_country_attr (k a : string) (v : @pyval F) :
  keeps (fun s : @OneSectorGE F => keys (country_set s))
        (set_country_attr k a v).
Proof. apply keeps_keys_in_country. Qed.

End ReadOnlyCosts.

(** Frames of the methods of the model: every step either leaves the
    observation alone, by computation or by a hypothesis in the context, or
    the tactic stops. *)
Ltac keeps_side := intros; first [reflexivity | solve [cbv beta; auto]].

Ltac keeps_model :=
  repeat first
    [ apply keeps_readonly, readonly_create_trade_costs
    | apply keeps_readonly, readonly_mr_problem
    | apply keeps_readonly, readonly_create_cost_output_expend_params
    | apply keeps_readonly, readonly_full_ge_problem
    | apply keeps_readonly, readonly_country_attr
    | apply keeps_readonly, readonly_country_float
    | apply keeps_readonly, readonly_country
    | apply keeps_keys_set_country_attr
    | apply keeps_keys_in_country
    | apply keeps_set_country_attr; keeps_side
    | apply keeps_in_country; keeps_side
    | apply keeps_report
    | keeps_step
    | progress unfold _calculate_multilateral_resistance,
        _calculate_GEPPML_multilateral_resistance,
        _calculate_baseline_factory_gate_params, _calculate_full_ge,
        _construct_experiment_output_expend, _construct_experiment_trade,
        _compile_results, in_economy ].

Section LifecycleFrames.

Context {F : Type} {AF : Arith F}.

Variable root :
  (list F -> result (list F)) -> list F -> @pyval F -> @pyval F -> option Z ->
  result (@OptimizeResult F).

Section BuildBaseline.

Context {X : Type}.
Variable f : @OneSectorGE F -> X.
Hypothesis f_omr_rescale : forall v s, f (set_omr_rescale v s) = f s.
Hypothesis f_imr_rescale : forall v s, f (set_imr_rescale v s) = f s.
Hypothesis f_mr_max_iter : forall v s, f (set_mr_max_iter v s) = f s.
Hypothesis f_mr_tolerance : forall v s, f (set_mr_tolerance v s) = f s.
Hypothesis f_mr_method : forall v s, f (set_mr_method v s) = f s.
Hypothesis f_country_set : forall v s, f (set_country_set v s) = f s.
Hypothesis f_solver_diagnostics :
  forall v s, f (set_solver_diagnostics v s) = f s.
Hypothesis f_baseline_built : forall v s, f (set_baseline_built v s) = f s.

Lemma keeps_build_baseline (omr_rescale imr_rescale mr_method : @pyval F)
    (mr_max_iter : option Z) (mr_tolerance : @pyval F) :
  keeps f (build_baseline root omr_rescale imr_rescale mr_method mr_max_iter
             mr_tolerance).
Proof. unfold build_baseline. keeps_model. Qed.

End BuildBaseline.

Lemma keeps_keys_build_baseline (omr_rescale imr_rescale mr_method : @pyval F)
    (mr_max_iter : option Z) (mr_tolerance : @pyval F) :
  keeps (fun s : @OneSectorGE F => keys (country_set s))
        (build_baseline root omr_rescale imr_rescale mr_method mr_max_iter
           mr_tolerance).
Proof. unfold build_baseline. keeps_model. Qed.

(** What [build_baseline] never touches. *)
Definition outside_build_baseline (s s' : @OneSectorGE F) : Prop :=
  _estimation_results s' = _estimation_results s
  /\ _year s' = _year s
  /\ sigma s' = sigma s
  /\ _reference_importer s' = _reference_importer s
  /\ _ge_method s' = _ge_method s
  /\ _ge_tolerance s' = _ge_tolerance s
  /\ _ge_max_iter s' = _ge_max_iter s
  /\ _economy s' = _economy s
  /\ baseline_trade_costs s' = baseline_trade_costs s
  /\ experiment_trade_costs s' = experiment_trade_costs s
  /\ cost_shock s' = cost_shock s
  /\ experiment_data s' = experiment_data s
  /\ approach s' = approach s
  /\ quiet s' = quiet s
  /\ bilateral_trade_results s' = bilateral_trade_results s
  /\ aggregate_trade_results s' = aggregate_trade_results s
  /\ factory_gate_prices s' = factory_gate_prices s
  /\ outputs_expenditures s' = outputs_expenditures s
  /\ country_results s' = country_results s
  /\ country_mr_terms s' = country_mr_terms s
  /\ _experiment_defined s' = _experiment_defined s
  /\ cost_variables s' = cost_variables s
  /\ cost_coeffs s' = cost_coeffs s
  /\ baseline_data s' = baseline_data s
  /\ keys (country_set s') = keys (country_set s).

(** X3.  [build_baseline] stores its five solver settings before it solves, so
    they are in the model even when the solve raises; [_baseline_built]
    becomes [True] exactly when the method returns, and is left as it was
    when it raises; the countries keep their keys and nothing but the
    settings, the countries, the solver diagnostics and the flag is
    assigned. *)
Theorem build_baseline_outcome
    (omr_rescale imr_rescale mr_method : @pyval F) (mr_max_iter : option Z)
    (mr_tolerance : @pyval F) (self : @OneSectorGE F) :
  let outcome := build_baseline root omr_rescale imr_rescale mr_method
                   mr_max_iter mr_tolerance self in
  let self' := snd (fst outcome) in
  (_omr_rescale self' = omr_rescale
   /\ _imr_rescale self' = imr_rescale
   /\ _mr_max_iter self' = mr_max_iter
   /\ _mr_tolerance self' = mr_tolerance
   /\ _mr_method self' = mr_method)
  /\ match fst (fst outcome) with
     | Ok _ => _baseline_built self' = true
     | Raise _ => _baseline_built self' = _baseline_built self
     end
  /\ outside_build_baseline self self'.
Proof.
  intros outcome self'. split; [|split].
  - unfold self', outcome.
    repeat split;
      match goal with
      | |- ?f (snd (fst (?c ?s))) = ?v =>
          generalize s; change (leaves f v c)
      end;
      unfold build_baseline;
      repeat first
        [ apply leaves_modify_then; [intros; reflexivity|intros ?; keeps_model]
        | apply leaves_after_modify; intros ? ].
  - unfold self', outcome.
    generalize self.
    change (sets_on_return (@_baseline_built F) true
              (build_baseline root omr_rescale imr_rescale mr_method
                 mr_max_iter mr_tolerance)).
    unfold build_baseline.
    repeat (apply sets_on_return_bind; [keeps_model|intros ?]).
    apply sets_on_return_modify. reflexivity.
  - unfold outside_build_baseline, self', outcome.
    repeat split;
      try (match goal with
           | |- ?f (snd (fst (?c ?s))) = ?f ?s =>
               apply (keeps_build_baseline f); intros; reflexivity
           end).
    apply keeps_keys_build_baseline.
Qed.

Section DefineExperiment.

Context {X : Type}.
Variable f : @OneSectorGE F -> X.
Hypothesis f_experiment_data : forall v s, f (set_experiment_data v s) = f s.
Hypothesis f_experiment_trade_costs :
  forall v s, f (set_experiment_trade_costs v s) = f s.
Hypothesis f_cost_shock : forall v s, f (set_cost_shock v s) = f s.
Hypothesis f_experiment_defined :
  forall v s, f (set_experiment_defined v s) = f s.

Lemma keeps_define_experiment (experiment_data : option (@DataFrame F)) :
  keeps f (define_experiment experiment_data).
Proof. unfold define_experiment. keeps_model. Qed.

End DefineExperiment.

(** [_create_trade_costs] does not read [experiment_data]. *)
Lemma create_trade_costs_experiment_data (data d : option (@DataFrame F))
    (self : @OneSectorGE F) :
  _create_trade_costs data (set_experiment_data d self)
  = match _create_trade_costs data self with
    | (r, _, log) => (r, set_experiment_data d self, log)
    end.
Proof.
  unfold _create_trade_costs, bind, get, lift, when, warn, emit, ret, raise.
  destruct data as [df|]; [|reflexivity].
  cbn [cost_variables cost_coeffs country_set set_experiment_data].
  destruct (mapM (column df) (cost_variables self)); [|reflexivity].
  destruct (mapM (lookup (cost_coeffs self)) (cost_variables self));
    [|reflexivity].
  repeat match goal with
         | |- context [if ?b then _ else _] => destruct b
         end; reflexivity.
Qed.

(** What [define_experiment] never touches. *)
Definition outside_define_experiment (s s' : @OneSectorGE F) : Prop :=
  _estimation_results s' = _estimation_results s
  /\ _year s' = _year s
  /\ sigma s' = sigma s
  /\ _reference_importer s' = _reference_importer s
  /\ _omr_rescale s' = _omr_rescale s
  /\ _imr_rescale s' = _imr_rescale s
  /\ _mr_max_iter s' = _mr_max_iter s
  /\ _mr_tolerance s' = _mr_tolerance s
  /\ _mr_method s' = _mr_method s
  /\ _ge_method s' = _ge_method s
  /\ _ge_tolerance s' = _ge_tolerance s
  /\ _ge_max_iter s' = _ge_max_iter s
  /\ country_set s' = country_set s
  /\ _economy s' = _economy s
  /\ baseline_trade_costs s' = baseline_trade_costs s
  /\ approach s' = approach s
  /\ quiet s' = quiet s
  /\ bilateral_trade_results s' = bilateral_trade_results s
  /\ aggregate_trade_results s' = aggregate_trade_results s
  /\ solver_diagnostics s' = solver_diagnostics s
  /\ factory_gate_prices s' = factory_gate_prices s
  /\ outputs_expenditures s' = outputs_expenditures s
  /\ country_results s' = country_results s
  /\ country_mr_terms s' = country_mr_terms s
  /\ _baseline_built s' = _baseline_built s
  /\ cost_variables s' = cost_variables s
  /\ cost_coeffs s' = cost_coeffs s
  /\ baseline_data s' = baseline_data s.

(** [define_experiment] on a built baseline, by the outcome of
    [_create_trade_costs]. *)
Lemma define_experiment_run (data : option (@DataFrame F))
    (self : @OneSectorGE F) :
  _baseline_built self = true ->
  define_experiment data self
  = match _create_trade_costs data self with
    | (Ok costs, _, log) =>
        (Ok tt,
         set_experiment_defined true
           (set_cost_shock
              (Some (filter
                 (fun r => negb (feqb (baseline_trade_cost r)
                                      (experiment_trade_cost r)))
                 (merge_outer (baseline_trade_costs self) costs)))
              (set_experiment_trade_costs (Some costs)
                 (set_experiment_data data self))),
         log)
    | (Raise e, _, log) =>
        (Raise e, set_experiment_data data self, log)
    end.
Proof.
  intros Hb. unfold define_experiment, bind, get, modify.
  rewrite Hb. cbn [negb].
  rewrite (create_trade_costs_experiment_data data data self).
  destruct (_create_trade_costs data self) as [[[costs|e] s1] log];
    cbn; [|reflexivity].
  now rewrite !app_nil_r.
Qed.

(** X4.  [define_experiment] on a built baseline stores the data it is given
    before it computes the trade costs, so the data is in the model even
    when the computation raises.  When it returns, [_experiment_defined] is
    [True] and [experiment_trade_costs] holds the costs
    [_create_trade_costs] computes from the data.  When it raises, the flag
    and the cost shock are as they were; the experiment trade costs are as
    they were when it is the sequencing check or [_create_trade_costs] that
    raised (an exception of the merge that follows would come after their
    assignment).  Called with its default argument ([None]) it always
    raises.  It assigns nothing but the experiment data, the experiment
    trade costs, the cost shock and the flag. *)
Theorem define_experiment_outcome (data : option (@DataFrame F))
    (self : @OneSectorGE F) :
  let outcome := define_experiment data self in
  let self' := snd (fst outcome) in
  (_baseline_built self = true -> experiment_data self' = data)
  /\ match fst (fst outcome) with
     | Ok _ =>
         _baseline_built self = true
         /\ _experiment_defined self' = true
         /\ exists costs,
              experiment_trade_costs self' = Some costs
              /\ fst (fst (_create_trade_costs data self)) = Ok costs
     | Raise _ =>
         _experiment_defined self' = _experiment_defined self
         /\ cost_shock self' = cost_shock self
     end
  /\ (_baseline_built self = false
      \/ (exists e, fst (fst (_create_trade_costs data self)) = Raise e) ->
      (exists e, fst (fst outcome) = Raise e)
      /\ experiment_trade_costs self' = experiment_trade_costs self)
  /\ (data = None -> exists e, fst (fst outcome) = Raise e)
  /\ outside_define_experiment self self'.
Proof.
  intros outcome self'.
  pose proof (define_experiment_run data self) as Hrun.
  fold outcome in Hrun.
  assert (Hguard : _baseline_built self = false ->
            outcome = (Raise (ValueError baseline_first_ge_model), self, [])).
  { intros Hb. unfold outcome, define_experiment, bind, get.
    now rewrite Hb. }
  split; [|split; [|split; [|split]]].
  - intros Hb. unfold self'. rewrite (Hrun Hb).
    now destruct (_create_trade_costs data self) as [[[costs|e] s1] log].
  - unfold self'. destruct (_baseline_built self) eqn:Hb.
    + rewrite (Hrun eq_refl).
      destruct (_create_trade_costs data self) as [[[costs|e] s1] log];
        cbn.
      * split; [reflexivity|]. split; [reflexivity|].
        exists costs. split; reflexivity.
      * repeat split.
    + rewrite (Hguard eq_refl). cbn. repeat split.
  - unfold self'. destruct (_baseline_built self) eqn:Hb.
    + intros [Hfalse|[e He]]; [discriminate|].
      rewrite (Hrun eq_refl).
      destruct (_create_trade_costs data self) as [[[costs|e'] s1] log];
        cbn in *; [discriminate|].
      split; [now exists e'|reflexivity].
    + intros _. rewrite (Hguard eq_refl). cbn.
      split; [eexists; reflexivity|reflexivity].
  - intros ->. destruct (_baseline_built self) eqn:Hb.
    + rewrite (Hrun eq_refl). cbn. eexists. reflexivity.
    + rewrite (Hguard eq_refl). eexists. reflexivity.
  - unfold outside_define_experiment, self', outcome.
    repeat split;
      match goal with
      | |- ?f (snd (fst (?c ?s))) = ?f ?s =>
          apply (keeps_define_experiment f); intros; reflexivity
      end.
Qed.

Section Simulate.

Context {X : Type}.
Variable f : @OneSectorGE F -> X.
Hypothesis f_ge_method : forall v s, f (set_ge_method v s) = f s.
Hypothesis f_ge_tolerance : forall v s, f (set_ge_tolerance v s) = f s.
Hypothesis f_ge_max_iter : forall v s, f (set_ge_max_iter v s) = f s.
Hypothesis f_country_set : forall v s, f (set_country_set v s) = f s.
Hypothesis f_economy : forall v s, f (set_economy v s) = f s.
Hypothesis f_solver_diagnostics :
  forall v s, f (set_solver_diagnostics v s) = f s.
Hypothesis f_factory_gate_prices :
  forall v s, f (set_factory_gate_prices v s) = f s.
Hypothesis f_outputs_expenditures :
  forall v s, f (set_outputs_expenditures v s) = f s.
Hypothesis f_bilateral_trade_results :
  forall v s, f (set_bilateral_trade_results v s) = f s.
Hypothesis f_aggregate_trade_results :
  forall v s, f (set_aggregate_trade_results v s) = f s.
Hypothesis f_country_results : forall v s, f (set_country_results v s) = f s.
Hypothesis f_country_mr_terms : forall v s, f (set_country_mr_terms v s) = f s.

Lemma keeps_simulate (ge_method ge_tolerance : @pyval F)
    (ge_max_iter : option Z) :
  keeps f (simulate root ge_method ge_tolerance ge_max_iter).
Proof. unfold simulate. keeps_model. Qed.

End Simulate.

Lemma keeps_keys_simulate (ge_method ge_tolerance : @pyval F)
    (ge_max_iter : option Z) :
  keeps (fun s : @OneSectorGE F => keys (country_set s))
        (simulate root ge_method ge_tolerance ge_max_iter).
Proof. unfold simulate. keeps_model. Qed.

(** What [simulate] never touches. *)
Definition outside_simulate (s s' : @OneSectorGE F) : Prop :=
  _estimation_results s' = _estimation_results s
  /\ _year s' = _year s
  /\ sigma s' = sigma s
  /\ _reference_importer s' = _reference_importer s
  /\ _omr_rescale s' = _omr_rescale s
  /\ _imr_rescale s' = _imr_rescale s
  /\ _mr_max_iter s' = _mr_max_iter s
  /\ _mr_tolerance s' = _mr_tolerance s
  /\ _mr_method s' = _mr_method s
  /\ baseline_trade_costs s' = baseline_trade_costs s
  /\ experiment_trade_costs s' = experiment_trade_costs s
  /\ cost_shock s' = cost_shock s
  /\ experiment_data s' = experiment_data s
  /\ approach s' = approach s
  /\ quiet s' = quiet s
  /\ _baseline_built s' = _baseline_built s
  /\ _experiment_defined s' = _experiment_defined s
  /\ cost_variables s' = cost_variables s
  /\ cost_coeffs s' = cost_coeffs s
  /\ baseline_data s' = baseline_data s
  /\ keys (country_set s') = keys (country_set s).

End LifecycleFrames.

(** What holds when a method returns: the assignment that establishes the
    observation is found, and the steps after it are shown to keep it. *)
Ltac ensures_model :=
  repeat first
    [ apply ensures_raise
    | apply ensures_modify; intros; reflexivity
    | apply ensures_bind_first;
      [ solve [ensures_model] | intros ?; solve [keeps_model] ]
    | apply ensures_bind_last; intros ?
    | match goal with
      | |- ensures _ (if ?b then _ else _) => destruct b
      | |- ensures _ (match ?x with _ => _ end) => destruct x
      end
    | progress unfold _calculate_full_ge,
        _construct_experiment_output_expend, _construct_experiment_trade,
        _compile_results ].

Section SimulateOutcome.

Context {F : Type} {AF : Arith F}.

Variable root :
  (list F -> result (list F)) -> list F -> @pyval F -> @pyval F -> option Z ->
  result (@OptimizeResult F).

(** The result fields of the model. *)
Definition results_populated (s : @OneSectorGE F) : Prop :=
  is_Some (bilateral_trade_results s) = true
  /\ is_Some (aggregate_trade_results s) = true
  /\ is_Some (factory_gate_prices s) = true
  /\ is_Some (outputs_expenditures s) = true
  /\ is_Some (country_results s) = true
  /\ is_Some (country_mr_terms s) = true.

Lemma simulate_populates (ge_method ge_tolerance : @pyval F)
    (ge_max_iter : option Z) (self self' : @OneSectorGE F)
    (log : list event) :
  simulate root ge_method ge_tolerance ge_max_iter self = (Ok tt, self', log) ->
  results_populated self'.
Proof.
  intros H. unfold results_populated.
  repeat split;
    match goal with
    | |- is_Some (?g self') = true =>
        revert H;
        generalize log; generalize self'; generalize tt; generalize self;
        change (ensures (fun s => (fun s => is_Some (g s)) s = true)
                  (simulate root ge_method ge_tolerance ge_max_iter))
    end;
    unfold simulate; ensures_model.
Qed.

Lemma simulate_stores_settings (ge_method ge_tolerance : @pyval F)
    (ge_max_iter : option Z) (self self' : @OneSectorGE F)
    (log : list event) :
  simulate root ge_method ge_tolerance ge_max_iter self = (Ok tt, self', log) ->
  _ge_method self' = ge_method
  /\ _ge_tolerance self' = ge_tolerance
  /\ _ge_max_iter self' = ge_max_iter.
Proof.
  intros H.
  repeat split;
    match goal with
    | |- ?g self' = ?v =>
        revert H;
        generalize log; generalize self'; generalize tt; generalize self;
        change (ensures (fun s => g s = v)
                  (simulate root ge_method ge_tolerance ge_max_iter))
    end;
    unfold simulate; ensures_model.
Qed.

(** X5.  A [simulate] that returns has stored its three solver settings and
    filled all six result fields.  On the model it leaves, [export_results]
    without a directory returns the tables and changes nothing, with a
    directory it writes exactly the three files
    [<directory>/<name>_country_results.csv], [..._bilateral_results.csv]
    and [..._solver_diagnostics.csv] and returns [None]; [trade_share]
    raises [KeyError] for the column ['importer'], whatever its
    arguments. *)
Theorem results_after_simulate (ge_method ge_tolerance : @pyval F)
    (ge_max_iter : option Z) (self self' : @OneSectorGE F)
    (log : list event) :
  simulate root ge_method ge_tolerance ge_max_iter self = (Ok tt, self', log) ->
  (_ge_method self' = ge_method
   /\ _ge_tolerance self' = ge_tolerance
   /\ _ge_max_iter self' = ge_max_iter)
  /\ results_populated self'
  /\ (forall name, exists exported,
        export_results None name self' = (Ok (Some exported), self', [])
        /\ exported_country_results exported = country_results self'
        /\ exported_country_mr_terms exported = country_mr_terms self'
        /\ exported_bilateral_results exported = bilateral_trade_results self'
        /\ exported_diagnostics exported = solver_diagnostics self')
  /\ (forall directory name,
        export_results (Some directory) name self'
        = (Ok None, self',
           [ WriteCsv (directory ++ "/" ++ name ++ "_country_results.csv");
             WriteCsv (directory ++ "/" ++ name ++ "_bilateral_results.csv");
             WriteCsv (directory ++ "/" ++ name ++ "_solver_diagnostics.csv") ]))
  /\ (forall importers exporters,
        trade_share importers exporters self'
        = (Raise (KeyError "importer"), self', [])).
Proof.
  intros H.
  pose proof (simulate_populates _ _ _ _ _ _ H) as Hpop.
  split; [exact (simulate_stores_settings _ _ _ _ _ _ H)|].
  split; [exact Hpop|].
  destruct Hpop as [Hb [Ha [Hf [Ho [Hc Hm]]]]].
  destruct (bilateral_trade_results self') as [b|] eqn:Eb; [|discriminate].
  destruct (aggregate_trade_results self') as [a|] eqn:Ea; [|discriminate].
  destruct (factory_gate_prices self') as [p|] eqn:Ef; [|discriminate].
  destruct (outputs_expenditures self') as [o|] eqn:Eo; [|discriminate].
  destruct (country_results self') as [c|] eqn:Ec; [|discriminate].
  destruct (country_mr_terms self') as [m|] eqn:Em; [|discriminate].
  split; [|split].
  - intros name. eexists. unfold export_results, bind, get.
    rewrite Eb, Ea, Ef, Eo, Ec, Em. cbn. split; [reflexivity|].
    repeat split.
  - intros directory name. unfold export_results, bind, get.
    rewrite Eb, Ea, Ef, Eo, Ec, Em. reflexivity.
  - intros importers exporters. unfold trade_share, bind, get.
    rewrite Eb. reflexivity.
Qed.

(** X6.  [simulate] never changes the trade costs, the data, the MR settings,
    the status flags or the keys of the country set, whether it returns
    or raises. *)
Theorem simulate_frame (ge_method ge_tolerance : @pyval F)
    (ge_max_iter : option Z) (self : @OneSectorGE F) :
  outside_simulate self
    (snd (fst (simulate root ge_method ge_tolerance ge_max_iter self))).
Proof.
  unfold outside_simulate.
  repeat split;
    try (match goal with
         | |- ?f (snd (fst (?c ?s))) = ?f ?s =>
             apply (keeps_simulate root f); intros; reflexivity
         end).
  apply keeps_keys_simulate.
Qed.

End SimulateOutcome.

Definition model_AB_ready : @OneSectorGE Rnan :=
  set_experiment_defined true (set_baseline_built true model_AB_simulated).

Lemma results_after_simulate_witness :
  exists self' log,
    simulate stalled_root (PyStr "hybr") tolerance (Some 1000%Z) model_AB_ready
    = (Ok tt, self', log)
    /\ results_populated self'
    /\ trade_share ["A"] ["B"] self' = (Raise (KeyError "importer"), self', []).
Proof.
  eexists. eexists.
  assert (H : simulate stalled_root (PyStr "hybr") tolerance (Some 1000%Z)
                model_AB_ready
              = (Ok tt,
                 snd (fst (simulate stalled_root (PyStr "hybr") tolerance
                             (Some 1000%Z) model_AB_ready)),
                 snd (simulate stalled_root (PyStr "hybr") tolerance
                        (Some 1000%Z) model_AB_ready))).
  { vm_compute. reflexivity. }
  split; [exact H|].
  destruct (results_after_simulate stalled_root _ _ _ _ _ _ H)
    as [_ [Hpop [_ [_ Hshare]]]].
  split; [exact Hpop|apply Hshare].
Defined.

(** ** Methods that cannot return *)

Section NeverReturns.

Context {S : Type}.

(** The computation raises on the object [s]. *)
Definition raises_on {A} (c : M S A) (s : S) : Prop :=
  exists e s' log, c s = (Raise e, s', log).

Lemma raises_on_raise {A} (e : exn) (s : S) : raises_on (@raise S A e) s.
Proof. now exists e, s, []. Qed.

Lemma raises_on_bind {A B} (c : M S A) (k : A -> M S B) (s : S) :
  (forall a s1 l, c s = (Ok a, s1, l) -> raises_on (k a) s1) ->
  raises_on (bind c k) s.
Proof.
  intros H. unfold raises_on, bind.
  destruct (c s) as [[[a|e] s1] l] eqn:Hc.
  - destruct (H a s1 l eq_refl) as [e [s' [log Hk]]]. rewrite Hk.
    now exists e, s', (l ++ log).
  - now exists e, s1, l.
Qed.

Lemma raises_on_bind_first {A B} (c : M S A) (k : A -> M S B) (s : S) :
  raises_on c s -> raises_on (bind c k) s.
Proof.
  intros [e [s' [log H]]]. exists e, s', log. unfold bind. now rewrite H.
Qed.

Lemma mapM_raises {A B} (f : A -> result B) (l : list A) (a : A) :
  In a l -> (exists e, f a = Raise e) -> exists e, mapM f l = Raise e.
Proof.
  intros Hin [e He]. induction l as [|a0 l IH]; [contradiction|]. simpl.
  destruct Hin as [->|Hin].
  - rewrite He. now exists e.
  - destruct (f a0) as [b|e0]; [|now exists e0].
    destruct (IH Hin) as [e1 ->]. now exists e1.
Qed.

(** A loop of reads that returns has read every element in the state it
    started from. *)
Lemma for_list_reads_inv {A B} (l : list A) (body : A -> M S B) (s s' : S)
    (bs : list B) (log : list event) :
  (forall a, readonly (body a)) ->
  for_list l body s = (Ok bs, s', log) ->
  s' = s /\ Forall2 (fun a b => fst (fst (body a s)) = Ok b) l bs.
Proof.
  intros Hro. revert bs log. induction l as [|a l IH]; simpl; intros bs log H.
  - inversion H; subst. split; [reflexivity|constructor].
  - apply bind_ok_inv in H. destruct H as [b [s1 [l1 [l2 [Hb [H _]]]]]].
    apply bind_ok_inv in H. destruct H as [bs' [s2 [l3 [l4 [Hbs [H _]]]]]].
    inversion H; subst.
    pose proof (Hro a s) as Hs1. rewrite Hb in Hs1. simpl in Hs1. subst s1.
    destruct (IH _ _ Hbs) as [-> Hall].
    split; [reflexivity|]. constructor; [now rewrite Hb|exact Hall].
Qed.

End NeverReturns.

Lemma Forall2_In_l {A B} (R : A -> B -> Prop) (l : list A) (l' : list B)
    (a : A) :
  Forall2 R l l' -> In a l -> exists b, In b l' /\ R a b.
Proof.
  induction 1 as [|x y l l' Hxy _ IH]; intros Hin; [contradiction|].
  destruct Hin as [->|Hin].
  - exists y. split; [now left|exact Hxy].
  - destruct (IH Hin) as [b [Hb HR]]. exists b. split; [now right|exact HR].
Qed.

Section GEPPMLSimulate.

Context {F : Type} {AF : Arith F}.

Variable root :
  (list F -> result (list F)) -> list F -> @pyval F -> @pyval F -> option Z ->
  result (@OptimizeResult F).

(** The full GE solve cannot be set up while a country has no
    conditional IMR: the initial guess divides it by the rescale factor. *)
Lemma full_ge_problem_raises (self : @OneSectorGE F) (k : string) :
  In k (keys (country_set self)) ->
  stored self k "conditional_imr" = Some PyNone ->
  raises_on full_ge_problem self.
Proof.
  intros Hk Hnone. unfold full_ge_problem.
  apply raises_on_bind. intros self0 s1 l Hget.
  inversion Hget; subst self0 s1 l. clear Hget.
  apply raises_on_bind. intros built s1 l Hbuilt.
  assert (s1 = self) as ->.
  { pose proof (readonly_create_cost_output_expend_params
                  (experiment_trade_costs self) self) as H.
    now rewrite Hbuilt in H. }
  apply raises_on_bind. intros inputs s1 l2 Hinputs.
  apply for_list_reads_inv in Hinputs.
  2:{ intros c. repeat first [apply readonly_country_attr | readonly_step]. }
  destruct Hinputs as [-> Hall].
  apply raises_on_bind_first.
  assert (Hin : In k (sorted (keys (country_set self)))).
  { apply (Permutation_in _ (sorted_Permutation _)). exact Hk. }
  destruct (Forall2_In_l _ _ _ _ Hall Hin) as [b [Hb Hread]].
  assert (Hfst : fst (fst b) = PyNone).
  { unfold bind in Hread.
    rewrite (country_attr_run self k "conditional_imr" PyNone Hnone) in Hread.
    destruct (country_attr k "conditional_omr" self) as [[[o|e] s2] l3];
      [|discriminate].
    destruct (country_attr k "baseline_output_share" s2) as [[[sh|e] s3] l4];
      [|discriminate].
    destruct (country_attr k "factory_gate_price_param" s3)
      as [[[p|e] s4] l5]; [|discriminate].
    simpl in Hread. inversion Hread. reflexivity. }
  destruct (mapM_raises (divide_by (_imr_rescale self))
              (map (fun r => fst (fst r)) inputs) PyNone) as [e He].
  - rewrite <- Hfst.
    exact (in_map (fun r : @pyval F * @pyval F * (@pyval F * @pyval F) =>
                     fst (fst r)) inputs b Hb).
  - exists unsupported_operand. reflexivity.
  - exists e, self, []. unfold lift, ge_initial_values. now rewrite He.
Qed.

(** X7.  With [approach = 'GEPPML'], [simulate] cannot return on a model in
    which some country has no conditional IMR ([None], as the constructor
    leaves it): the GEPPML branch of the conditional step assigns none,
    and the full GE solve divides the conditional IMR of every country by
    the rescale factor.  Whatever the solver and the settings, the method
    raises. *)
Theorem simulate_GEPPML_raises (ge_method ge_tolerance : @pyval F)
    (ge_max_iter : option Z) (self : @OneSectorGE F) (k : string) :
  approach self = Some "GEPPML" ->
  In k (keys (country_set self)) ->
  stored self k "conditional_imr" = Some PyNone ->
  exists e self' log,
    simulate root ge_method ge_tolerance ge_max_iter self
    = (Raise e, self', log).
Proof.
  intros Happroach Hk Hnone.
  change (raises_on (simulate root ge_method ge_tolerance ge_max_iter) self).
  unfold simulate.
  apply raises_on_bind. intros self0 s1 l Hget.
  inversion Hget; subst self0 s1 l. clear Hget.
  destruct (negb (_baseline_built self)); [apply raises_on_raise|].
  destruct (negb (_experiment_defined self)); [apply raises_on_raise|].
  apply raises_on_bind. intros [] s1 l H1. inversion H1; subst s1 l. clear H1.
  apply raises_on_bind. intros [] s2 l H2. inversion H2; subst s2 l. clear H2.
  apply raises_on_bind. intros [] s3 l H3. inversion H3; subst s3 l. clear H3.
  set (s := set_ge_max_iter ge_max_iter
              (set_ge_tolerance ge_tolerance (set_ge_method ge_method self))).
  rewrite Happroach. cbn [is_GEPPML].
  replace (String.eqb "GEPPML" "GEPPML") with true by reflexivity.
  apply raises_on_bind. intros [] s4 l H4.
  assert (s4 = s) as ->.
  { unfold _calculate_GEPPML_multilateral_resistance, bind, get, when in H4.
    replace (String.eqb "conditional" "baseline") with false in H4
      by reflexivity.
    replace (String.eqb "conditional" "conditional") with true in H4
      by reflexivity.
    cbn [ret] in H4.
    destruct (experiment_data s); cbn in H4;
      [destruct (experiment_trade_costs self); cbn in H4|];
      inversion H4; reflexivity. }
  apply raises_on_bind_first.
  unfold _calculate_full_ge.
  apply raises_on_bind. intros self0 s1 l0 Hget.
  inversion Hget; subst self0 s1 l0. clear Hget.
  apply raises_on_bind_first.
  apply (full_ge_problem_raises s k); assumption.
Qed.

End GEPPMLSimulate.

(** ** Console output *)

(** The lines a log prints. *)
Definition prints (log : list event) : list string :=
  flat_map (fun e => match e with Print msg => [msg] | _ => [] end) log.

Lemma prints_app (l1 l2 : list event) :
  prints (l1 ++ l2) = prints l1 ++ prints l2.
Proof. apply flat_map_app. Qed.

Section Printless.

Context {S : Type}.

(** A computation that prints nothing. *)
Definition printless {A} (c : M S A) : Prop :=
  forall s, prints (snd (c s)) = [].

Lemma printless_bind {A B} (c : M S A) (k : A -> M S B) :
  printless c -> (forall a, printless (k a)) -> printless (bind c k).
Proof.
  intros Hc Hk s. unfold bind. specialize (Hc s).
  destruct (c s) as [[[a|e] s1] log]; simpl in *; [|exact Hc].
  specialize (Hk a s1). destruct (k a s1) as [[r s2] log']. simpl in *.
  now rewrite prints_app, Hc, Hk.
Qed.

Lemma printless_when (b : bool) (c : M S unit) :
  printless c -> printless (when b c).
Proof. intros H. destruct b; [exact H|intros s; reflexivity]. Qed.

Lemma printless_for_each {A} (l : list A) (body : A -> M S unit) :
  (forall a, printless (body a)) -> printless (for_each l body).
Proof.
  intros H. induction l as [|a l IH]; simpl.
  - intros s. reflexivity.
  - apply printless_bind; [apply H|]. intros _. exact IH.
Qed.

Lemma printless_for_list {A B} (l : list A) (body : A -> M S B) :
  (forall a, printless (body a)) -> printless (for_list l body).
Proof.
  intros H. induction l as [|a l IH]; simpl.
  - intros s. reflexivity.
  - apply printless_bind; [apply H|]. intros b.
    apply printless_bind; [exact IH|]. intros bs s. reflexivity.
Qed.

Lemma printless_for_fold {A B} (l : list A) (acc : B)
    (body : B -> A -> M S B) :
  (forall b a, printless (body b a)) -> printless (for_fold l acc body).
Proof.
  intros H. revert acc. induction l as [|a l IH]; intros acc; simpl.
  - intros s. reflexivity.
  - apply printless_bind; [apply H|]. intros b. apply IH.
Qed.

Lemma printless_zoom {P A} (get_part : S -> result P)
    (set_part : P -> S -> S) (c : M P A) :
  (forall p, prints (snd (c p)) = []) -> printless (zoom get_part set_part c).
Proof.
  intros H s. unfold zoom. destruct (get_part s) as [p|e]; [|reflexivity].
  specialize (H p). now destruct (c p) as [[r p'] log].
Qed.

Lemma printless_on_object {P A} (p : P) (c : M P A) :
  prints (snd (c p)) = [] -> printless (@on_object S P A p c).
Proof.
  intros H s. unfold on_object. now destruct (c p) as [[[a|e] p'] log].
Qed.

End Printless.

Ltac printless_step :=
  first [ apply printless_bind; [|intros ?]
        | apply printless_when
        | apply printless_for_each; intros ?
        | apply printless_for_list; intros ?
        | apply printless_for_fold; intros ? ?
        | apply printless_zoom; intros ?
        | solve [intros ?; reflexivity]
        | match goal with
          | |- prints (snd (?c ?p)) = [] =>
              generalize p; change (printless c)
          | |- printless (match ?x with _ => _ end) => destruct x
          | |- printless (if ?b then _ else _) => destruct b
          end
        | progress unfold _create_cost_output_expend_params, mr_problem,
            full_ge_problem, _create_trade_costs, country_float,
            pair_gravity, set_country_attr, in_country, in_economy,
            construct_terms_of_trade, setattr, attr,
            _calculate_GEPPML_multilateral_resistance,
            _calculate_baseline_factory_gate_params,
            _construct_experiment_output_expend,
            _construct_experiment_trade, _compile_results ].

Ltac printless_model := repeat printless_step.

Section Quiet.

Context {F : Type} {AF : Arith F}.

(** On a quiet model the computation prints nothing and leaves the model
    quiet. *)
Definition quietly {A} (c : M (@OneSectorGE F) A) : Prop :=
  forall s, quiet s = true ->
    prints (snd (c s)) = [] /\ quiet (snd (fst (c s))) = true.

Lemma quietly_of_printless {A} (c : M (@OneSectorGE F) A) :
  printless c -> keeps (@quiet F) c -> quietly c.
Proof. intros Hp Hk s Hq. split; [apply Hp|now rewrite Hk]. Qed.

Lemma quietly_bind {A B} (c : M (@OneSectorGE F) A)
    (k : A -> M (@OneSectorGE F) B) :
  quietly c -> (forall a, quietly (k a)) -> quietly (bind c k).
Proof.
  intros Hc Hk s Hq. unfold bind. destruct (Hc s Hq) as [Hp Hq1].
  destruct (c s) as [[[a|e] s1] log]; simpl in *; [|now split].
  destruct (Hk a s1 Hq1) as [Hp2 Hq2].
  destruct (k a s1) as [[r s2] log']. simpl in *.
  now rewrite prints_app, Hp, Hp2.
Qed.

Lemma quietly_get_bind {B} (k : @OneSectorGE F -> M (@OneSectorGE F) B) :
  (forall self, quiet self = true -> quietly (k self)) ->
  quietly (bind get k).
Proof.
  intros Hk s Hq. unfold bind, get.
  destruct (Hk s Hq s Hq) as [Hp Hq2].
  now destruct (k s s) as [[r s2] log'].
Qed.

Lemma quietly_when_quiet (self : @OneSectorGE F)
    (c : M (@OneSectorGE F) unit) :
  quiet self = true -> quietly (when (negb (quiet self)) c).
Proof. intros ->. intros s Hq. now split. Qed.

Lemma quietly_for_each {A} (l : list A)
    (body : A -> M (@OneSectorGE F) unit) :
  (forall a, quietly (body a)) -> quietly (for_each l body).
Proof.
  intros H. induction l as [|a l IH]; simpl.
  - intros s Hq. now split.
  - apply quietly_bind; [apply H|]. intros _. exact IH.
Qed.

Lemma quietly_for_list {A B} (l : list A)
    (body : A -> M (@OneSectorGE F) B) :
  (forall a, quietly (body a)) -> quietly (for_list l body).
Proof.
  intros H. induction l as [|a l IH]; simpl.
  - intros s Hq. now split.
  - apply quietly_bind; [apply H|]. intros b.
    apply quietly_bind; [exact IH|]. intros bs s Hq. now split.
Qed.

End Quiet.

Ltac quietly_model :=
  repeat first
    [ apply quietly_when_quiet; assumption
    | apply quietly_of_printless; [solve [printless_model]|solve [keeps_model]]
    | apply quietly_get_bind; intros ? ?
    | apply quietly_bind; [|intros ?]
    | apply quietly_for_each; intros ?
    | apply quietly_for_list; intros ?
    | match goal with
      | |- quietly (match ?x with _ => _ end) => destruct x
      | |- quietly (if ?b then _ else _) => destruct b
      end
    | progress unfold _calculate_multilateral_resistance, report,
        _calculate_full_ge ].

Section QuietMethods.

Context {F : Type} {AF : Arith F}.

Variable root :
  (list F -> result (list F)) -> list F -> @pyval F -> @pyval F -> option Z ->
  result (@OptimizeResult F).
Variable array_max array_mean median : list F -> result F.
Variable format_number : F -> string.

Lemma quietly_build_baseline
    (omr_rescale imr_rescale mr_method : @pyval F) (mr_max_iter : option Z)
    (mr_tolerance : @pyval F) :
  quietly (build_baseline root omr_rescale imr_rescale mr_method mr_max_iter
             mr_tolerance).
Proof. unfold build_baseline. quietly_model. Qed.

Lemma quietly_define_experiment (data : option (@DataFrame F)) :
  quietly (define_experiment data).
Proof. unfold define_experiment. quietly_model. Qed.

Lemma quietly_simulate (ge_method ge_tolerance : @pyval F)
    (ge_max_iter : option Z) :
  quietly (simulate root ge_method ge_tolerance ge_max_iter).
Proof. unfold simulate. quietly_model. Qed.

Lemma quietly_check_omr_rescale (omr_rescale_range : Z)
    (mr_method : @pyval F) (mr_max_iter : option Z) (mr_tolerance : @pyval F)
    (countries : list string) :
  quietly (check_omr_rescale root array_max array_mean median format_number
             omr_rescale_range mr_method mr_max_iter mr_tolerance countries).
Proof. unfold check_omr_rescale. quietly_model. Qed.

(** X8.  On a model built with [quiet=True] none of [build_baseline],
    [define_experiment], [simulate] and [check_omr_rescale] prints
    anything, whatever the solver returns and whether the method returns
    or raises; warnings are still issued. *)
Theorem quiet_suppresses_prints (self : @OneSectorGE F) :
  quiet self = true ->
  (forall omr_rescale imr_rescale mr_method mr_max_iter mr_tolerance,
     prints (snd (build_baseline root omr_rescale imr_rescale mr_method
                    mr_max_iter mr_tolerance self)) = [])
  /\ (forall data, prints (snd (define_experiment data self)) = [])
  /\ (forall ge_method ge_tolerance ge_max_iter,
        prints (snd (simulate root ge_method ge_tolerance ge_max_iter self))
        = [])
  /\ (forall omr_rescale_range mr_method mr_max_iter mr_tolerance countries,
        prints (snd (check_omr_rescale root array_max array_mean median
                       format_number omr_rescale_range mr_method mr_max_iter
                       mr_tolerance countries self)) = []).
Proof.
  intros Hq. repeat split; intros.
  - now apply quietly_build_baseline.
  - now apply quietly_define_experiment.
  - now apply quietly_simulate.
  - now apply quietly_check_omr_rescale.
Qed.

End QuietMethods.

(** ** The diagnostic of the MR function *)

Section TestFunction.

Context {F : Type} {AF : Arith F}.

Variable root :
  (list F -> result (list F)) -> list F -> @pyval F -> @pyval F -> option Z ->
  result (@OptimizeResult F).

Lemma scale_None_raises (l : list F) :
  l <> [] -> scale l PyNone = Raise unsupported_operand.
Proof. destruct l as [|v l]; [congruence|reflexivity]. Qed.

(** Without rescale factors the MR residual function raises on every
    non-empty vector. *)
Lemma multilateral_resistances_unscaled (p : @MRParams F) (x : list F) :
  mr_imr_rescale p = PyNone -> mr_omr_rescale p = PyNone -> x <> [] ->
  _multilateral_resistances x p = Raise unsupported_operand.
Proof.
  intros Hi Ho Hx. unfold _multilateral_resistances. rewrite Hi, Ho.
  destruct (firstn (mr_number_of_countries p - 1) x) as [|v l] eqn:E.
  - cbn [scale mapM rbind].
    assert (Hs : skipn (mr_number_of_countries p - 1) x = x).
    { rewrite <- (firstn_skipn (mr_number_of_countries p - 1) x) at 2.
      now rewrite E. }
    rewrite Hs, (scale_None_raises x Hx). reflexivity.
  - rewrite scale_None_raises by discriminate. reflexivity.
Qed.

(** X9.  [test_baseline_mr_function] never changes the model and never calls
    the root finder.  On a model that has its share matrices it returns
    the all-ones vector of length [2N - 1] as initial values; asked for
    the function value too, it raises [TypeError] as long as
    [build_baseline] has not stored the rescale factors, and returns the
    residuals at the initial values once both are numbers. *)
Theorem test_baseline_mr_function_diagnostics (self : @OneSectorGE F)
    (p : @MRParams F) (x0 : list F) :
  let N := length (keys (country_set self)) in
  1 <= N ->
  fst (fst (mr_problem (Some (baseline_trade_costs self)) self)) = Ok (p, x0) ->
  (forall inputs_only,
     snd (fst (test_baseline_mr_function root inputs_only self)) = self)
  /\ (forall root' inputs_only,
        test_baseline_mr_function root' inputs_only self
        = test_baseline_mr_function root inputs_only self)
  /\ x0 = repeat 1%fl (2 * N - 1)
  /\ fst (fst (test_baseline_mr_function root true self))
     = Ok (Some {| td_initial_values := x0; td_mr_params := p;
                   td_function_value := None |})
  /\ (_imr_rescale self = PyNone -> _omr_rescale self = PyNone ->
      fst (fst (test_baseline_mr_function root false self))
      = Raise unsupported_operand)
  /\ (forall r_imr r_omr,
        _imr_rescale self = PyFloat r_imr -> _omr_rescale self = PyFloat r_omr ->
        square N (mr_cost_exp_shr p) -> square N (mr_cost_out_shr p) ->
        fst (fst (test_baseline_mr_function root false self))
        = Ok (Some {| td_initial_values := x0; td_mr_params := p;
                      td_function_value :=
                        Some (spec_mr_residuals N (mr_cost_exp_shr p)
                                (mr_cost_out_shr p) (IMR N r_imr x0)
                                (OMR N r_omr x0)) |})).
Proof.
  intros N HN Hp.
  destruct (mr_problem_fields _ _ _ _ Hp) as [Hn [Himr [Homr Hx0]]].
  pose proof (readonly_run _ self (p, x0)
                (readonly_mr_problem (Some (baseline_trade_costs self))) Hp)
    as Hrun.
  assert (Hunfold : forall inputs_only,
            test_baseline_mr_function root inputs_only self
            = after (snd (mr_problem (Some (baseline_trade_costs self)) self))
                (if inputs_only then
                   (Ok (Some {| td_initial_values := x0; td_mr_params := p;
                                td_function_value := None |}), self, [])
                 else
                   match _multilateral_resistances x0 p with
                   | Ok value =>
                       (Ok (Some {| td_initial_values := x0;
                                    td_mr_params := p;
                                    td_function_value := Some value |}),
                        self, [])
                   | Raise e => (Raise e, self, [])
                   end)).
  { intros inputs_only.
    unfold test_baseline_mr_function, _calculate_multilateral_resistance.
    unfold bind at 1. unfold get at 1. cbn iota beta.
    unfold bind at 1. unfold get at 1. cbn iota beta.
    rewrite (bind_run _ _ _ _ _ _ Hrun). cbn [fst snd].
    destruct inputs_only; [reflexivity|].
    unfold bind, lift, ret.
    destruct (_multilateral_resistances x0 p); reflexivity. }
  split; [|split; [|split; [|split; [|split]]]].
  - intros inputs_only. rewrite Hunfold.
    destruct inputs_only; simpl; [reflexivity|].
    now destruct (_multilateral_resistances x0 p).
  - intros root' inputs_only. reflexivity.
  - exact Hx0.
  - rewrite Hunfold. reflexivity.
  - intros Hi Ho. rewrite Hunfold.
    rewrite multilateral_resistances_unscaled.
    + reflexivity.
    + congruence.
    + congruence.
    + rewrite Hx0. unfold mr_initial_values.
      destruct (2 * length (keys (country_set self)) - 1) eqn:E;
        [fold N in E; lia|discriminate].
  - intros r_imr r_omr Hi Ho Hce Hco. rewrite Hunfold.
    assert (Hparams : p = {| mr_number_of_countries := N;
                             mr_omr_rescale := PyFloat r_omr;
                             mr_imr_rescale := PyFloat r_imr;
                             mr_cost_exp_shr := mr_cost_exp_shr p;
                             mr_cost_out_shr := mr_cost_out_shr p |}).
    { unfold N. destruct p as [n o i ce co]. simpl in *.
      f_equal; congruence. }
    rewrite Hparams at 1.
    rewrite mr_residuals_defined; auto.
    rewrite Hx0. unfold mr_initial_values. apply repeat_length.
Qed.

End TestFunction.

(** ** The economy *)

Section EconomyTotals.

Context {F : Type} {AF : Arith F}.

(** The float an attribute of an object holds. *)
Definition object_float (o : @pyobject F) (a : string) : F :=
  match dict_get o a with
  | Some (PyFloat v) => v
  | _ => nan
  end.

(** Every country of the set has its baseline output and expenditure. *)
Definition has_output_and_expenditure (c : @Country F) : Prop :=
  (exists o, dict_get c "baseline_output" = Some (PyFloat o))
  /\ (exists e, dict_get c "baseline_expenditure" = Some (PyFloat e)).

Lemma fold_left_fadd_app (l : list F) (a v : F) :
  fold_left fadd (l ++ [v]) a = (fold_left fadd l a + v)%fl.
Proof. now rewrite fold_left_app. Qed.

(** The loop of [initialize_baseline_total_output_expend], from the
    totals [to] and [te] on. *)
Lemma totals_loop (cs : dict (@Country F)) (economy : @Economy F) (to te : F) :
  Forall (fun kc => has_output_and_expenditure (snd kc)) cs ->
  (fix loop (cs : list (string * @Country F)) (total_output total_expenditure : F)
     {struct cs} : result (F * F) :=
     match cs with
     | [] => Ok (total_output, total_expenditure)
     | (_, c) :: cs' =>
         (o <- getattr c "baseline_output" ;;
          ov <- as_float o ;;
          e <- getattr c "baseline_expenditure" ;;
          ev <- as_float e ;;
          loop cs' (total_output + ov)%fl (total_expenditure + ev)%fl)%result
     end) cs to te
  = Ok (fold_left fadd
          (map (fun kc => object_float (snd kc) "baseline_output") cs) to,
        fold_left fadd
          (map (fun kc => object_float (snd kc) "baseline_expenditure") cs) te).
Proof.
  revert to te. induction cs as [|[k c] cs IH]; intros to te Hall.
  - reflexivity.
  - inversion Hall as [|? ? Hc Hall']; subst.
    destruct Hc as [[o Ho] [e He]]. simpl in Ho, He.
    assert (Eo : object_float c "baseline_output" = o).
    { unfold object_float. now rewrite Ho. }
    assert (Ee : object_float c "baseline_expenditure" = e).
    { unfold object_float. now rewrite He. }
    cbn [map fold_left snd]. rewrite Eo, Ee. unfold getattr.
    rewrite Ho, He. cbn [rbind as_float]. apply IH. exact Hall'.
Qed.

Lemma totals_loop_raises (cs : dict (@Country F)) (to te : F) :
  Exists (fun kc => ~ has_output_and_expenditure (snd kc)) cs ->
  exists e,
    (fix loop (cs : list (string * @Country F))
       (total_output total_expenditure : F) {struct cs} : result (F * F) :=
       match cs with
       | [] => Ok (total_output, total_expenditure)
       | (_, c) :: cs' =>
           (o <- getattr c "baseline_output" ;;
            ov <- as_float o ;;
            e <- getattr c "baseline_expenditure" ;;
            ev <- as_float e ;;
            loop cs' (total_output + ov)%fl (total_expenditure + ev)%fl)%result
       end) cs to te
    = Raise e.
Proof.
  revert to te. induction cs as [|[k c] cs IH]; intros to te Hex.
  - inversion Hex.
  - unfold getattr.
    destruct (dict_get c "baseline_output") as [[|o|s]|] eqn:Ho;
      try (eexists; reflexivity).
    destruct (dict_get c "baseline_expenditure") as [[|e|s]|] eqn:He;
      try (eexists; reflexivity).
    cbn [rbind as_float]. apply IH.
    inversion Hex as [? ? Hbad|? ? Htail]; subst; [|exact Htail].
    exfalso. apply Hbad. split; [now exists o|now exists e].
Qed.

(** The loop of [initialize_baseline_total_output_expend] on a country set
    in which every country has its two floats. *)
Lemma totals_run (country_set : dict (@Country F)) (economy : @Economy F) :
  Forall (fun kc => has_output_and_expenditure (snd kc)) country_set ->
  exists economy',
    initialize_baseline_total_output_expend country_set economy
    = (Ok tt, economy', [])
    /\ dict_get economy' "baseline_total_output"
       = Some (PyFloat (py_sum (map (fun kc => object_float (snd kc)
                                       "baseline_output") country_set)))
    /\ dict_get economy' "baseline_total_expenditure"
       = Some (PyFloat (py_sum (map (fun kc => object_float (snd kc)
                                       "baseline_expenditure") country_set)))
    /\ forall a, a <> "baseline_total_output" ->
         a <> "baseline_total_expenditure" ->
         dict_get economy' a = dict_get economy a.
Proof.
  intros Hall.
  unfold initialize_baseline_total_output_expend.
  rewrite (totals_loop country_set economy 0%fl 0%fl Hall).
  eexists. split; [reflexivity|].
  split; [|split].
  - rewrite !dict_get_set. reflexivity.
  - rewrite dict_get_set. reflexivity.
  - intros a H1 H2. rewrite !dict_get_set.
    apply String.eqb_neq in H1, H2. now rewrite H1, H2.
Qed.

(** X10.  [Economy.initialize_baseline_total_output_expend] sets the two totals
    to the sums of the countries' baseline outputs and expenditures, added
    up from [0] in the order of the country set (so they are [0] for an
    empty set), and touches no other attribute.  When some country has no
    numeric output or expenditure (a [None] makes the addition raise
    [TypeError]) the method raises and the economy is as it was: no total
    is assigned. *)
Theorem baseline_totals (country_set : dict (@Country F))
    (economy : @Economy F) :
  (Forall (fun kc => has_output_and_expenditure (snd kc)) country_set ->
   let total_output :=
     py_sum (map (fun kc => object_float (snd kc) "baseline_output")
                 country_set) in
   let total_expenditure :=
     py_sum (map (fun kc => object_float (snd kc) "baseline_expenditure")
                 country_set) in
   exists economy',
     initialize_baseline_total_output_expend country_set economy
     = (Ok tt, economy', [])
     /\ dict_get economy' "baseline_total_output"
        = Some (PyFloat total_output)
     /\ dict_get economy' "baseline_total_expenditure"
        = Some (PyFloat total_expenditure)
     /\ forall a, a <> "baseline_total_output" ->
          a <> "baseline_total_expenditure" ->
          dict_get economy' a = dict_get economy a)
  /\ (Exists (fun kc => ~ has_output_and_expenditure (snd kc)) country_set ->
      exists e,
        initialize_baseline_total_output_expend country_set economy
        = (Raise e, economy, []))
  /\ (forall k c rest,
        country_set = (k, c) :: rest ->
        dict_get c "baseline_output" = Some PyNone ->
        initialize_baseline_total_output_expend country_set economy
        = (Raise unsupported_operand, economy, [])).
Proof.
  split; [|split].
  - intros Hall total_output total_expenditure.
    destruct (totals_run country_set economy Hall)
      as [economy' [Hrun [Ho [He Hrest]]]].
    exists economy'. repeat split; assumption.
  - intros Hex. unfold initialize_baseline_total_output_expend.
    destruct (totals_loop_raises country_set 0%fl 0%fl Hex) as [e He].
    rewrite He. now exists e.
  - intros k c rest -> Ho.
    unfold initialize_baseline_total_output_expend. cbn [rbind].
    unfold getattr. rewrite Ho. reflexivity.
Qed.

End EconomyTotals.

(** ** The shares of the countries *)

(** One statement of a method of an object. *)
Ltac object_step :=
  first [ erewrite bind_attr
            by (rewrite ?dict_get_set;
                cbn [String.eqb Ascii.eqb Bool.eqb andb];
                first [eassumption|reflexivity])
        | rewrite binop_floats, bind_lift_ok
        | rewrite bind_lift_ok
        | rewrite bind_setattr ].

Section Shares.

Context {F : Type} {AF : Arith F}.

Lemma shares_run (economy : @Economy F) (c : @Country F) (e o te to : F) :
  dict_get c "baseline_expenditure" = Some (PyFloat e) ->
  dict_get c "baseline_output" = Some (PyFloat o) ->
  dict_get economy "baseline_total_expenditure" = Some (PyFloat te) ->
  dict_get economy "baseline_total_output" = Some (PyFloat to) ->
  calculate_baseline_output_expenditure_shares economy c
  = (Ok tt,
     dict_set (dict_set c "baseline_expenditure_share" (PyFloat (e / te)%fl))
              "baseline_output_share" (PyFloat (o / to)%fl),
     []).
Proof.
  intros He Ho Hte Hto.
  unfold calculate_baseline_output_expenditure_shares, getattr.
  rewrite Hte, Hto.
  repeat object_step.
  reflexivity.
Qed.

(** The countries after an assignment of two attributes to country [k]. *)
Lemma updates_two (cs : dict (@Country F)) (k : string) (c : @Country F)
    (a1 a2 : string) (v1 v2 : @pyval F) :
  dict_get cs k = Some c -> a1 <> a2 ->
  updates cs (dict_set cs k (dict_set (dict_set c a1 v1) a2 v2)) k
          [(a1, v1); (a2, v2)].
Proof.
  intros Hc Hne. split.
  - apply keys_dict_set. congruence.
  - intros k' a'. unfold cs_attr at 1. rewrite dict_get_set.
    destruct (String.eqb k' k) eqn:Hk; [|reflexivity].
    apply String.eqb_eq in Hk. subst k'.
    rewrite !dict_get_set. cbn [dict_get].
    destruct (String.eqb a' a1) eqn:H1.
    + apply String.eqb_eq in H1. subst a'.
      apply String.eqb_neq in Hne. now rewrite Hne.
    + destruct (String.eqb a' a2); [reflexivity|].
      unfold cs_attr. now rewrite Hc.
Qed.

Lemma for_each_congr {S A X} (f : S -> X) (v : X) (l : list A)
    (body body' : A -> M S unit) (s : S) :
  f s = v -> (forall a, keeps f (body' a)) ->
  (forall a s, f s = v -> body a s = body' a s) ->
  for_each l body s = for_each l body' s.
Proof.
  intros Hs Hk Heq. revert s Hs.
  induction l as [|a l IH]; intros s Hs; [reflexivity|].
  simpl. unfold bind. rewrite (Heq a s Hs).
  pose proof (Hk a s) as Hk1.
  destruct (body' a s) as [[[[]|e] s1] log]; [|reflexivity].
  simpl in Hk1. rewrite IH; [reflexivity|congruence].
Qed.

(** The attributes of the countries that the share loop reads. *)
Definition same_inputs (created cs : dict (@Country F)) : Prop :=
  forall k,
    cs_attr cs k "baseline_output" = cs_attr created k "baseline_output"
    /\ cs_attr cs k "baseline_expenditure"
       = cs_attr created k "baseline_expenditure".

(** The float an attribute of a country of a country set holds. *)
Definition set_float (cs : dict (@Country F)) (k a : string) : F :=
  match cs_attr cs k a with
  | Some (PyFloat v) => v
  | _ => nan
  end.

Lemma created_floats (created : dict (@Country F)) (k : string) :
  Forall (fun kc => has_output_and_expenditure (snd kc)) created ->
  NoDup (keys created) ->
  In k (keys created) ->
  cs_attr created k "baseline_output"
  = Some (PyFloat (set_float created k "baseline_output"))
  /\ cs_attr created k "baseline_expenditure"
     = Some (PyFloat (set_float created k "baseline_expenditure")).
Proof.
  intros Hall _ Hin. unfold set_float.
  destruct (In_keys_get created k Hin) as [c Hc].
  assert (Hc' : has_output_and_expenditure c).
  { rewrite Forall_forall in Hall.
    clear Hin. induction created as [|[k0 c0] cs IH]; [discriminate|].
    simpl in Hc. destruct (String.eqb k k0).
    - inversion Hc; subst. apply (Hall (k0, c)). now left.
    - apply IH; [|exact Hc]. intros x Hx. apply Hall. now right. }
  destruct Hc' as [[o Ho] [e He]].
  unfold cs_attr. rewrite Hc, Ho, He. now split.
Qed.

(** The run of the last lines of the constructor: the economy and the
    country set they leave, up to the computation of the trade costs. *)
Lemma init_run (created : dict (@Country F)) (self : @OneSectorGE F) :
  Forall (fun kc => has_output_and_expenditure (snd kc)) created ->
  NoDup (keys created) ->
  let total_output :=
    py_sum (map (fun kc => object_float (snd kc) "baseline_output") created) in
  let total_expenditure :=
    py_sum (map (fun kc => object_float (snd kc) "baseline_expenditure")
                created) in
  exists economy cs',
    let s2 := set_country_set cs'
                (set_economy economy (set_country_set created self)) in
    __init__from_countries created self
    = match _create_trade_costs (Some (baseline_data self)) s2 with
      | (Ok costs, _, log) => (Ok tt, set_baseline_trade_costs costs s2, log)
      | (Raise e, _, log) => (Raise e, s2, log)
      end
    /\ keys cs' = keys created
    /\ dict_get economy "baseline_total_output" = Some (PyFloat total_output)
    /\ dict_get economy "baseline_total_expenditure"
       = Some (PyFloat total_expenditure)
    /\ forall k, In k (keys created) ->
         cs_attr cs' k "baseline_output_share"
         = Some (PyFloat (set_float created k "baseline_output"
                          / total_output)%fl)
         /\ cs_attr cs' k "baseline_expenditure_share"
            = Some (PyFloat (set_float created k "baseline_expenditure"
                             / total_expenditure)%fl)
         /\ cs_attr cs' k "baseline_output"
            = cs_attr created k "baseline_output"
         /\ cs_attr cs' k "baseline_expenditure"
            = cs_attr created k "baseline_expenditure".
Proof.
  intros Hall Hnd total_output total_expenditure.
  set (outcome := __init__from_countries created self).
  destruct (totals_run created (new_Economy (sigma self)) Hall)
    as [economy [Hecon [Hto [Hte _]]]].
  fold total_output in Hto. fold total_expenditure in Hte.
  set (s1 := set_economy economy (set_country_set created self)).
  (* the loop over the countries *)
  set (assign := fun k : string =>
         [ ("baseline_expenditure_share",
            PyFloat (set_float created k "baseline_expenditure"
                     / total_expenditure)%fl);
           ("baseline_output_share",
            PyFloat (set_float created k "baseline_output"
                     / total_output)%fl) ]).
  set (body' := fun k : string =>
         (in_country k (calculate_baseline_output_expenditure_shares economy)
          : M (@OneSectorGE F) unit)).
  destruct (for_each_stores_under (same_inputs created) (fun k => k) assign
              body' (keys created) s1) as [cs' [Hloop [Hkeys [Hset Hkeep]]]].
  { intros k Hk s Hinv Hin.
    destruct (In_keys_get _ _ Hin) as [c Hc].
    destruct (created_floats created k Hall Hnd Hk) as [Ho He].
    destruct (Hinv k) as [Ho' He'].
    rewrite Ho in Ho'. rewrite He in He'.
    unfold cs_attr in Ho', He'. rewrite Hc in Ho', He'.
    exists (dict_set (country_set s) k
              (dict_set (dict_set c "baseline_expenditure_share"
                           (PyFloat (set_float created k "baseline_expenditure"
                                     / total_expenditure)%fl))
                        "baseline_output_share"
                        (PyFloat (set_float created k "baseline_output"
                                  / total_output)%fl))).
    split.
    - unfold body', in_country, zoom, lookup. rewrite Hc.
      rewrite (shares_run economy c _ _ _ _ He' Ho' Hte Hto). reflexivity.
    - apply updates_two; [exact Hc|discriminate]. }
  { intros k cs cs2 Hk Hinv [_ Hattr] k'.
    rewrite !Hattr. unfold assign. cbn [dict_get String.eqb Ascii.eqb Bool.eqb].
    destruct (String.eqb k' k); apply Hinv. }
  { intros k. split; reflexivity. }
  { rewrite map_id. exact Hnd. }
  { intros k Hk. exact Hk. }
  assert (Hbody : for_each (keys created)
            (fun country =>
               (self <- get ;;
                in_country country
                  (calculate_baseline_output_expenditure_shares
                     (_economy self)))%M) s1
            = for_each (keys created) body' s1).
  { apply (for_each_congr (@_economy F) economy).
    - reflexivity.
    - intros k. unfold body'. keeps_model.
    - intros k s Hs. unfold bind, get. rewrite Hs. unfold body'.
      now destruct (in_country k _ s) as [[r s2] l]. }
  set (s2 := set_country_set cs' s1) in *.
  assert (Hout : outcome
            = match _create_trade_costs (Some (baseline_data self)) s2 with
              | (Ok costs, _, log) =>
                  (Ok tt, set_baseline_trade_costs costs s2, log)
              | (Raise e, _, log) => (Raise e, s2, log)
              end).
  { unfold outcome, __init__from_countries.
    rewrite (bind_run _ _ _ _ _ _ (modify_run _ _)), after_nil.
    assert (Hce : _create_baseline_economy (set_country_set created self)
                  = (Ok economy, set_country_set created self, [])).
    { unfold _create_baseline_economy, bind, get, on_object.
      cbn [country_set sigma set_country_set]. now rewrite Hecon. }
    rewrite (bind_run _ _ _ _ _ _ Hce), after_nil.
    rewrite (bind_run _ _ _ _ _ _ (modify_run _ _)), after_nil.
    fold s1. unfold bind at 1. unfold get at 1. cbn iota beta.
    change (keys (country_set s1)) with (keys created).
    rewrite (bind_run _ _ _ _ _ _ (eq_trans Hbody Hloop)).
    fold s2. cbn [after app].
    unfold bind at 1. unfold get at 1. cbn iota beta.
    change (baseline_data s2) with (baseline_data self).
    pose proof (readonly_create_trade_costs (Some (baseline_data self)) s2)
      as Hro.
    unfold bind, modify.
    destruct (_create_trade_costs (Some (baseline_data self)) s2)
      as [[[costs|e] s3] log]; simpl in Hro; subst s3; cbn.
    - now rewrite app_nil_r.
    - reflexivity. }
  exists economy, cs'. cbn zeta. fold s1 s2.
  split; [exact Hout|].
  split; [exact Hkeys|split; [exact Hto|split; [exact Hte|]]].
  intros k Hk. repeat split.
  - apply (Hset k _ _ Hk). reflexivity.
  - apply (Hset k _ _ Hk). reflexivity.
  - rewrite Hkeep; [reflexivity|]. intros x _ _. reflexivity.
  - rewrite Hkeep; [reflexivity|]. intros x _ _. reflexivity.
Qed.

(** X11.  The last lines of the constructor, on a country set in which every
    country has its output and expenditure: the economy gets the two
    totals, and every country gets as its shares its expenditure and its
    output divided by the totals.  The shares are in the model whether the
    trade costs can then be computed or not, and the countries keep their
    keys. *)
Theorem init_shares (created : dict (@Country F)) (self : @OneSectorGE F) :
  Forall (fun kc => has_output_and_expenditure (snd kc)) created ->
  NoDup (keys created) ->
  let total_output :=
    py_sum (map (fun kc => object_float (snd kc) "baseline_output") created) in
  let total_expenditure :=
    py_sum (map (fun kc => object_float (snd kc) "baseline_expenditure")
                created) in
  let outcome := __init__from_countries created self in
  let self' := snd (fst outcome) in
  keys (country_set self') = keys created
  /\ dict_get (_economy self') "baseline_total_output"
     = Some (PyFloat total_output)
  /\ dict_get (_economy self') "baseline_total_expenditure"
     = Some (PyFloat total_expenditure)
  /\ (forall k, In k (keys created) ->
        stored self' k "baseline_output_share"
        = Some (PyFloat (set_float created k "baseline_output"
                         / total_output)%fl)
        /\ stored self' k "baseline_expenditure_share"
           = Some (PyFloat (set_float created k "baseline_expenditure"
                            / total_expenditure)%fl)
        /\ stored self' k "baseline_output"
           = cs_attr created k "baseline_output"
        /\ stored self' k "baseline_expenditure"
           = cs_attr created k "baseline_expenditure")
  /\ match fst (fst outcome) with
     | Ok _ =>
         fst (fst (_create_trade_costs (Some (baseline_data self)) self'))
         = Ok (baseline_trade_costs self')
     | Raise _ => baseline_trade_costs self' = baseline_trade_costs self
     end.
Proof.
  intros Hall Hnd total_output total_expenditure outcome self'.
  destruct (init_run created self Hall Hnd)
    as [economy [cs' [Hout [Hkeys [Hto [Hte Hshares]]]]]].
  cbn zeta in Hout. fold outcome in Hout.
  fold total_output in Hto, Hshares. fold total_expenditure in Hte, Hshares.
  set (s2 := set_country_set cs'
               (set_economy economy (set_country_set created self))) in *.
  assert (Hcs : country_set self' = cs').
  { unfold self'. rewrite Hout.
    now destruct (_create_trade_costs (Some (baseline_data self)) s2)
      as [[[costs|e] s3] log]. }
  assert (Hec : _economy self' = economy).
  { unfold self'. rewrite Hout.
    now destruct (_create_trade_costs (Some (baseline_data self)) s2)
      as [[[costs|e] s3] log]. }
  split; [|split; [|split; [|split]]].
  - rewrite Hcs. exact Hkeys.
  - rewrite Hec. exact Hto.
  - rewrite Hec. exact Hte.
  - intros k Hk. unfold stored. rewrite Hcs. exact (Hshares k Hk).
  - unfold self'. rewrite Hout.
    assert (Hsame : forall costs,
              fst (fst (_create_trade_costs (Some (baseline_data self))
                          (set_baseline_trade_costs costs s2)))
              = fst (fst (_create_trade_costs (Some (baseline_data self)) s2))).
    { intros costs. unfold _create_trade_costs, bind, get, lift, when, warn,
        emit, ret.
      cbn [cost_variables cost_coeffs country_set set_baseline_trade_costs].
      destruct (mapM (column (baseline_data self)) (cost_variables s2));
        [|reflexivity].
      destruct (mapM (lookup (cost_coeffs s2)) (cost_variables s2));
        [|reflexivity].
      repeat match goal with
             | |- context [if ?b then _ else _] => destruct b
             end; reflexivity. }
    destruct (_create_trade_costs (Some (baseline_data self)) s2)
      as [[[costs|e] s3] log] eqn:Hc; cbn [fst snd].
    + rewrite Hsame. reflexivity.
    + reflexivity.
Qed.

End Shares.

(** ** Trade costs *)

Section TradeCosts.

Context {F : Type} {AF : Arith F}.




End TradeCosts.

(** ** The result rows of a country *)

Section CountryResults.

Context {F : Type} {AF : Arith F}.

(** X14.  [Country.__init__] creates neither [exports_change] nor
    [imports_change], which [get_results] reads: on a country as its
    constructor leaves it, whatever the arguments, [get_results] raises
    [AttributeError], while [get_mr_results] returns its row with [None]
    for the six resistance terms.  Once the two attributes are assigned
    (as [_construct_experiment_trade] does), [get_results] returns its
    nine columns.  So [_compile_results] raises on a model whose first
    country has no aggregate trade yet, and changes nothing. *)
Theorem results_of_new_country (identifier year : string)
    (baseline_output baseline_expenditure baseline_importer_fe
       baseline_exporter_fe reference_expenditure : @pyval F) :
  let c := new_Country identifier year baseline_output baseline_expenditure
             baseline_importer_fe baseline_exporter_fe reference_expenditure in
  get_results c = Raise (AttributeError "exports_change")
  /\ get_mr_results c
     = Ok [ ("country", PyStr identifier);
            ("baseline_imr", PyNone);
            ("conditional_expiriment_imr", PyNone);
            ("experiment_imr", PyNone);
            ("baseline_omr", PyNone);
            ("conditional_expiriment_omr", PyNone);
            ("experiment_omr", PyNone) ]
  /\ (forall exports_change imports_change,
        get_results (dict_set (dict_set c "imports_change" imports_change)
                              "exports_change" exports_change)
        = Ok [ ("country", PyStr identifier);
               ("factory_price_change", PyNone);
               ("output_change", PyNone);
               ("expenditure_change", PyNone);
               ("export_change", exports_change);
               ("import_change", imports_change);
               ("foreign_export_change", PyNone);
               ("foreign_import_change", PyNone);
               ("terms_of_trade_change", PyNone) ])
  /\ (forall (self : @OneSectorGE F) k rest,
        country_set self = (k, c) :: rest ->
        _compile_results self
        = (Raise (AttributeError "exports_change"), self, [])).
Proof.
  intros c. split; [reflexivity|]. split; [reflexivity|].
  split.
  - intros exports_change imports_change. reflexivity.
  - intros self k rest Hcs.
    unfold _compile_results, bind, get. rewrite Hcs.
    cbn [keys map fst for_list].
    unfold bind, country, lookup. rewrite Hcs. cbn [dict_get].
    rewrite String.eqb_refl. reflexivity.
Qed.

End CountryResults.

(** ** The cost shock *)

Section CostShock.

Context {F : Type} {AF : Arith F}.

(** The key of a cost row in the merge of [define_experiment]. *)
Definition cost_key (c : @CostRow F) : string * string * string :=
  (tc_importer c, tc_exporter c, tc_year c).

Lemma same_key_eq (a b : @CostRow F) :
  same_key a b = true <-> cost_key a = cost_key b.
Proof.
  unfold same_key, cost_key. rewrite !andb_true_iff, !String.eqb_eq.
  split.
  - intros [[-> ->] ->]. reflexivity.
  - intros H. inversion H. auto.
Qed.

Lemma same_key_refl (a : @CostRow F) : same_key a a = true.
Proof. now apply same_key_eq. Qed.

Lemma filter_same_key (costs : list (@CostRow F)) (l : @CostRow F) :
  NoDup (map cost_key costs) -> In l costs ->
  filter (same_key l) costs = [l].
Proof.
  induction costs as [|c costs IH]; intros Hnd Hin; [contradiction|].
  inversion Hnd as [|? ? Hnotin Hnd']; subst. cbn [filter].
  destruct Hin as [->|Hin].
  - rewrite same_key_refl. f_equal.
    clear IH Hnd Hnd'. induction costs as [|c costs IH]; [reflexivity|].
    cbn [filter]. destruct (same_key l c) eqn:E.
    + exfalso. apply Hnotin. apply same_key_eq in E. rewrite E. now left.
    + apply IH. intros H. apply Hnotin. now right.
  - destruct (same_key l c) eqn:E.
    + exfalso. apply Hnotin. apply same_key_eq in E. rewrite <- E.
      now apply in_map.
    + now apply IH.
Qed.

(** The row of the cost shock for a cost row whose cost did not change. *)
Definition unchanged_row (c : @CostRow F) : @ShockRow F :=
  {| cs_importer := tc_importer c; cs_exporter := tc_exporter c;
     cs_year := tc_year c;
     baseline_trade_cost := trade_cost c;
     experiment_trade_cost := trade_cost c |}.

Lemma merge_outer_same (costs : list (@CostRow F)) :
  NoDup (map cost_key costs) ->
  merge_outer costs costs = map unchanged_row costs.
Proof.
  intros Hnd. unfold merge_outer.
  assert (Hright : filter (fun r => negb (existsb (same_key r) costs)) costs
                   = []).
  { assert (H : forall l, (forall r, In r l -> In r costs) ->
              filter (fun r => negb (existsb (same_key r) costs)) l = []).
    { induction l as [|r l IH]; intros Hl; [reflexivity|]. cbn [filter].
      assert (E : existsb (same_key r) costs = true).
      { apply existsb_exists. exists r.
        split; [apply Hl; now left|apply same_key_refl]. }
      rewrite E. cbn [negb]. apply IH. intros x Hx. apply Hl. now right. }
    apply H. auto. }
  rewrite Hright, app_nil_r.
  assert (H : forall l, (forall r, In r l -> In r costs) ->
            flat_map (fun l0 =>
              match filter (same_key l0) costs with
              | [] =>
                  [{| cs_importer := tc_importer l0;
                      cs_exporter := tc_exporter l0; cs_year := tc_year l0;
                      baseline_trade_cost := trade_cost l0;
                      experiment_trade_cost := nan |}]
              | c :: m =>
                  map (fun r =>
                         {| cs_importer := tc_importer l0;
                            cs_exporter := tc_exporter l0;
                            cs_year := tc_year l0;
                            baseline_trade_cost := trade_cost l0;
                            experiment_trade_cost := trade_cost r |})
                      (c :: m)
              end) l
            = map unchanged_row l).
  { induction l as [|r l IH]; intros Hl; [reflexivity|].
    cbn [flat_map map].
    rewrite (filter_same_key costs r Hnd (Hl r (or_introl eq_refl))).
    cbn [map app]. f_equal. apply IH. intros x Hx. apply Hl. now right. }
  apply H. auto.
Qed.

Lemma unchanged_rows_filtered (l : list (@CostRow F)) :
  (forall c, In c l -> feqb (trade_cost c) (trade_cost c) = true) ->
  filter (fun r => negb (feqb (baseline_trade_cost r)
                              (experiment_trade_cost r)))
         (map unchanged_row l) = [].
Proof.
  induction l as [|c l IH]; intros Hall; [reflexivity|].
  cbn [map filter unchanged_row baseline_trade_cost experiment_trade_cost].
  rewrite (Hall c (or_introl eq_refl)). cbn [negb].
  apply IH. intros x Hx. apply Hall. now right.
Qed.

(** X15.  An experiment on the data the baseline costs were computed from, with
    one row for each (importer, exporter, year): [define_experiment]
    returns, the experiment trade costs are the baseline trade costs, and
    the cost shock holds exactly the rows whose trade cost is not equal to
    itself, the missing values; it is empty when no cost is missing. *)
Theorem unchanged_experiment_shock (df : @DataFrame F)
    (self : @OneSectorGE F) :
  _baseline_built self = true ->
  fst (fst (_create_trade_costs (Some df) self))
  = Ok (baseline_trade_costs self) ->
  NoDup (map cost_key (baseline_trade_costs self)) ->
  exists self' log shock,
    define_experiment (Some df) self = (Ok tt, self', log)
    /\ experiment_trade_costs self' = Some (baseline_trade_costs self)
    /\ cost_shock self' = Some shock
    /\ (forall r, In r shock <->
          exists c, In c (baseline_trade_costs self)
                    /\ feqb (trade_cost c) (trade_cost c) = false
                    /\ r = unchanged_row c)
    /\ ((forall c, In c (baseline_trade_costs self) ->
           feqb (trade_cost c) (trade_cost c) = true) ->
        shock = []).
Proof.
  intros Hb Hcosts Hnd.
  rewrite (define_experiment_run (Some df) self Hb).
  destruct (_create_trade_costs (Some df) self) as [[[costs|e] s1] log];
    simpl in Hcosts; [|discriminate].
  inversion Hcosts; subst costs.
  eexists. exists log. eexists. split; [reflexivity|].
  split; [reflexivity|]. split; [reflexivity|].
  rewrite (merge_outer_same _ Hnd). split.
  - intros r. rewrite filter_In, in_map_iff. split.
    + intros [[c [<- Hc]] Hneq]. exists c. cbn in Hneq.
      apply negb_true_iff in Hneq. auto.
    + intros [c [Hc [Hneq ->]]]. split; [now exists c|].
      cbn. now rewrite Hneq.
  - apply unchanged_rows_filtered.
Qed.

End CostShock.

(** ** The MR solve on its normal path, and its failures *)

Section MRSolveOutcomes.

Context {F : Type} {AF : Arith F}.

Variable root :
  (list F -> result (list F)) -> list F -> @pyval F -> @pyval F -> option Z ->
  result (@OptimizeResult F).

(** What [report] logs. *)
Definition report_log (quiet : bool) (solved : @OptimizeResult F)
    : list event :=
  if String.eqb (opt_message solved) converged_message
  then if quiet then [] else [Print (opt_message solved)]
  else [Warn (opt_message solved)].

Lemma report_run (solved : @OptimizeResult F) (self : @OneSectorGE F) :
  report solved self = (Ok tt, self, report_log (quiet self) solved).
Proof.
  unfold report, report_log, bind, get.
  destruct (String.eqb (opt_message solved) converged_message);
    [|reflexivity].
  now destruct (quiet self).
Qed.

(** The line printed before a solve. *)
Definition solving_log (quiet : bool) (text : string) : list event :=
  if quiet then [] else [Print text].

Lemma solving_run (self : @OneSectorGE F) (text : string) :
  when (negb (quiet self)) (emit (Print text)) self
  = (Ok tt, self, solving_log (quiet self) text).
Proof. unfold solving_log. now destruct (quiet self). Qed.

(** The MR solve up to the point where the solution is unpacked. *)
Lemma mr_solve_start (self : @OneSectorGE F)
    (trade_costs : option (list (@CostRow F))) (version : string)
    (p : @MRParams F) (x0 : list F) (solved : @OptimizeResult F) :
  fst (fst (mr_problem trade_costs self)) = Ok (p, x0) ->
  root (fun x => _multilateral_resistances x p) x0
       (_mr_method self) (_mr_tolerance self) (_mr_max_iter self)
  = Ok solved ->
  let self1 := set_solver_diagnostics
                 (dict_set (solver_diagnostics self) (version ++ "_MRs") solved)
                 self in
  let country_list := sorted (keys (country_set self)) in
  _calculate_multilateral_resistance root trade_costs version false false self
  = after (snd (mr_problem trade_costs self)
           ++ solving_log (quiet self) ("Solving for " ++ version ++ " MRs...")
           ++ report_log (quiet self) solved)
      ((unpacked <- lift (unpack_mrs (length country_list) (opt_x solved)
                            (_imr_rescale self) (_omr_rescale self)) ;;
        mrs <- lift (mrs_frame country_list (fst unpacked) (snd unpacked)) ;;
        when (String.eqb version "baseline")
          (for_each mrs (fun row =>
             set_country_attr (fst row) "baseline_imr"
               (PyFloat (fst (snd row))) ;;
             set_country_attr (fst row) "baseline_omr"
               (PyFloat (snd (snd row))))) ;;
        when (String.eqb version "conditional")
          (for_each mrs (fun row =>
             set_country_attr (fst row) "conditional_imr"
               (PyFloat (fst (snd row))) ;;
             set_country_attr (fst row) "conditional_omr"
               (PyFloat (snd (snd row))))) ;;
        ret None)%M self1).
Proof.
  intros Hproblem Hroot self1 country_list.
  destruct (mr_problem_fields _ _ _ _ Hproblem) as [HpN [Hpi [Hpo Hx0]]].
  pose proof (readonly_run _ self _ (readonly_mr_problem trade_costs) Hproblem)
    as Hrun.
  unfold _calculate_multilateral_resistance.
  rewrite (bind_run _ _ self self self [] eq_refl).
  rewrite (bind_run _ _ _ _ _ _ Hrun). cbv beta iota zeta. simpl fst. simpl snd.
  rewrite (bind_run _ _ _ _ _ _ (solving_run self _)).
  rewrite (bind_run _ _ _ _ _ _ (lift_run _ _ self Hroot)).
  rewrite (bind_run _ _ _ _ _ _ (report_run solved self)).
  rewrite (bind_run _ _ _ _ _ _ (modify_run _ self)).
  cbv beta. fold self1. rewrite Hpi, Hpo.
  rewrite !after_after. unfold country_list. f_equal.
  cbn [app]. rewrite !app_nil_r, <- !app_assoc. reflexivity.
Qed.

(** The loop that stores the rows of the frame of IMRs and OMRs. *)
Lemma mr_store_loop (self1 : @OneSectorGE F) (N : nat) (imr omr : nat -> F)
    (a1 a2 : string) :
  N = length (keys (country_set self1)) ->
  NoDup (keys (country_set self1)) ->
  a1 <> a2 ->
  let country_list := sorted (keys (country_set self1)) in
  let mrs := combine country_list
               (combine (map imr (seq 0 N)) (map omr (seq 0 N))) in
  exists cs',
    for_each mrs (fun row =>
      bind (set_country_attr (fst row) a1 (PyFloat (fst (snd row))))
           (fun _ => set_country_attr (fst row) a2
                       (PyFloat (snd (snd row))))) self1
    = (Ok tt, set_country_set cs' self1, [])
    /\ keys cs' = keys (country_set self1)
    /\ (forall i, i < N ->
          cs_attr cs' (nth i country_list "") a1 = Some (PyFloat (imr i))
          /\ cs_attr cs' (nth i country_list "") a2 = Some (PyFloat (omr i)))
    /\ (forall k a, a <> a1 -> a <> a2 ->
          cs_attr cs' k a = cs_attr (country_set self1) k a).
Proof.
  intros HN Hnodup Hne country_list mrs.
  set (imrs := map imr (seq 0 N)) in *.
  set (omrs := map omr (seq 0 N)) in *.
  assert (Hlen : length country_list = N).
  { unfold country_list. now rewrite sorted_length. }
  assert (Himrs : length imrs = N)
    by (unfold imrs; now rewrite length_map, length_seq).
  assert (Homrs : length omrs = N)
    by (unfold omrs; now rewrite length_map, length_seq).
  destruct (for_each_stores fst
              (fun row : string * (F * F) =>
                 [(a1, PyFloat (fst (snd row))); (a2, PyFloat (snd (snd row)))])
              (fun row =>
                 bind (set_country_attr (fst row) a1 (PyFloat (fst (snd row))))
                      (fun _ => set_country_attr (fst row) a2
                                  (PyFloat (snd (snd row)))))
              mrs self1)
    as [cs' [Hloop [Hkeys [Hset Hkeep]]]].
  - intros row _. now apply stores_two.
  - unfold mrs. rewrite map_fst_combine.
    + now apply sorted_NoDup.
    + rewrite length_combine. lia.
  - intros row Hrow. simpl. apply sorted_In.
    apply (in_map fst) in Hrow. unfold mrs in Hrow.
    rewrite map_fst_combine in Hrow; [exact Hrow|].
    rewrite length_combine. lia.
  - exists cs'. split; [exact Hloop|]. split; [exact Hkeys|]. split.
    + intros i Hi.
      assert (Hin : In (nth i country_list "", (imr i, omr i)) mrs).
      { unfold mrs.
        replace (imr i, omr i) with (nth i (combine imrs omrs) (1%fl, 1%fl)).
        - apply In_combine_nth; [rewrite length_combine|]; lia.
        - rewrite combine_nth by lia. unfold imrs, omrs.
          rewrite (nth_indep _ 1%fl (imr 0))
            by (rewrite length_map, length_seq; lia).
          rewrite (nth_indep (map omr _) 1%fl (omr 0))
            by (rewrite length_map, length_seq; lia).
          rewrite !map_nth, !seq_nth by lia. reflexivity. }
      split.
      * apply (Hset _ a1 _ Hin). simpl. now rewrite String.eqb_refl.
      * apply (Hset _ a2 _ Hin). simpl.
        apply String.eqb_neq in Hne. rewrite String.eqb_sym, Hne.
        now rewrite String.eqb_refl.
    + intros k a H1 H2. apply Hkeep. intros x _ _. simpl.
      apply String.eqb_neq in H1, H2. now rewrite H1, H2.
Qed.

(** X16.  The baseline MR solve on its normal path.  When the share matrices
    can be built, both rescale factors are numbers and the root finder
    returns a vector of length [2N - 1], the method returns; it logs the
    warnings of the share matrices, then (unless the model is quiet) the
    line [Solving for baseline MRs...], then the solver's message: printed
    when it is [The solution converged.] (and not at all on a quiet
    model), issued as a warning otherwise.  The result object is stored
    under [baseline_MRs]; the countries keep their keys; in sorted order,
    country [i] gets as [baseline_imr] entry [i] of the solution times
    [imr_rescale] and as [baseline_omr] entry [N - 1 + i] times
    [omr_rescale], except that the last country of the order gets the IMR
    [1]; every other attribute of every country is as it was. *)
Theorem baseline_mr_solve
    (self : @OneSectorGE F) (trade_costs : option (list (@CostRow F)))
    (p : @MRParams F) (x0 : list F) (solved : @OptimizeResult F)
    (r_imr r_omr : F) :
  let country_list := sorted (keys (country_set self)) in
  let N := length (keys (country_set self)) in
  1 <= N ->
  NoDup (keys (country_set self)) ->
  _imr_rescale self = PyFloat r_imr ->
  _omr_rescale self = PyFloat r_omr ->
  fst (fst (mr_problem trade_costs self)) = Ok (p, x0) ->
  root (fun x => _multilateral_resistances x p) x0
       (_mr_method self) (_mr_tolerance self) (_mr_max_iter self)
  = Ok solved ->
  length (opt_x solved) = 2 * N - 1 ->
  exists self',
    _calculate_multilateral_resistance root trade_costs "baseline" false false
      self
    = (Ok None, self',
       snd (mr_problem trade_costs self)
       ++ solving_log (quiet self) "Solving for baseline MRs..."
       ++ report_log (quiet self) solved)
    /\ solver_diagnostics self'
       = dict_set (solver_diagnostics self) "baseline_MRs" solved
    /\ keys (country_set self') = keys (country_set self)
    /\ (forall i, i < N ->
          stored self' (nth i country_list "") "baseline_imr"
          = Some (PyFloat (if Nat.eqb i (N - 1) then 1%fl
                           else (nth i (opt_x solved) nan * r_imr)%fl))
          /\ stored self' (nth i country_list "") "baseline_omr"
             = Some (PyFloat (nth (N - 1 + i) (opt_x solved) nan * r_omr)%fl))
    /\ (forall k a, a <> "baseline_imr" -> a <> "baseline_omr" ->
          stored self' k a = stored self k a).
Proof.
  intros country_list N HN Hnodup Himr Homr Hproblem Hroot Hx.
  rewrite (mr_solve_start self trade_costs "baseline" p x0 solved Hproblem
             Hroot).
  set (self1 := set_solver_diagnostics _ self).
  rewrite Himr, Homr, sorted_length. fold N.
  rewrite (bind_run _ _ _ _ _ _
             (lift_run _ _ self1
                (unpack_mrs_floats N (opt_x solved) r_imr r_omr HN Hx))).
  simpl fst. simpl snd.
  set (imrs := map (IMR N r_imr (opt_x solved)) (seq 0 N)).
  set (omrs := map (OMR N r_omr (opt_x solved)) (seq 0 N)).
  assert (Hframe : mrs_frame (sorted (keys (country_set self))) imrs omrs
                   = Ok (combine country_list (combine imrs omrs))).
  { unfold mrs_frame. fold country_list.
    unfold imrs, omrs. rewrite !length_map, !length_seq.
    unfold country_list. rewrite sorted_length. fold N.
    rewrite Nat.eqb_refl. reflexivity. }
  rewrite (bind_run _ _ _ _ _ _ (lift_run _ _ self1 Hframe)).
  destruct (mr_store_loop self1 N (IMR N r_imr (opt_x solved))
              (OMR N r_omr (opt_x solved)) "baseline_imr" "baseline_omr")
    as [cs' [Hl [Hkeys [Hattrs Hkeep]]]];
    [reflexivity|exact Hnodup|discriminate|].
  change (keys (country_set self1)) with (keys (country_set self)) in Hl.
  fold country_list imrs omrs in Hl.
  change (String.eqb "baseline" "baseline") with true.
  change (String.eqb "baseline" "conditional") with false.
  unfold when at 1.
  rewrite (bind_run _ _ _ _ _ _ Hl).
  unfold when at 1. rewrite (bind_run (ret tt) _ _ _ tt [] eq_refl).
  unfold ret, after. cbn [app]. rewrite !app_nil_r.
  eexists. split; [reflexivity|].
  split; [reflexivity|]. split; [exact Hkeys|]. split.
  - intros i Hi. destruct (Hattrs i Hi) as [H1 H2].
    unfold stored. cbn [country_set set_country_set].
    split; [|exact H2].
    etransitivity; [exact H1|]. unfold IMR. do 2 f_equal.
    destruct (Nat.ltb_spec i (N - 1)); destruct (Nat.eqb_spec i (N - 1));
      try reflexivity; lia.
  - intros k a H1 H2. unfold stored. cbn [country_set set_country_set].
    now apply Hkeep.
Qed.

(** X17.  The failures of the MR solve.  An exception of the root finder
    propagates and nothing is stored: the model is as it was.  A solution
    vector whose length is not [2N - 1] is rejected with [ValueError] when
    the frame of IMRs and OMRs is built: by then the solver's message has
    been reported and the result object stored under the version's key, but
    no country has been touched. *)
Theorem mr_solve_failures
    (self : @OneSectorGE F) (trade_costs : option (list (@CostRow F)))
    (version : string) (p : @MRParams F) (x0 : list F) :
  let N := length (keys (country_set self)) in
  let log0 :=
    snd (mr_problem trade_costs self)
    ++ solving_log (quiet self) ("Solving for " ++ version ++ " MRs...") in
  fst (fst (mr_problem trade_costs self)) = Ok (p, x0) ->
  (forall e,
     root (fun x => _multilateral_resistances x p) x0
          (_mr_method self) (_mr_tolerance self) (_mr_max_iter self)
     = Raise e ->
     _calculate_multilateral_resistance root trade_costs version false false
       self
     = (Raise e, self, log0))
  /\ (forall solved r_imr r_omr,
        root (fun x => _multilateral_resistances x p) x0
             (_mr_method self) (_mr_tolerance self) (_mr_max_iter self)
        = Ok solved ->
        _imr_rescale self = PyFloat r_imr ->
        _omr_rescale self = PyFloat r_omr ->
        length (opt_x solved) <> 2 * N - 1 ->
        exists msg,
          _calculate_multilateral_resistance root trade_costs version false
            false self
          = (Raise (ValueError msg),
             set_solver_diagnostics
               (dict_set (solver_diagnostics self) (version ++ "_MRs") solved)
               self,
             log0 ++ report_log (quiet self) solved)).
Proof.
  intros N log0 Hproblem. split.
  - intros e Hroot.
    pose proof (readonly_run _ self _ (readonly_mr_problem trade_costs)
                  Hproblem) as Hrun.
    unfold _calculate_multilateral_resistance.
    rewrite (bind_run _ _ self self self [] eq_refl).
    rewrite (bind_run _ _ _ _ _ _ Hrun).
    cbv beta iota zeta. simpl fst. simpl snd.
    rewrite (bind_run _ _ _ _ _ _ (solving_run self _)).
    unfold bind at 1, lift at 1. rewrite Hroot.
    unfold after, log0. cbn [app]. now rewrite app_nil_r.
  - intros solved r_imr r_omr Hroot Himr Homr Hx.
    eexists.
    rewrite (mr_solve_start self trade_costs version p x0 solved Hproblem
               Hroot).
    rewrite Himr, Homr, sorted_length. fold N.
    unfold unpack_mrs. rewrite !scale_float. cbn [rbind].
    rewrite bind_lift_ok. cbn [fst snd].
    unfold mrs_frame.
    rewrite length_app, !length_map, length_firstn, length_skipn,
      sorted_length.
    fold N. cbn [length].
    replace (Nat.eqb (Nat.min (N - 1) (length (opt_x solved)) + 1) N
             && Nat.eqb (length (opt_x solved) - (N - 1)) N) with false.
    + unfold bind at 1, lift at 1. unfold after, log0.
      now rewrite app_nil_r, <- app_assoc.
    + symmetry. apply andb_false_iff.
      destruct (Nat.eqb_spec (Nat.min (N - 1) (length (opt_x solved)) + 1) N);
        [|now left].
      destruct (Nat.eqb_spec (length (opt_x solved) - (N - 1)) N);
        [|now right].
      lia.
Qed.

End MRSolveOutcomes.

(** ** The rescale sweep *)

Section Loops.

Context {S : Type}.

Lemma for_list_length {A B} (l : list A) (body : A -> M S B) (s s' : S)
    (bs : list B) (log : list event) :
  for_list l body s = (Ok bs, s', log) -> length bs = length l.
Proof.
  revert s bs log. induction l as [|a l IH]; simpl; intros s bs log H.
  - inversion H. reflexivity.
  - apply bind_ok_inv in H. destruct H as [b [s1 [l1 [l2 [_ [H _]]]]]].
    apply bind_ok_inv in H. destruct H as [bs' [s2 [l3 [l4 [Hbs [H _]]]]]].
    inversion H; subst. simpl. f_equal. exact (IH _ _ _ Hbs).
Qed.

(** What the last round of a loop establishes holds after the loop. *)
Lemma for_list_last {A B} (P : S -> Prop) (l : list A) (a : A)
    (body : A -> M S B) (s s' : S) (bs : list B) (log : list event) :
  ensures P (body a) ->
  for_list (l ++ [a]) body s = (Ok bs, s', log) -> P s'.
Proof.
  intros Ha. revert s bs log. induction l as [|x l IH]; simpl; intros s bs log H.
  - apply bind_ok_inv in H. destruct H as [b [s1 [l1 [l2 [Hb [H _]]]]]].
    inversion H; subst. exact (Ha _ _ _ _ Hb).
  - apply bind_ok_inv in H. destruct H as [b [s1 [l1 [l2 [_ [H _]]]]]].
    apply bind_ok_inv in H. destruct H as [bs' [s2 [l3 [l4 [Hbs [H _]]]]]].
    inversion H; subst. exact (IH _ _ _ Hbs).
Qed.

End Loops.

Lemma range_length (start stop : Z) :
  length (range start stop) = Z.to_nat (stop - start).
Proof. unfold range. now rewrite length_map, length_seq. Qed.

Lemma range_sweep (r : Z) :
  (0 <= r)%Z ->
  range (-1 * r) (r + 1) = range (-1 * r) r ++ [r].
Proof.
  intros Hr. unfold range.
  replace (Z.to_nat (r + 1 - -1 * r)) with (Datatypes.S (Z.to_nat (r - -1 * r)))
    by lia.
  rewrite seq_S, map_app. cbn [map Nat.add]. do 2 f_equal. lia.
Qed.

Lemma range_empty (r : Z) : (r < 0)%Z -> range (-1 * r) (r + 1) = [].
Proof.
  intros Hr. unfold range.
  replace (Z.to_nat (r + 1 - -1 * r)) with 0 by lia. reflexivity.
Qed.

Section RescaleSweep.

Context {F : Type} {AF : Arith F}.

Variable root :
  (list F -> result (list F)) -> list F -> @pyval F -> @pyval F -> option Z ->
  result (@OptimizeResult F).
Variable array_max array_mean median : list F -> result F.
Variable format_number : F -> string.

Section SweepFrame.

Context {X : Type}.
Variable f : @OneSectorGE F -> X.
Hypothesis f_omr_rescale : forall v s, f (set_omr_rescale v s) = f s.
Hypothesis f_imr_rescale : forall v s, f (set_imr_rescale v s) = f s.
Hypothesis f_mr_max_iter : forall v s, f (set_mr_max_iter v s) = f s.
Hypothesis f_mr_tolerance : forall v s, f (set_mr_tolerance v s) = f s.
Hypothesis f_mr_method : forall v s, f (set_mr_method v s) = f s.
Hypothesis f_country_set : forall v s, f (set_country_set v s) = f s.
Hypothesis f_solver_diagnostics :
  forall v s, f (set_solver_diagnostics v s) = f s.

Lemma keeps_check_omr_rescale (omr_rescale_range : Z) (mr_method : @pyval F)
    (mr_max_iter : option Z) (mr_tolerance : @pyval F)
    (countries : list string) :
  keeps f (check_omr_rescale root array_max array_mean median format_number
             omr_rescale_range mr_method mr_max_iter mr_tolerance countries).
Proof. unfold check_omr_rescale. keeps_model. Qed.

End SweepFrame.

(** What [check_omr_rescale] never touches. *)
Definition outside_check_omr_rescale (s s' : @OneSectorGE F) : Prop :=
  _baseline_built s' = _baseline_built s
  /\ _experiment_defined s' = _experiment_defined s
  /\ baseline_trade_costs s' = baseline_trade_costs s
  /\ experiment_trade_costs s' = experiment_trade_costs s
  /\ cost_shock s' = cost_shock s
  /\ experiment_data s' = experiment_data s
  /\ baseline_data s' = baseline_data s
  /\ _economy s' = _economy s
  /\ _reference_importer s' = _reference_importer s
  /\ _ge_method s' = _ge_method s
  /\ _ge_tolerance s' = _ge_tolerance s
  /\ _ge_max_iter s' = _ge_max_iter s
  /\ bilateral_trade_results s' = bilateral_trade_results s
  /\ aggregate_trade_results s' = aggregate_trade_results s
  /\ factory_gate_prices s' = factory_gate_prices s
  /\ outputs_expenditures s' = outputs_expenditures s
  /\ country_results s' = country_results s
  /\ country_mr_terms s' = country_mr_terms s.

(** X18.  [check_omr_rescale] is not a read-only diagnostic.  Whatever its
    outcome it stores its three solver settings and sets [_imr_rescale] to
    [1]; it never touches the status flags, the trade costs, the data or
    the result fields.  With a negative range it tries nothing and returns
    an empty table.  With a range [r >= 0], when it returns, the table has
    [2r + 1] rows and the model is left with [_omr_rescale = 10 ** r], the
    last factor tried, whatever [build_baseline] had stored. *)
Theorem check_omr_rescale_effects (omr_rescale_range : Z)
    (mr_method : @pyval F) (mr_max_iter : option Z) (mr_tolerance : @pyval F)
    (countries : list string) (self : @OneSectorGE F) :
  let outcome :=
    check_omr_rescale root array_max array_mean median format_number
      omr_rescale_range mr_method mr_max_iter mr_tolerance countries self in
  let self' := snd (fst outcome) in
  (_mr_max_iter self' = mr_max_iter
   /\ _mr_tolerance self' = mr_tolerance
   /\ _mr_method self' = mr_method
   /\ _imr_rescale self' = PyFloat 1%fl)
  /\ outside_check_omr_rescale self self'
  /\ ((omr_rescale_range < 0)%Z ->
      outcome
      = (Ok [],
         set_imr_rescale (PyFloat 1%fl)
           (set_mr_method mr_method
              (set_mr_tolerance mr_tolerance
                 (set_mr_max_iter mr_max_iter self))),
         []))
  /\ ((0 <= omr_rescale_range)%Z ->
      forall findings,
        fst (fst outcome) = Ok findings ->
        length findings = Z.to_nat (2 * omr_rescale_range + 1)
        /\ _omr_rescale self' = PyFloat (power_of_ten omr_rescale_range)).
Proof.
  intros outcome self'. split; [|split; [|split]].
  - unfold self', outcome.
    repeat split;
      match goal with
      | |- ?f (snd (fst (?c ?s))) = ?v =>
          generalize s; change (leaves f v c)
      end;
      unfold check_omr_rescale;
      repeat first
        [ apply leaves_modify_then; [intros; reflexivity|intros ?; keeps_model]
        | apply leaves_after_modify; intros ? ].
  - unfold outside_check_omr_rescale, self', outcome.
    repeat split;
      match goal with
      | |- ?f (snd (fst (?c ?s))) = ?f ?s =>
          apply (keeps_check_omr_rescale f); intros; reflexivity
      end.
  - intros Hr. unfold outcome, check_omr_rescale.
    rewrite (range_empty _ Hr). reflexivity.
  - intros Hr findings Hok.
    destruct outcome as [[r s1] log] eqn:Hout. simpl in Hok. subst r.
    unfold self'. cbn [fst snd].
    unfold outcome, check_omr_rescale in Hout.
    apply bind_ok_inv in Hout. destruct Hout as [[] [s2 [l1 [l2 [_ [Hout _]]]]]].
    apply bind_ok_inv in Hout. destruct Hout as [[] [s3 [l3 [l4 [_ [Hout _]]]]]].
    apply bind_ok_inv in Hout. destruct Hout as [[] [s4 [l5 [l6 [_ [Hout _]]]]]].
    apply bind_ok_inv in Hout. destruct Hout as [[] [s5 [l7 [l8 [_ [Hout _]]]]]].
    split.
    + rewrite (for_list_length _ _ _ _ _ _ Hout), range_length. f_equal. lia.
    + rewrite (range_sweep _ Hr) in Hout.
      refine (for_list_last
                (fun s => _omr_rescale s = PyFloat (power_of_ten omr_rescale_range))
                _ _ _ _ _ _ _ _ Hout).
      ensures_model.
Qed.

End RescaleSweep.

(** ** The order of the countries *)




(** ** The share matrices *)







Section ShareMatrices.

Context {F : Type} {AF : Arith F}.






End ShareMatrices.

(** ** The closed-form baseline *)

Section GEPPMLBaseline.

Context {F : Type} {AF : Arith F}.









End GEPPMLBaseline.

(** ** Outputs and expenditures of the experiment *)

Section ExperimentOutputs.

Context {F : Type} {AF : Arith F}.












End ExperimentOutputs.



Section ExperimentOutputsRun.

Context {F : Type} {AF : Arith F}.



End ExperimentOutputsRun.

(** ** Further properties at the two-country economy *)

Lemma full_ge_domain_witness :
  ((exists out,
      _full_ge (ones 5)
        {| ge_number_of_countries := 2;
           ge_omr_rescale := num 1; ge_imr_rescale := num 1;
           ge_sigma := Some 5%R;
           ge_cost_exp_shr := shares_AB; ge_cost_out_shr := shares_AB;
           ge_output_shr := [num (1/2); num (1/2)];
           ge_factory_gate_param := [num 1; num 1] |} = Ok out)
   <-> 5 <= 5)
  /\ _full_ge (ones 7)
       {| ge_number_of_countries := 2;
          ge_omr_rescale := num 1; ge_imr_rescale := num 1;
          ge_sigma := Some 5%R;
          ge_cost_exp_shr := shares_AB; ge_cost_out_shr := shares_AB;
          ge_output_shr := [num (1/2); num (1/2)];
          ge_factory_gate_param := [num 1; num 1] |}
     = _full_ge (ones 5)
         {| ge_number_of_countries := 2;
            ge_omr_rescale := num 1; ge_imr_rescale := num 1;
            ge_sigma := Some 5%R;
            ge_cost_exp_shr := shares_AB; ge_cost_out_shr := shares_AB;
            ge_output_shr := [num (1/2); num (1/2)];
            ge_factory_gate_param := [num 1; num 1] |}.
Proof.
  assert (Hfloats : forall a b : R, all_floats [num a; num b]).
  { intros a b. repeat constructor; eexists; reflexivity. }
  split.
  - apply (full_ge_domain 2 (Some 5%R) shares_AB shares_AB (Some 1%R)
             (Some 1%R) [num (1/2); num (1/2)] [num 1; num 1] (ones 5));
      try exact square_shares_AB; try apply Hfloats; try reflexivity; lia.
  - apply (full_ge_domain 2 (Some 5%R) shares_AB shares_AB (Some 1%R)
             (Some 1%R) [num (1/2); num (1/2)] [num 1; num 1] (ones 7));
      try exact square_shares_AB; try apply Hfloats; try reflexivity; lia.
Defined.

Lemma simulate_GEPPML_raises_witness :
  exists e self' log,
    simulate stalled_root (PyStr "hybr") tolerance (Some 1000%Z)
      (model_AB (Some "GEPPML"))
    = (Raise e, self', log).
Proof.
  apply (simulate_GEPPML_raises stalled_root (PyStr "hybr") tolerance
           (Some 1000%Z) (model_AB (Some "GEPPML")) "A").
  - reflexivity.
  - vm_compute. now left.
  - vm_compute. reflexivity.
Defined.

Definition first_value (l : list Rnan) : result Rnan :=
  match l with
  | [] => Raise (ValueError "zero-size array")
  | v :: _ => Ok v
  end.

Lemma quiet_suppresses_prints_witness :
  prints (snd (build_baseline stalled_root (num 1) (num 1) (PyStr "hybr")
                 (Some 1400%Z) tolerance (model_AB None))) = []
  /\ prints (snd (check_omr_rescale stalled_root first_value first_value
                    first_value (fun _ => "") 1%Z (PyStr "hybr")
                    (Some 1400%Z) tolerance ["A"] (model_AB None))) = [].
Proof.
  destruct (quiet_suppresses_prints stalled_root first_value first_value
              first_value (fun _ => "") (model_AB None) eq_refl)
    as [Hbuild [_ [_ Hcheck]]].
  split; [apply Hbuild|apply Hcheck].
Defined.

Lemma test_baseline_mr_function_diagnostics_witness :
  fst (fst (test_baseline_mr_function stalled_root true
              (model_AB_settings None)))
  = Ok (Some {| td_initial_values := ones 3;
                td_mr_params := fst problem_AB;
                td_function_value := None |}).
Proof.
  destruct (test_baseline_mr_function_diagnostics stalled_root
              (model_AB_settings None) (fst problem_AB) (snd problem_AB))
    as [_ [_ [Hx0 [Hinputs _]]]].
  - vm_compute. lia.
  - vm_compute. reflexivity.
  - rewrite Hinputs. rewrite Hx0. reflexivity.
Defined.

Lemma countries_AB_objects :
  Forall (fun kc => @has_output_and_expenditure Rnan (snd kc)) countries_AB.
Proof.
  repeat constructor; eexists; vm_compute; reflexivity.
Defined.

Lemma init_shares_witness :
  keys (country_set (snd (fst (__init__from_countries countries_AB
                                 (model_AB None))))) = ["A"; "B"].
Proof.
  exact (proj1 (init_shares countries_AB (model_AB None) countries_AB_objects
                  NoDup_AB)).
Defined.

Definition costs_of (r : result (list (@CostRow Rnan))) : list (@CostRow Rnan) :=
  match r with
  | Ok costs => costs
  | Raise _ => []
  end.

(** The model once its baseline is built, with the trade costs that the
    constructor computes from the data. *)
Definition model_AB_built : @OneSectorGE Rnan :=
  set_baseline_trade_costs
    (costs_of (fst (fst (_create_trade_costs (Some data_AB) (model_AB None)))))
    (set_baseline_built true (model_AB_settings None)).

Lemma unchanged_experiment_shock_witness :
  exists self' log shock,
    define_experiment (Some data_AB) model_AB_built = (Ok tt, self', log)
    /\ experiment_trade_costs self' = Some (baseline_trade_costs model_AB_built)
    /\ cost_shock self' = Some shock.
Proof.
  destruct (unchanged_experiment_shock data_AB model_AB_built)
    as [self' [log [shock [Hrun [Hcosts [Hshock _]]]]]].
  - reflexivity.
  - vm_compute. reflexivity.
  - vm_compute.
    repeat (constructor; [simpl; intuition discriminate|]). constructor.
  - exists self', log, shock. repeat split; assumption.
Defined.

Definition solved_AB : @OptimizeResult Rnan :=
  {| opt_x := solution_AB; opt_success := true;
     opt_message := converged_message;
     opt_fun := [Some 0%R; Some 0%R; Some 0%R] |}.

Lemma baseline_mr_solve_witness :
  exists self',
    fst (fst (_calculate_multilateral_resistance exact_root (Some costs_AB)
                "baseline" false false (model_AB_settings None)))
    = Ok None
    /\ snd (fst (_calculate_multilateral_resistance exact_root (Some costs_AB)
                   "baseline" false false (model_AB_settings None)))
       = self'
    /\ stored self' "B" "baseline_imr" = Some (PyFloat (Some 1%R)).
Proof.
  destruct (baseline_mr_solve exact_root (model_AB_settings None)
              (Some costs_AB) (fst problem_AB) (snd problem_AB) solved_AB
              (Some 1%R) (Some 1%R))
    as [self' [Hrun [_ [_ [Hstored _]]]]].
  - vm_compute. lia.
  - exact NoDup_AB.
  - reflexivity.
  - reflexivity.
  - vm_compute. reflexivity.
  - reflexivity.
  - reflexivity.
  - exists self'. rewrite Hrun. repeat split.
    exact (proj1 (Hstored 1 ltac:(vm_compute; lia))).
Defined.

Definition failing_root (f : list Rnan -> result (list Rnan)) (x0 : list Rnan)
    (method tol : @pyval Rnan) (maxfev : option Z)
    : result (@OptimizeResult Rnan) :=
  Raise (ValueError "unknown solver").

Lemma mr_solve_failures_witness :
  fst (_calculate_multilateral_resistance failing_root (Some costs_AB)
         "baseline" false false (model_AB_settings None))
  = (Raise (ValueError "unknown solver"), model_AB_settings None).
Proof.
  destruct (mr_solve_failures failing_root (model_AB_settings None)
              (Some costs_AB) "baseline" (fst problem_AB) (snd problem_AB))
    as [Hraise _].
  - vm_compute. reflexivity.
  - rewrite (Hraise (ValueError "unknown solver") eq_refl). reflexivity.
Defined.




